(** * Mortgage pay-down simulators (src/lib/mortgageMath.js)

    A shallow embedding of the four simulators and of the orchestrator
    [simulateAllStrategies], followed by the properties established for them.

    Modelling conventions.
    - The simulators, the orchestrator and the hooks are embedded in exact
      arithmetic: a JavaScript number that holds an amount of money or a rate
      is an exact rational ([Q]), with [==] its numeric equality, and a
      number that holds a count of months (terms, the safety cap, the loop
      counters) is an integer ([Z]).  The properties of amounts and of how
      the results relate are stated on this embedding.
    - The three loan simulators are embedded a second time over an arbitrary
      arithmetic (module [Generic] over [Num.Arith]), of which exact
      arithmetic ([Num.Exact]) and IEEE binary64 ([Num.Binary64], on the
      primitive floats) are instances; there the counters and the cap are
      numbers like any other.  The properties that turn on the outcome of a
      comparison, the raising of the error and the number of iterations, are
      stated on this embedding, and so hold of the program's doubles.
    - An optional parameter with a default ([maxMonthsSimulated = 1200],
      [repeatChunks = false], [investmentReturnAnnual = 0]) is an [option]
      resolved by [dflt] exactly where the source destructures it.
    - [throw new Error(msg)] is the result [Throw msg].
    - A [while]/[for] loop is the combinator [while], which tests the source's
      loop condition itself and is driven by a fuel counter; the result
      [OutOfFuel] is kept apart from every result of the program, and the
      simulators are shown never to produce it once the fuel covers the
      iterations the cap allows. *)

From Stdlib Require Import ZArith QArith Qpower Qround Lqa Lia String Bool List
  Floats.

Open Scope Q_scope.

(** ** Results of a call: a value, a thrown error, or exhausted fuel *)

Inductive res (A : Type) : Type :=
| Ok (a : A)
| Throw (msg : string)
| OutOfFuel.

Arguments Ok {A} a.
Arguments Throw {A} msg.
Arguments OutOfFuel {A}.

Definition bind {A B : Type} (m : res A) (k : A -> res B) : res B :=
  match m with
  | Ok a => k a
  | Throw msg => Throw msg
  | OutOfFuel => OutOfFuel
  end.

Notation "x <- m ;; k" := (bind m (fun x => k))
  (at level 61, m at next level, right associativity).

(** [while cond body fuel s]: test [cond]; when it holds run [body] once and
    loop.  Fuel is consumed by an iteration only, so [fuel] iterations can run
    and the final test of [cond] is free. *)
Fixpoint while {S : Type} (cond : S -> bool) (body : S -> res S)
         (fuel : nat) (s : S) : res S :=
  if cond s then
    match fuel with
    | O => OutOfFuel
    | Datatypes.S fuel' =>
        match body s with
        | Ok s' => while cond body fuel' s'
        | Throw msg => Throw msg
        | OutOfFuel => OutOfFuel
        end
    end
  else Ok s.

(** ** The JavaScript operators the simulators use, on exact rationals *)

Module JS.

(** [a <= b] *)
Definition le (a b : Q) : bool := Qle_bool a b.
(** [a > b] *)
Definition gt (a b : Q) : bool := negb (Qle_bool a b).
(** [a < b] *)
Definition lt (a b : Q) : bool := negb (Qle_bool b a).
(** [a === b] on numbers *)
Definition eq3 (a b : Q) : bool := Qeq_bool a b.
(** [!a] on a number: only zero is falsy here *)
Definition not_num (a : Q) : bool := Qeq_bool a 0.
Definition not_int (a : Z) : bool := (a =? 0)%Z.
(** [a || 0] on a number *)
Definition or_zero (a : Q) : Q := if not_num a then 0 else a.
Definition or_zero_int (a : Z) : Z := if not_int a then 0%Z else a.
(** [Math.min(a, b)] *)
Definition Math_min (a b : Q) : Q := if Qle_bool a b then a else b.
(** [Math.pow(x, n)] for an integer exponent *)
Definition Math_pow (x : Q) (n : Z) : Q := Qpower x n.
(** a destructuring default: [{ x = d } = params] *)
Definition dflt {A : Type} (d : A) (o : option A) : A :=
  match o with Some a => a | None => d end.

End JS.

Import JS.

(** ** computeBaselineMortgage *)

Module Baseline.

Record params : Type := {
  mortgageBalance : Q;
  mortgageTermMonths : Z;
  mortgageRateAnnual : Q;
  maxMonthsSimulated : option Z
}.

Record result : Type := {
  baselineMonthlyPayment : Q;
  baselineMonths : Z;
  totalInterestBaseline : Q
}.

(** the loop variables [balance], [totalInterestBaseline], [baselineMonths] *)
Record state : Type := {
  balance : Q;
  totalInterest : Q;
  months : Z
}.

End Baseline.

(** The level payment: the annuity formula when the monthly rate is positive,
    principal over term otherwise. *)
Definition levelPayment (P0 : Q) (nM : Z) (rM : Q) : Q :=
  if gt rM 0 then (P0 * rM) / (1 - Math_pow (1 + rM) (- nM))
  else P0 / inject_Z nM.

Definition baseline_cond (cap : Z) (s : Baseline.state) : bool :=
  gt (Baseline.balance s) 0 && (Baseline.months s <? cap)%Z.

Definition baseline_body (rM baselineMonthlyPayment : Q) (s : Baseline.state)
  : Baseline.state :=
  let baselineMonths := (Baseline.months s + 1)%Z in
  let balance := Baseline.balance s in
  let interest := balance * rM in
  let payment := Math_min baselineMonthlyPayment (balance + interest) in
  let principal := payment - interest in
  let totalInterestBaseline := Baseline.totalInterest s + interest in
  let balance := balance - principal in
  let balance := if lt balance 0 then 0 else balance in
  {| Baseline.balance := balance;
     Baseline.totalInterest := totalInterestBaseline;
     Baseline.months := baselineMonths |}.

Definition baseline_init (P0 : Q) : Baseline.state :=
  {| Baseline.balance := P0;
     Baseline.totalInterest := 0;
     Baseline.months := 0 |}.

Definition baseline_zero : Baseline.result :=
  {| Baseline.baselineMonthlyPayment := 0;
     Baseline.baselineMonths := 0;
     Baseline.totalInterestBaseline := 0 |}.

(** The function with the loop's fuel as a parameter. *)
Definition computeBaselineMortgage_fuel (fuel : nat) (params : Baseline.params)
  : res Baseline.result :=
  let maxMonthsSimulated := dflt 1200%Z (Baseline.maxMonthsSimulated params) in
  let P0 := Baseline.mortgageBalance params in
  let nM := Baseline.mortgageTermMonths params in
  let rM := Baseline.mortgageRateAnnual params / 12 in
  if le P0 0 || (nM <=? 0)%Z then Ok baseline_zero
  else
    let baselineMonthlyPayment := levelPayment P0 nM rM in
    s <- while (baseline_cond maxMonthsSimulated)
               (fun s => Ok (baseline_body rM baselineMonthlyPayment s))
               fuel (baseline_init P0) ;;
    Ok {| Baseline.baselineMonthlyPayment := baselineMonthlyPayment;
          Baseline.baselineMonths := Baseline.months s;
          Baseline.totalInterestBaseline := Baseline.totalInterest s |}.

(** The counter starts at 0 and the loop stops once it reaches the cap, so the
    cap itself is fuel enough (see [baseline_returns]). *)
Definition loopFuel (maxMonthsSimulated : Z) : nat := Z.to_nat maxMonthsSimulated.

Definition computeBaselineMortgage (params : Baseline.params)
  : res Baseline.result :=
  computeBaselineMortgage_fuel
    (loopFuel (dflt 1200%Z (Baseline.maxMonthsSimulated params))) params.

(** ** simulateVelocityBanking *)

Module VB.

Record params : Type := {
  mortgageBalance : Q;
  mortgageTermMonths : Z;
  mortgageRateAnnual : Q;
  helocRateAnnual : Q;
  helocChunkAmount : Q;
  helocPaymentPerMonth : Q;
  repeatChunks : option bool;
  maxMonthsSimulated : option Z
}.

Record result : Type := {
  baselineMonthlyPayment : Q;
  baselineMonths : Z;
  totalInterestBaseline : Q;
  monthsVB : Z;
  totalInterestMortgageVB : Q;
  totalInterestHelocVB : Q;
  totalInterestVBCombined : Q;
  interestSaved : Q;
  timeSavedMonths : Z;
  yearsSaved : Q
}.

(** the loop variables *)
Record state : Type := {
  mortBal : Q;
  helocBal : Q;
  interestMortgage : Q;
  interestHeloc : Q;
  months : Z
}.

End VB.

Definition negativeAmortization : string :=
  "HELOC payment is too low to pay down the balance (negative amortization). Increase HELOC payment.".

(** The negligible balance under which a payment below the interest is let
    through. *)
Definition helocThreshold : Q := 1 # 100.

Definition vb_cond (cap : Z) (s : VB.state) : bool :=
  (gt (VB.mortBal s) 0 || gt (VB.helocBal s) 0) && (VB.months s <? cap)%Z.

(** [monthsVB++] *)
Definition vb_tick (s : VB.state) : VB.state :=
  {| VB.mortBal := VB.mortBal s;
     VB.helocBal := VB.helocBal s;
     VB.interestMortgage := VB.interestMortgage s;
     VB.interestHeloc := VB.interestHeloc s;
     VB.months := (VB.months s + 1)%Z |}.

(** the mortgage step *)
Definition vb_mortgage_step (rM baselineMonthlyPayment : Q) (s : VB.state)
  : VB.state :=
  if gt (VB.mortBal s) 0 then
    let mortBal := VB.mortBal s in
    let mortInterest := mortBal * rM in
    let totalInterestMortgageVB := VB.interestMortgage s + mortInterest in
    let mortPaymentThisMonth :=
      Math_min baselineMonthlyPayment (mortBal + mortInterest) in
    let mortPrincipalPaid := mortPaymentThisMonth - mortInterest in
    let mortBal := mortBal - mortPrincipalPaid in
    let mortBal := if lt mortBal 0 then 0 else mortBal in
    {| VB.mortBal := mortBal;
       VB.helocBal := VB.helocBal s;
       VB.interestMortgage := totalInterestMortgageVB;
       VB.interestHeloc := VB.interestHeloc s;
       VB.months := VB.months s |}
  else s.

(** the test that guards the [throw] of the credit-line step:
    [helocPaymentPerMonth <= helocInterest && helocBal > 0.01] *)
Definition helocCannotAmortize (rH helocPaymentPerMonth helocBal : Q) : bool :=
  le helocPaymentPerMonth (helocBal * rH) && gt helocBal helocThreshold.

(** the credit-line step *)
Definition vb_heloc_step (rH helocPaymentPerMonth : Q) (s : VB.state)
  : res VB.state :=
  if gt (VB.helocBal s) 0 then
    let helocBal := VB.helocBal s in
    let helocInterest := helocBal * rH in
    let totalInterestHelocVB := VB.interestHeloc s + helocInterest in
    if helocCannotAmortize rH helocPaymentPerMonth helocBal
    then Throw negativeAmortization
    else
      let helocPaymentThisMonth :=
        Math_min helocPaymentPerMonth (helocBal + helocInterest) in
      let helocPrincipalPaid := helocPaymentThisMonth - helocInterest in
      let helocBal := helocBal - helocPrincipalPaid in
      let helocBal := if lt helocBal 0 then 0 else helocBal in
      Ok {| VB.mortBal := VB.mortBal s;
            VB.helocBal := helocBal;
            VB.interestMortgage := VB.interestMortgage s;
            VB.interestHeloc := totalInterestHelocVB;
            VB.months := VB.months s |}
  else Ok s.

(** the repeat-chunk step *)
Definition vb_chunk_step (repeatChunks : bool) (helocChunkAmount : Q)
           (s : VB.state) : VB.state :=
  if repeatChunks && eq3 (VB.helocBal s) 0 && gt (VB.mortBal s) 0 then
    let nextChunk := Math_min helocChunkAmount (VB.mortBal s) in
    if gt nextChunk 0 then
      {| VB.mortBal := VB.mortBal s - nextChunk;
         VB.helocBal := VB.helocBal s + nextChunk;
         VB.interestMortgage := VB.interestMortgage s;
         VB.interestHeloc := VB.interestHeloc s;
         VB.months := VB.months s |}
    else s
  else s.

(** one iteration of the loop *)
Definition vb_body (rM rH baselineMonthlyPayment helocPaymentPerMonth
                    helocChunkAmount : Q) (repeatChunks : bool)
           (s : VB.state) : res VB.state :=
  let s := vb_tick s in
  let s := vb_mortgage_step rM baselineMonthlyPayment s in
  s <- vb_heloc_step rH helocPaymentPerMonth s ;;
  Ok (vb_chunk_step repeatChunks helocChunkAmount s).

(** the state on entry to the loop, after the initial chunk *)
Definition vb_init (P0 helocChunkAmount : Q) : VB.state :=
  let mortBal := P0 in
  let helocBal := 0 in
  let initialChunk := Math_min helocChunkAmount mortBal in
  {| VB.mortBal := mortBal - initialChunk;
     VB.helocBal := helocBal + initialChunk;
     VB.interestMortgage := 0;
     VB.interestHeloc := 0;
     VB.months := 0 |}.

(** the parameter record handed to [computeBaselineMortgage] *)
Definition vb_baseline_params (params : VB.params) : Baseline.params :=
  {| Baseline.mortgageBalance := VB.mortgageBalance params;
     Baseline.mortgageTermMonths := VB.mortgageTermMonths params;
     Baseline.mortgageRateAnnual := VB.mortgageRateAnnual params;
     Baseline.maxMonthsSimulated :=
       Some (dflt 1200%Z (VB.maxMonthsSimulated params)) |}.

Definition simulateVelocityBanking_fuel (fuel : nat) (params : VB.params)
  : res VB.result :=
  let repeatChunks := dflt false (VB.repeatChunks params) in
  let maxMonthsSimulated := dflt 1200%Z (VB.maxMonthsSimulated params) in
  let helocChunkAmount := VB.helocChunkAmount params in
  let helocPaymentPerMonth := VB.helocPaymentPerMonth params in
  if le helocChunkAmount 0 then
    baseline <- computeBaselineMortgage (vb_baseline_params params) ;;
    Ok {| VB.baselineMonthlyPayment := Baseline.baselineMonthlyPayment baseline;
          VB.baselineMonths := Baseline.baselineMonths baseline;
          VB.totalInterestBaseline := Baseline.totalInterestBaseline baseline;
          VB.monthsVB := Baseline.baselineMonths baseline;
          VB.totalInterestMortgageVB := Baseline.totalInterestBaseline baseline;
          VB.totalInterestHelocVB := 0;
          VB.totalInterestVBCombined := Baseline.totalInterestBaseline baseline;
          VB.interestSaved := 0;
          VB.timeSavedMonths := 0;
          VB.yearsSaved := 0 |}
  else
    baseline <- computeBaselineMortgage (vb_baseline_params params) ;;
    let baselineMonthlyPayment := Baseline.baselineMonthlyPayment baseline in
    let baselineMonths := Baseline.baselineMonths baseline in
    let totalInterestBaseline := Baseline.totalInterestBaseline baseline in
    let P0 := VB.mortgageBalance params in
    let rM := VB.mortgageRateAnnual params / 12 in
    let rH := VB.helocRateAnnual params / 12 in
    s <- while (vb_cond maxMonthsSimulated)
               (vb_body rM rH baselineMonthlyPayment helocPaymentPerMonth
                        helocChunkAmount repeatChunks)
               fuel (vb_init P0 helocChunkAmount) ;;
    let monthsVB := VB.months s in
    let totalInterestMortgageVB := VB.interestMortgage s in
    let totalInterestHelocVB := VB.interestHeloc s in
    let totalInterestVBCombined :=
      totalInterestMortgageVB + totalInterestHelocVB in
    let interestSaved := totalInterestBaseline - totalInterestVBCombined in
    let timeSavedMonths := (baselineMonths - monthsVB)%Z in
    let yearsSaved := inject_Z timeSavedMonths / 12 in
    Ok {| VB.baselineMonthlyPayment := baselineMonthlyPayment;
          VB.baselineMonths := baselineMonths;
          VB.totalInterestBaseline := totalInterestBaseline;
          VB.monthsVB := monthsVB;
          VB.totalInterestMortgageVB := totalInterestMortgageVB;
          VB.totalInterestHelocVB := totalInterestHelocVB;
          VB.totalInterestVBCombined := totalInterestVBCombined;
          VB.interestSaved := interestSaved;
          VB.timeSavedMonths := timeSavedMonths;
          VB.yearsSaved := yearsSaved |}.

Definition simulateVelocityBanking (params : VB.params) : res VB.result :=
  simulateVelocityBanking_fuel
    (loopFuel (dflt 1200%Z (VB.maxMonthsSimulated params))) params.

(** ** simulateExtraPaymentStrategy *)

Module Extra.

Record params : Type := {
  mortgageBalance : Q;
  mortgageTermMonths : Z;
  mortgageRateAnnual : Q;
  extraPaymentPerMonth : Q;
  maxMonthsSimulated : option Z
}.

Record result : Type := {
  monthlyPayment : Q;
  totalMonths : Z;
  totalInterest : Q
}.

End Extra.

(** The loop variables are those of the baseline loop. *)
Definition extra_body (rM baselineMonthlyPayment extraPaymentPerMonth : Q)
           (s : Baseline.state) : Baseline.state :=
  let totalMonths := (Baseline.months s + 1)%Z in
  let balance := Baseline.balance s in
  let interest := balance * rM in
  let regularPayment := Math_min baselineMonthlyPayment (balance + interest) in
  let principalFromRegular := regularPayment - interest in
  let extraPrincipal :=
    Math_min extraPaymentPerMonth (balance - principalFromRegular) in
  let totalPrincipalPaid := principalFromRegular + extraPrincipal in
  let totalInterest := Baseline.totalInterest s + interest in
  let balance := balance - totalPrincipalPaid in
  let balance := if lt balance 0 then 0 else balance in
  {| Baseline.balance := balance;
     Baseline.totalInterest := totalInterest;
     Baseline.months := totalMonths |}.

Definition extra_zero : Extra.result :=
  {| Extra.monthlyPayment := 0;
     Extra.totalMonths := 0;
     Extra.totalInterest := 0 |}.

Definition simulateExtraPaymentStrategy_fuel (fuel : nat)
           (params : Extra.params) : res Extra.result :=
  let maxMonthsSimulated := dflt 1200%Z (Extra.maxMonthsSimulated params) in
  let extraPaymentPerMonth := Extra.extraPaymentPerMonth params in
  let P0 := Extra.mortgageBalance params in
  let nM := Extra.mortgageTermMonths params in
  let rM := Extra.mortgageRateAnnual params / 12 in
  if le P0 0 || (nM <=? 0)%Z then Ok extra_zero
  else
    let baselineMonthlyPayment := levelPayment P0 nM rM in
    s <- while (baseline_cond maxMonthsSimulated)
               (fun s => Ok (extra_body rM baselineMonthlyPayment
                                        extraPaymentPerMonth s))
               fuel (baseline_init P0) ;;
    Ok {| Extra.monthlyPayment := baselineMonthlyPayment + extraPaymentPerMonth;
          Extra.totalMonths := Baseline.months s;
          Extra.totalInterest := Baseline.totalInterest s |}.

Definition simulateExtraPaymentStrategy (params : Extra.params)
  : res Extra.result :=
  simulateExtraPaymentStrategy_fuel
    (loopFuel (dflt 1200%Z (Extra.maxMonthsSimulated params))) params.

(** ** simulateInvestmentStrategy *)

Module Invest.

Record params : Type := {
  investmentTermMonths : Z;
  extraPaymentPerMonth : Q;
  investmentReturnAnnual : Q;
  baselineInterest : Q;
  bestPaydownInterest : Q
}.

Record result : Type := {
  totalMonths : Z;
  totalInvested : Q;
  totalValue : Q;
  investmentGains : Q;
  netBenefit : Q
}.

(** the loop variables [month], [totalValue], [totalInvested] *)
Record state : Type := {
  month : Z;
  value : Q;
  invested : Q
}.

End Invest.

Definition invest_cond (investmentTermMonths : Z) (s : Invest.state) : bool :=
  (Invest.month s <=? investmentTermMonths)%Z.

Definition invest_body (monthlyReturn extraPaymentPerMonth : Q)
           (s : Invest.state) : Invest.state :=
  let totalInvested := Invest.invested s + extraPaymentPerMonth in
  let totalValue :=
    Invest.value s * (1 + monthlyReturn) + extraPaymentPerMonth in
  {| Invest.month := (Invest.month s + 1)%Z;
     Invest.value := totalValue;
     Invest.invested := totalInvested |}.

Definition invest_init : Invest.state :=
  {| Invest.month := 1; Invest.value := 0; Invest.invested := 0 |}.

Definition simulateInvestmentStrategy_fuel (fuel : nat)
           (params : Invest.params) : res Invest.result :=
  let investmentTermMonths := Invest.investmentTermMonths params in
  let extraPaymentPerMonth := Invest.extraPaymentPerMonth params in
  let baselineInterest := Invest.baselineInterest params in
  let bestPaydownInterest := Invest.bestPaydownInterest params in
  if not_num extraPaymentPerMonth
     || le extraPaymentPerMonth 0
     || not_int investmentTermMonths
     || (investmentTermMonths <=? 0)%Z
  then
    Ok {| Invest.totalMonths := or_zero_int investmentTermMonths;
          Invest.totalInvested := 0;
          Invest.totalValue := 0;
          Invest.investmentGains := 0;
          Invest.netBenefit := 0 |}
  else
    let monthlyReturn := Invest.investmentReturnAnnual params / 12 in
    s <- while (invest_cond investmentTermMonths)
               (fun s => Ok (invest_body monthlyReturn extraPaymentPerMonth s))
               fuel invest_init ;;
    let totalValue := Invest.value s in
    let totalInvested := Invest.invested s in
    let investmentGains := totalValue - totalInvested in
    let interestSavedByBestPaydown := baselineInterest - bestPaydownInterest in
    let netBenefit := investmentGains - interestSavedByBestPaydown in
    Ok {| Invest.totalMonths := investmentTermMonths;
          Invest.totalInvested := totalInvested;
          Invest.totalValue := totalValue;
          Invest.investmentGains := investmentGains;
          Invest.netBenefit := netBenefit |}.

(** [month] runs from 1 to the term, so the term is fuel enough. *)
Definition simulateInvestmentStrategy (params : Invest.params)
  : res Invest.result :=
  simulateInvestmentStrategy_fuel
    (Z.to_nat (Invest.investmentTermMonths params)) params.

(** ** simulateAllStrategies *)

(** the [velocity] object of the report *)
Module Velocity.
Record t : Type := {
  totalMonths : Z;
  totalInterest : Q;
  mortgageInterest : Q;
  helocInterest : Q
}.
End Velocity.

(** a paydown comparison: [{ interestSaved, timeSavedMonths, yearsSaved }] *)
Module Comparison.
Record t : Type := {
  interestSaved : Q;
  timeSavedMonths : Z;
  yearsSaved : Q
}.
End Comparison.

(** the investment comparison: [{ netBenefit }] *)
Module InvestmentComparison.
Record t : Type := {
  netBenefit : Q
}.
End InvestmentComparison.

(** [bestPaydownData]: its [data] is the extra-payment result or the
    [velocity] object *)
Module Paydown.
Inductive data_t : Type :=
| ExtraData (e : Extra.result)
| VelocityData (v : Velocity.t).

Record t : Type := {
  name : string;
  data : data_t;
  comparison : Comparison.t;
  color : string
}.
End Paydown.

(** [bestOverallStrategy]: its [data] and [comparison] are those of the
    investment or those of the best paydown strategy *)
Module Overall.
Inductive data_t : Type :=
| PaydownData (d : Paydown.data_t)
| InvestmentData (i : Invest.result).

Inductive comparison_t : Type :=
| PaydownComparison (c : Comparison.t)
| InvestmentComparison (c : InvestmentComparison.t).

Record t : Type := {
  name : string;
  data : data_t;
  comparison : comparison_t;
  color : string;
  type : string
}.
End Overall.

Module All.
Record params : Type := {
  mortgageBalance : Q;
  mortgageTermMonths : Z;
  mortgageRateAnnual : Q;
  helocRateAnnual : Q;
  helocChunkAmount : Q;
  helocPaymentPerMonth : Q;
  repeatChunks : option bool;
  investmentReturnAnnual : option Q;
  maxMonthsSimulated : option Z
}.

Record comparisons_t : Type := {
  extraVsBaseline : Comparison.t;
  velocityVsBaseline : Comparison.t;
  velocityVsExtra : Comparison.t;
  investmentVsBestPaydown : InvestmentComparison.t
}.

(** the returned report; [baseline] and [extraPayment] are objects of the
    shape [{ monthlyPayment, totalMonths, totalInterest }] *)
Record result : Type := {
  baseline : Extra.result;
  extraPayment : Extra.result;
  velocity : Velocity.t;
  investment : Invest.result;
  bestPaydownStrategy : Paydown.t;
  bestOverallStrategy : Overall.t;
  comparisons : comparisons_t
}.
End All.

(** [data.totalMonths] and [data.totalInterest] of a paydown [data] object *)
Definition data_totalMonths (d : Paydown.data_t) : Z :=
  match d with
  | Paydown.ExtraData e => Extra.totalMonths e
  | Paydown.VelocityData v => Velocity.totalMonths v
  end.

Definition data_totalInterest (d : Paydown.data_t) : Q :=
  match d with
  | Paydown.ExtraData e => Extra.totalInterest e
  | Paydown.VelocityData v => Velocity.totalInterest v
  end.

Definition simulateAllStrategies (params : All.params) : res All.result :=
  let mortgageBalance := All.mortgageBalance params in
  let mortgageTermMonths := All.mortgageTermMonths params in
  let mortgageRateAnnual := All.mortgageRateAnnual params in
  let helocRateAnnual := All.helocRateAnnual params in
  let helocChunkAmount := All.helocChunkAmount params in
  let helocPaymentPerMonth := All.helocPaymentPerMonth params in
  let repeatChunks := dflt false (All.repeatChunks params) in
  let investmentReturnAnnual := dflt 0 (All.investmentReturnAnnual params) in
  let maxMonthsSimulated := dflt 1200%Z (All.maxMonthsSimulated params) in
  (* 1. Baseline *)
  baseline <- computeBaselineMortgage
    {| Baseline.mortgageBalance := mortgageBalance;
       Baseline.mortgageTermMonths := mortgageTermMonths;
       Baseline.mortgageRateAnnual := mortgageRateAnnual;
       Baseline.maxMonthsSimulated := Some maxMonthsSimulated |} ;;
  (* 2. Extra Payment Strategy *)
  extraPayment <- simulateExtraPaymentStrategy
    {| Extra.mortgageBalance := mortgageBalance;
       Extra.mortgageTermMonths := mortgageTermMonths;
       Extra.mortgageRateAnnual := mortgageRateAnnual;
       Extra.extraPaymentPerMonth := or_zero helocPaymentPerMonth;
       Extra.maxMonthsSimulated := Some maxMonthsSimulated |} ;;
  (* 3. Velocity Banking *)
  velocityResult <- simulateVelocityBanking
    {| VB.mortgageBalance := mortgageBalance;
       VB.mortgageTermMonths := mortgageTermMonths;
       VB.mortgageRateAnnual := mortgageRateAnnual;
       VB.helocRateAnnual := helocRateAnnual;
       VB.helocChunkAmount := or_zero helocChunkAmount;
       VB.helocPaymentPerMonth := or_zero helocPaymentPerMonth;
       VB.repeatChunks := Some repeatChunks;
       VB.maxMonthsSimulated := Some maxMonthsSimulated |} ;;
  let velocity :=
    {| Velocity.totalMonths := VB.monthsVB velocityResult;
       Velocity.totalInterest := VB.totalInterestVBCombined velocityResult;
       Velocity.mortgageInterest := VB.totalInterestMortgageVB velocityResult;
       Velocity.helocInterest := VB.totalInterestHelocVB velocityResult |} in
  let extraVsBaseline :=
    {| Comparison.interestSaved :=
         Baseline.totalInterestBaseline baseline
         - Extra.totalInterest extraPayment;
       Comparison.timeSavedMonths :=
         (Baseline.baselineMonths baseline - Extra.totalMonths extraPayment)%Z;
       Comparison.yearsSaved :=
         inject_Z (Baseline.baselineMonths baseline
                   - Extra.totalMonths extraPayment) / 12 |} in
  let velocityVsBaseline :=
    {| Comparison.interestSaved :=
         Baseline.totalInterestBaseline baseline
         - Velocity.totalInterest velocity;
       Comparison.timeSavedMonths :=
         (Baseline.baselineMonths baseline - Velocity.totalMonths velocity)%Z;
       Comparison.yearsSaved :=
         inject_Z (Baseline.baselineMonths baseline
                   - Velocity.totalMonths velocity) / 12 |} in
  let velocityVsExtra :=
    {| Comparison.interestSaved :=
         Extra.totalInterest extraPayment - Velocity.totalInterest velocity;
       Comparison.timeSavedMonths :=
         (Extra.totalMonths extraPayment - Velocity.totalMonths velocity)%Z;
       Comparison.yearsSaved :=
         inject_Z (Extra.totalMonths extraPayment
                   - Velocity.totalMonths velocity) / 12 |} in
  (* Determine best paydown strategy *)
  let bestPaydownData :=
    if gt (Comparison.interestSaved velocityVsBaseline)
          (Comparison.interestSaved extraVsBaseline)
    then {| Paydown.name := "Velocity Banking";
            Paydown.data := Paydown.VelocityData velocity;
            Paydown.comparison := velocityVsBaseline;
            Paydown.color := "velocity" |}
    else {| Paydown.name := "Extra Payment";
            Paydown.data := Paydown.ExtraData extraPayment;
            Paydown.comparison := extraVsBaseline;
            Paydown.color := "extra" |} in
  (* 4. Investment Strategy *)
  investment <- simulateInvestmentStrategy
    {| Invest.investmentTermMonths :=
         data_totalMonths (Paydown.data bestPaydownData);
       Invest.extraPaymentPerMonth := or_zero helocPaymentPerMonth;
       Invest.investmentReturnAnnual := or_zero investmentReturnAnnual;
       Invest.baselineInterest := Baseline.totalInterestBaseline baseline;
       Invest.bestPaydownInterest :=
         data_totalInterest (Paydown.data bestPaydownData) |} ;;
  let investmentVsBestPaydown :=
    {| InvestmentComparison.netBenefit := Invest.netBenefit investment |} in
  (* Determine best overall strategy *)
  let bestOverallStrategy :=
    if gt (Invest.netBenefit investment) 0
    then {| Overall.name := "Investment Strategy";
            Overall.data := Overall.InvestmentData investment;
            Overall.comparison :=
              Overall.InvestmentComparison investmentVsBestPaydown;
            Overall.color := "investment";
            Overall.type := "investment" |}
    else {| Overall.name := Paydown.name bestPaydownData;
            Overall.data := Overall.PaydownData (Paydown.data bestPaydownData);
            Overall.comparison :=
              Overall.PaydownComparison (Paydown.comparison bestPaydownData);
            Overall.color := Paydown.color bestPaydownData;
            Overall.type := "paydown" |} in
  Ok {| All.baseline :=
          {| Extra.monthlyPayment := Baseline.baselineMonthlyPayment baseline;
             Extra.totalMonths := Baseline.baselineMonths baseline;
             Extra.totalInterest := Baseline.totalInterestBaseline baseline |};
        All.extraPayment :=
          {| Extra.monthlyPayment := Extra.monthlyPayment extraPayment;
             Extra.totalMonths := Extra.totalMonths extraPayment;
             Extra.totalInterest := Extra.totalInterest extraPayment |};
        All.velocity := velocity;
        All.investment := investment;
        All.bestPaydownStrategy := bestPaydownData;
        All.bestOverallStrategy := bestOverallStrategy;
        All.comparisons :=
          {| All.extraVsBaseline := extraVsBaseline;
             All.velocityVsBaseline := velocityVsBaseline;
             All.velocityVsExtra := velocityVsExtra;
             All.investmentVsBestPaydown := investmentVsBestPaydown |} |}.

(** ** The callers: useMortgageBaseline and useVelocityBankingSimulation

    Each hook is the function it hands to [useMemo]; its [error] state is
    threaded through the call, so the [error] of the outcome is the value
    last given to [setError].  A rate the caller may leave out ([== null])
    is an [option]. *)

(** [x == null] *)
Definition is_null {A : Type} (o : option A) : bool :=
  match o with Some _ => false | None => true end.

(** [Number(x)] where [x] is a number or [null]: [Number(null)] is 0 *)
Definition Number_of (o : option Q) : Q :=
  match o with Some x => x | None => 0 end.

(** [s || d] on strings: only the empty string is falsy *)
Definition or_string (s d : string) : string :=
  if String.eqb s "" then d else s.

Module BaselineHook.
Record params : Type := {
  mortgageBalance : Q;
  mortgageTermMonths : Z;
  mortgageRateAnnual : option Q
}.
End BaselineHook.

Definition useMortgageBaseline (params : BaselineHook.params)
  : res Baseline.result :=
  let mortgageBalance := BaselineHook.mortgageBalance params in
  let mortgageTermMonths := BaselineHook.mortgageTermMonths params in
  let mortgageRateAnnual := BaselineHook.mortgageRateAnnual params in
  if not_num mortgageBalance
     || not_int mortgageTermMonths
     || is_null mortgageRateAnnual
  then
    Ok {| Baseline.baselineMonthlyPayment := 0;
          Baseline.baselineMonths := 0;
          Baseline.totalInterestBaseline := 0 |}
  else
    computeBaselineMortgage
      {| Baseline.mortgageBalance := mortgageBalance;
         Baseline.mortgageTermMonths := mortgageTermMonths;
         Baseline.mortgageRateAnnual := Number_of mortgageRateAnnual;
         Baseline.maxMonthsSimulated := None |}.

Module SimulationHook.
Record params : Type := {
  mortgageBalance : Q;
  mortgageTermMonths : Z;
  mortgageRateAnnual : option Q;
  helocRateAnnual : option Q;
  helocChunkAmount : Q;
  helocPaymentPerMonth : Q;
  repeatChunks : bool;
  investmentReturnAnnual : Q
}.

(** [{ result, error }] *)
Record t : Type := {
  result : option All.result;
  error : option string
}.
End SimulationHook.

(** the parameter record handed to [simulateAllStrategies]; the investment
    return arrives as a percentage *)
Definition hook_all_params (params : SimulationHook.params) : All.params :=
  {| All.mortgageBalance := SimulationHook.mortgageBalance params;
     All.mortgageTermMonths := SimulationHook.mortgageTermMonths params;
     All.mortgageRateAnnual :=
       Number_of (SimulationHook.mortgageRateAnnual params);
     All.helocRateAnnual := Number_of (SimulationHook.helocRateAnnual params);
     All.helocChunkAmount := or_zero (SimulationHook.helocChunkAmount params);
     All.helocPaymentPerMonth :=
       or_zero (SimulationHook.helocPaymentPerMonth params);
     All.repeatChunks := Some (SimulationHook.repeatChunks params);
     All.investmentReturnAnnual :=
       Some (or_zero (SimulationHook.investmentReturnAnnual params) / 100);
     All.maxMonthsSimulated := None |}.

Definition useVelocityBankingSimulation (params : SimulationHook.params)
  : res SimulationHook.t :=
  (* setError(null) *)
  let error := None in
  if not_num (SimulationHook.mortgageBalance params)
     || not_int (SimulationHook.mortgageTermMonths params)
     || is_null (SimulationHook.mortgageRateAnnual params)
     || is_null (SimulationHook.helocRateAnnual params)
  then Ok {| SimulationHook.result := None; SimulationHook.error := error |}
  else
    match simulateAllStrategies (hook_all_params params) with
    | Ok r =>
        Ok {| SimulationHook.result := Some r; SimulationHook.error := error |}
    | Throw message =>
        (* catch (e): setError(e.message || "Simulation error"); return null *)
        Ok {| SimulationHook.result := None;
              SimulationHook.error :=
                Some (or_string message "Simulation error") |}
    | OutOfFuel => OutOfFuel
    end.

(** * The simulators over the arithmetic of the program

    The embedding above computes in exact rationals, with the month counters
    in [Z].  The program computes in IEEE binary64, where an interest of 117
    may be rounded to 116.99999999999999 and a payment of a third of the
    principal may leave a residue: the outcome of a test such as
    [helocPaymentPerMonth <= helocInterest] or [balance > 0], and with it a
    month count or the raising of the error, then depends on the rounding.
    A safety cap, moreover, is any number the caller passes, not only a whole
    one.

    The three loan simulators are therefore embedded a second time, over an
    arbitrary arithmetic [Arith]: every number of the program, the counters
    and the cap included, is of the one carrier type, and every operator and
    literal of the source is a field of the structure.  What is proved of
    these definitions holds of the program in exact arithmetic ([Exact]) and
    in binary64 ([Binary64]) alike. *)

Module Num.

Record Arith : Type := {
  t : Type;
  (** the literals [0], [1], [12], [0.01] and the default cap [1200] *)
  zero : t;
  one : t;
  twelve : t;
  hundredth : t;
  defaultCap : t;
  (** [a + b], [a - b], [a * b], [a / b], [-a] *)
  add : t -> t -> t;
  sub : t -> t -> t;
  mul : t -> t -> t;
  div : t -> t -> t;
  opp : t -> t;
  (** [a <= b], [a < b], [a > b], [a === b] *)
  le : t -> t -> bool;
  lt : t -> t -> bool;
  gt : t -> t -> bool;
  eq3 : t -> t -> bool;
  (** [Math.min(a, b)], [Math.pow(a, b)] *)
  min : t -> t -> t;
  pow : t -> t -> t
}.

Arguments zero {_}.
Arguments one {_}.
Arguments twelve {_}.
Arguments hundredth {_}.
Arguments defaultCap {_}.
Arguments add {_} _ _.
Arguments sub {_} _ _.
Arguments mul {_} _ _.
Arguments div {_} _ _.
Arguments opp {_} _.
Arguments le {_} _ _.
Arguments lt {_} _ _.
Arguments gt {_} _ _.
Arguments eq3 {_} _ _.
Arguments min {_} _ _.
Arguments pow {_} _ _.

Declare Scope num_scope.
Delimit Scope num_scope with num.
Notation "a + b" := (add a b) : num_scope.
Notation "a - b" := (sub a b) : num_scope.
Notation "a * b" := (mul a b) : num_scope.
Notation "a / b" := (div a b) : num_scope.
Notation "- a" := (opp a) : num_scope.
Notation "a <=? b" := (le a b) (at level 70) : num_scope.
Notation "a <? b" := (lt a b) (at level 70) : num_scope.
Notation "a >? b" := (gt a b) (at level 70) : num_scope.
Notation "a =? b" := (eq3 a b) (at level 70) : num_scope.

(** The loop counter after [n] increments ([months++], from 0). *)
Definition count (A : Arith) (n : nat) : t A :=
  Nat.iter n (fun c => add c one) zero.

(** Exact arithmetic: the operators of [JS].  [Math.pow] is exact for a
    whole exponent, which is what a term in months gives it. *)
Definition Exact : Arith :=
  {| t := Q;
     zero := 0;
     one := 1;
     twelve := 12;
     hundredth := 1 # 100;
     defaultCap := 1200;
     add := Qplus;
     sub := Qminus;
     mul := Qmult;
     div := Qdiv;
     opp := Qopp;
     le := JS.le;
     lt := JS.lt;
     gt := JS.gt;
     eq3 := JS.eq3;
     min := JS.Math_min;
     pow := fun x y => JS.Math_pow x (Qfloor y) |}.

(** [Math.min] on doubles: [NaN] if either argument is [NaN], and [-0] below
    [+0]. *)
Definition Math_min64 (a b : float) : float :=
  if PrimFloat.is_nan a || PrimFloat.is_nan b then PrimFloat.nan
  else if PrimFloat.ltb a b then a
  else if PrimFloat.ltb b a then b
  else if PrimFloat.get_sign a then a
  else b.

(** IEEE binary64, the arithmetic of a JavaScript number: each operator
    rounds to nearest-even, and a comparison with [NaN] is false.  The
    language leaves the value of [Math.pow] to the implementation (an
    approximation of the power), so it is a parameter. *)
Definition Binary64 (Math_pow : float -> float -> float) : Arith :=
  {| t := float;
     zero := 0%float;
     one := 1%float;
     twelve := 12%float;
     hundredth := 0x1.47ae147ae147bp-7%float;
     defaultCap := 1200%float;
     add := PrimFloat.add;
     sub := PrimFloat.sub;
     mul := PrimFloat.mul;
     div := PrimFloat.div;
     opp := PrimFloat.opp;
     le := PrimFloat.leb;
     lt := PrimFloat.ltb;
     gt := fun a b => PrimFloat.ltb b a;
     eq3 := PrimFloat.eqb;
     min := Math_min64;
     pow := Math_pow |}.

End Num.

Module Generic.

Import Num.
Local Open Scope num_scope.

Module Baseline.
Section Records.
Variable A : Arith.

Record params : Type := {
  mortgageBalance : t A;
  mortgageTermMonths : t A;
  mortgageRateAnnual : t A;
  maxMonthsSimulated : option (t A)
}.

Record result : Type := {
  baselineMonthlyPayment : t A;
  baselineMonths : t A;
  totalInterestBaseline : t A
}.

(** the loop variables [balance], [totalInterestBaseline], [baselineMonths] *)
Record state : Type := {
  balance : t A;
  totalInterest : t A;
  months : t A
}.

End Records.

Arguments Build_params {A} & _ _ _ _.
Arguments mortgageBalance {A} _.
Arguments mortgageTermMonths {A} _.
Arguments mortgageRateAnnual {A} _.
Arguments maxMonthsSimulated {A} _.
Arguments Build_result {A} & _ _ _.
Arguments baselineMonthlyPayment {A} _.
Arguments baselineMonths {A} _.
Arguments totalInterestBaseline {A} _.
Arguments Build_state {A} & _ _ _.
Arguments balance {A} _.
Arguments totalInterest {A} _.
Arguments months {A} _.

End Baseline.

Module Extra.
Section Records.
Variable A : Arith.

Record params : Type := {
  mortgageBalance : t A;
  mortgageTermMonths : t A;
  mortgageRateAnnual : t A;
  extraPaymentPerMonth : t A;
  maxMonthsSimulated : option (t A)
}.

Record result : Type := {
  monthlyPayment : t A;
  totalMonths : t A;
  totalInterest : t A
}.

End Records.

Arguments Build_params {A} & _ _ _ _ _.
Arguments mortgageBalance {A} _.
Arguments mortgageTermMonths {A} _.
Arguments mortgageRateAnnual {A} _.
Arguments extraPaymentPerMonth {A} _.
Arguments maxMonthsSimulated {A} _.
Arguments Build_result {A} & _ _ _.
Arguments monthlyPayment {A} _.
Arguments totalMonths {A} _.
Arguments totalInterest {A} _.

End Extra.

Module VB.
Section Records.
Variable A : Arith.

Record params : Type := {
  mortgageBalance : t A;
  mortgageTermMonths : t A;
  mortgageRateAnnual : t A;
  helocRateAnnual : t A;
  helocChunkAmount : t A;
  helocPaymentPerMonth : t A;
  repeatChunks : option bool;
  maxMonthsSimulated : option (t A)
}.

Record result : Type := {
  baselineMonthlyPayment : t A;
  baselineMonths : t A;
  totalInterestBaseline : t A;
  monthsVB : t A;
  totalInterestMortgageVB : t A;
  totalInterestHelocVB : t A;
  totalInterestVBCombined : t A;
  interestSaved : t A;
  timeSavedMonths : t A;
  yearsSaved : t A
}.

(** the loop variables *)
Record state : Type := {
  mortBal : t A;
  helocBal : t A;
  interestMortgage : t A;
  interestHeloc : t A;
  months : t A
}.

End Records.

Arguments Build_params {A} & _ _ _ _ _ _ _ _.
Arguments mortgageBalance {A} _.
Arguments mortgageTermMonths {A} _.
Arguments mortgageRateAnnual {A} _.
Arguments helocRateAnnual {A} _.
Arguments helocChunkAmount {A} _.
Arguments helocPaymentPerMonth {A} _.
Arguments repeatChunks {A} _.
Arguments maxMonthsSimulated {A} _.
Arguments Build_result {A} & _ _ _ _ _ _ _ _ _ _.
Arguments baselineMonthlyPayment {A} _.
Arguments baselineMonths {A} _.
Arguments totalInterestBaseline {A} _.
Arguments monthsVB {A} _.
Arguments totalInterestMortgageVB {A} _.
Arguments totalInterestHelocVB {A} _.
Arguments totalInterestVBCombined {A} _.
Arguments interestSaved {A} _.
Arguments timeSavedMonths {A} _.
Arguments yearsSaved {A} _.
Arguments Build_state {A} & _ _ _ _ _.
Arguments mortBal {A} _.
Arguments helocBal {A} _.
Arguments interestMortgage {A} _.
Arguments interestHeloc {A} _.
Arguments months {A} _.

End VB.

Section Simulators.
Variable A : Arith.

(** [if (x < 0) x = 0] *)
Definition clamp (x : t A) : t A := if x <? zero then zero else x.

(** *** computeBaselineMortgage *)

Definition levelPayment (P0 nM rM : t A) : t A :=
  if rM >? zero then (P0 * rM) / (one - pow (one + rM) (- nM))
  else P0 / nM.

Definition baseline_cond (maxMonthsSimulated : t A) (s : Baseline.state A)
  : bool :=
  (Baseline.balance s >? zero) && (Baseline.months s <? maxMonthsSimulated).

Definition baseline_body (rM baselineMonthlyPayment : t A)
           (s : Baseline.state A) : Baseline.state A :=
  let baselineMonths := Baseline.months s + one in
  let balance := Baseline.balance s in
  let interest := balance * rM in
  let payment := min baselineMonthlyPayment (balance + interest) in
  let principal := payment - interest in
  let totalInterestBaseline := Baseline.totalInterest s + interest in
  let balance := balance - principal in
  let balance := clamp balance in
  {| Baseline.balance := balance;
     Baseline.totalInterest := totalInterestBaseline;
     Baseline.months := baselineMonths |}.

Definition baseline_init (P0 : t A) : Baseline.state A :=
  {| Baseline.balance := P0;
     Baseline.totalInterest := zero;
     Baseline.months := zero |}.

Definition baseline_zero : Baseline.result A :=
  {| Baseline.baselineMonthlyPayment := zero;
     Baseline.baselineMonths := zero;
     Baseline.totalInterestBaseline := zero |}.

Definition computeBaselineMortgage (fuel : nat) (params : Baseline.params A)
  : res (Baseline.result A) :=
  let maxMonthsSimulated :=
    dflt defaultCap (Baseline.maxMonthsSimulated params) in
  let P0 := Baseline.mortgageBalance params in
  let nM := Baseline.mortgageTermMonths params in
  let rM := Baseline.mortgageRateAnnual params / twelve in
  if (P0 <=? zero) || (nM <=? zero) then Ok baseline_zero
  else
    let baselineMonthlyPayment := levelPayment P0 nM rM in
    s <- while (baseline_cond maxMonthsSimulated)
               (fun s => Ok (baseline_body rM baselineMonthlyPayment s))
               fuel (baseline_init P0) ;;
    Ok {| Baseline.baselineMonthlyPayment := baselineMonthlyPayment;
          Baseline.baselineMonths := Baseline.months s;
          Baseline.totalInterestBaseline := Baseline.totalInterest s |}.

(** *** simulateExtraPaymentStrategy *)

Definition extra_body (rM baselineMonthlyPayment extraPaymentPerMonth : t A)
           (s : Baseline.state A) : Baseline.state A :=
  let totalMonths := Baseline.months s + one in
  let balance := Baseline.balance s in
  let interest := balance * rM in
  let regularPayment := min baselineMonthlyPayment (balance + interest) in
  let principalFromRegular := regularPayment - interest in
  let extraPrincipal :=
    min extraPaymentPerMonth (balance - principalFromRegular) in
  let totalPrincipalPaid := principalFromRegular + extraPrincipal in
  let totalInterest := Baseline.totalInterest s + interest in
  let balance := balance - totalPrincipalPaid in
  let balance := clamp balance in
  {| Baseline.balance := balance;
     Baseline.totalInterest := totalInterest;
     Baseline.months := totalMonths |}.

Definition extra_zero : Extra.result A :=
  {| Extra.monthlyPayment := zero;
     Extra.totalMonths := zero;
     Extra.totalInterest := zero |}.

Definition simulateExtraPaymentStrategy (fuel : nat) (params : Extra.params A)
  : res (Extra.result A) :=
  let maxMonthsSimulated := dflt defaultCap (Extra.maxMonthsSimulated params) in
  let extraPaymentPerMonth := Extra.extraPaymentPerMonth params in
  let P0 := Extra.mortgageBalance params in
  let nM := Extra.mortgageTermMonths params in
  let rM := Extra.mortgageRateAnnual params / twelve in
  if (P0 <=? zero) || (nM <=? zero) then Ok extra_zero
  else
    let baselineMonthlyPayment := levelPayment P0 nM rM in
    s <- while (baseline_cond maxMonthsSimulated)
               (fun s => Ok (extra_body rM baselineMonthlyPayment
                                        extraPaymentPerMonth s))
               fuel (baseline_init P0) ;;
    Ok {| Extra.monthlyPayment := baselineMonthlyPayment + extraPaymentPerMonth;
          Extra.totalMonths := Baseline.months s;
          Extra.totalInterest := Baseline.totalInterest s |}.

(** *** simulateVelocityBanking *)

Definition vb_cond (maxMonthsSimulated : t A) (s : VB.state A) : bool :=
  ((VB.mortBal s >? zero) || (VB.helocBal s >? zero))
  && (VB.months s <? maxMonthsSimulated).

(** [monthsVB++] *)
Definition vb_tick (s : VB.state A) : VB.state A :=
  {| VB.mortBal := VB.mortBal s;
     VB.helocBal := VB.helocBal s;
     VB.interestMortgage := VB.interestMortgage s;
     VB.interestHeloc := VB.interestHeloc s;
     VB.months := VB.months s + one |}.

(** the mortgage step *)
Definition vb_mortgage_step (rM baselineMonthlyPayment : t A)
           (s : VB.state A) : VB.state A :=
  if VB.mortBal s >? zero then
    let mortBal := VB.mortBal s in
    let mortInterest := mortBal * rM in
    let totalInterestMortgageVB := VB.interestMortgage s + mortInterest in
    let mortPaymentThisMonth :=
      min baselineMonthlyPayment (mortBal + mortInterest) in
    let mortPrincipalPaid := mortPaymentThisMonth - mortInterest in
    let mortBal := mortBal - mortPrincipalPaid in
    let mortBal := clamp mortBal in
    {| VB.mortBal := mortBal;
       VB.helocBal := VB.helocBal s;
       VB.interestMortgage := totalInterestMortgageVB;
       VB.interestHeloc := VB.interestHeloc s;
       VB.months := VB.months s |}
  else s.

(** the test that guards the [throw] of the credit-line step:
    [helocPaymentPerMonth <= helocInterest && helocBal > 0.01] *)
Definition helocCannotAmortize (rH helocPaymentPerMonth helocBal : t A)
  : bool :=
  (helocPaymentPerMonth <=? helocBal * rH) && (helocBal >? hundredth).

(** the credit-line step *)
Definition vb_heloc_step (rH helocPaymentPerMonth : t A) (s : VB.state A)
  : res (VB.state A) :=
  if VB.helocBal s >? zero then
    let helocBal := VB.helocBal s in
    let helocInterest := helocBal * rH in
    let totalInterestHelocVB := VB.interestHeloc s + helocInterest in
    if helocCannotAmortize rH helocPaymentPerMonth helocBal
    then Throw negativeAmortization
    else
      let helocPaymentThisMonth :=
        min helocPaymentPerMonth (helocBal + helocInterest) in
      let helocPrincipalPaid := helocPaymentThisMonth - helocInterest in
      let helocBal := helocBal - helocPrincipalPaid in
      let helocBal := clamp helocBal in
      Ok {| VB.mortBal := VB.mortBal s;
            VB.helocBal := helocBal;
            VB.interestMortgage := VB.interestMortgage s;
            VB.interestHeloc := totalInterestHelocVB;
            VB.months := VB.months s |}
  else Ok s.

(** the repeat-chunk step *)
Definition vb_chunk_step (repeatChunks : bool) (helocChunkAmount : t A)
           (s : VB.state A) : VB.state A :=
  if repeatChunks && (VB.helocBal s =? zero) && (VB.mortBal s >? zero) then
    let nextChunk := min helocChunkAmount (VB.mortBal s) in
    if nextChunk >? zero then
      {| VB.mortBal := VB.mortBal s - nextChunk;
         VB.helocBal := VB.helocBal s + nextChunk;
         VB.interestMortgage := VB.interestMortgage s;
         VB.interestHeloc := VB.interestHeloc s;
         VB.months := VB.months s |}
    else s
  else s.

(** one iteration of the loop *)
Definition vb_body (rM rH baselineMonthlyPayment helocPaymentPerMonth
                    helocChunkAmount : t A) (repeatChunks : bool)
           (s : VB.state A) : res (VB.state A) :=
  let s := vb_tick s in
  let s := vb_mortgage_step rM baselineMonthlyPayment s in
  s <- vb_heloc_step rH helocPaymentPerMonth s ;;
  Ok (vb_chunk_step repeatChunks helocChunkAmount s).

(** the state on entry to the loop, after the initial chunk *)
Definition vb_init (P0 helocChunkAmount : t A) : VB.state A :=
  let mortBal := P0 in
  let helocBal := zero in
  let initialChunk := min helocChunkAmount mortBal in
  {| VB.mortBal := mortBal - initialChunk;
     VB.helocBal := helocBal + initialChunk;
     VB.interestMortgage := zero;
     VB.interestHeloc := zero;
     VB.months := zero |}.

(** the parameter record handed to [computeBaselineMortgage] *)
Definition vb_baseline_params (params : VB.params A) : Baseline.params A :=
  {| Baseline.mortgageBalance := VB.mortgageBalance params;
     Baseline.mortgageTermMonths := VB.mortgageTermMonths params;
     Baseline.mortgageRateAnnual := VB.mortgageRateAnnual params;
     Baseline.maxMonthsSimulated :=
       Some (dflt defaultCap (VB.maxMonthsSimulated params)) |}.

(** One month of the loop for the input [params], given the baseline's
    monthly payment. *)
Definition vb_month (params : VB.params A) (baselineMonthlyPayment : t A)
  : VB.state A -> res (VB.state A) :=
  vb_body (VB.mortgageRateAnnual params / twelve)
          (VB.helocRateAnnual params / twelve)
          baselineMonthlyPayment
          (VB.helocPaymentPerMonth params)
          (VB.helocChunkAmount params)
          (dflt false (VB.repeatChunks params)).

(** The fuel bounds the iterations of each loop: of the loop of the baseline
    and of the velocity loop. *)
Definition simulateVelocityBanking (fuel : nat) (params : VB.params A)
  : res (VB.result A) :=
  let maxMonthsSimulated := dflt defaultCap (VB.maxMonthsSimulated params) in
  let helocChunkAmount := VB.helocChunkAmount params in
  if helocChunkAmount <=? zero then
    baseline <- computeBaselineMortgage fuel (vb_baseline_params params) ;;
    Ok {| VB.baselineMonthlyPayment := Baseline.baselineMonthlyPayment baseline;
          VB.baselineMonths := Baseline.baselineMonths baseline;
          VB.totalInterestBaseline := Baseline.totalInterestBaseline baseline;
          VB.monthsVB := Baseline.baselineMonths baseline;
          VB.totalInterestMortgageVB := Baseline.totalInterestBaseline baseline;
          VB.totalInterestHelocVB := zero;
          VB.totalInterestVBCombined := Baseline.totalInterestBaseline baseline;
          VB.interestSaved := zero;
          VB.timeSavedMonths := zero;
          VB.yearsSaved := zero |}
  else
    baseline <- computeBaselineMortgage fuel (vb_baseline_params params) ;;
    let baselineMonthlyPayment := Baseline.baselineMonthlyPayment baseline in
    let baselineMonths := Baseline.baselineMonths baseline in
    let totalInterestBaseline := Baseline.totalInterestBaseline baseline in
    let P0 := VB.mortgageBalance params in
    s <- while (vb_cond maxMonthsSimulated)
               (vb_month params baselineMonthlyPayment)
               fuel (vb_init P0 helocChunkAmount) ;;
    let monthsVB := VB.months s in
    let totalInterestMortgageVB := VB.interestMortgage s in
    let totalInterestHelocVB := VB.interestHeloc s in
    let totalInterestVBCombined :=
      totalInterestMortgageVB + totalInterestHelocVB in
    let interestSaved := totalInterestBaseline - totalInterestVBCombined in
    let timeSavedMonths := baselineMonths - monthsVB in
    let yearsSaved := timeSavedMonths / twelve in
    Ok {| VB.baselineMonthlyPayment := baselineMonthlyPayment;
          VB.baselineMonths := baselineMonths;
          VB.totalInterestBaseline := totalInterestBaseline;
          VB.monthsVB := monthsVB;
          VB.totalInterestMortgageVB := totalInterestMortgageVB;
          VB.totalInterestHelocVB := totalInterestHelocVB;
          VB.totalInterestVBCombined := totalInterestVBCombined;
          VB.interestSaved := interestSaved;
          VB.timeSavedMonths := timeSavedMonths;
          VB.yearsSaved := yearsSaved |}.

(** The state in which the credit-line step of the month that starts in [s]
    is run: after the counter and the mortgage step. *)
Definition vb_heloc_entry (params : VB.params A) (baselineMonthlyPayment : t A)
           (s : VB.state A) : VB.state A :=
  vb_mortgage_step (VB.mortgageRateAnnual params / twelve)
                   baselineMonthlyPayment (vb_tick s).

End Simulators.

End Generic.

(** ** Sample inputs in exact arithmetic *)

(** A credit line that is never repaid: the first chunk of 0.01 is at the
    threshold and passes month 1; its interest brings the balance to 0.0101,
    and the simulation stops in month 2. *)
Definition example_negam : Generic.VB.params Num.Exact :=
  {| Generic.VB.mortgageBalance := 1000;
     Generic.VB.mortgageTermMonths := 3;
     Generic.VB.mortgageRateAnnual := 12 # 100;
     Generic.VB.helocRateAnnual := 12 # 100;
     Generic.VB.helocChunkAmount := 1 # 100;
     Generic.VB.helocPaymentPerMonth := 0;
     Generic.VB.repeatChunks := Some false;
     Generic.VB.maxMonthsSimulated := Some 5 |}.

(** A loan of 12 months at a zero rate under a cap of 2.5 months, and under a
    cap of -1. *)
Definition example_fractional_cap : Generic.Baseline.params Num.Exact :=
  {| Generic.Baseline.mortgageBalance := 1200;
     Generic.Baseline.mortgageTermMonths := 12;
     Generic.Baseline.mortgageRateAnnual := 0;
     Generic.Baseline.maxMonthsSimulated := Some (5 # 2) |}.

Definition example_negative_cap : Generic.Baseline.params Num.Exact :=
  {| Generic.Baseline.mortgageBalance := 1200;
     Generic.Baseline.mortgageTermMonths := 12;
     Generic.Baseline.mortgageRateAnnual := 0;
     Generic.Baseline.maxMonthsSimulated := Some (- (1)) |}.

(** * Notions used by the properties *)

(** [reaches cond body k s s']: from [s] the loop runs [k] iterations, each
    entered because [cond] holds and each completed by [body], and they lead
    to [s']. *)
Inductive reaches {St : Type} (cond : St -> bool) (body : St -> res St)
  : nat -> St -> St -> Prop :=
| reaches_here (s : St) : reaches cond body 0 s s
| reaches_step (k : nat) (s s1 s' : St) :
    cond s = true -> body s = Ok s1 -> reaches cond body k s1 s' ->
    reaches cond body (Datatypes.S k) s s'.

(** A month count between 0 and the cap. *)
Definition monthsWithin (cap m : Z) : Prop := (0 <= m <= Z.max 0 cap)%Z.

(** The loan of a velocity-banking or extra-payment input, as the baseline
    takes it. *)
Definition vb_loan (params : VB.params) : Baseline.params :=
  {| Baseline.mortgageBalance := VB.mortgageBalance params;
     Baseline.mortgageTermMonths := VB.mortgageTermMonths params;
     Baseline.mortgageRateAnnual := VB.mortgageRateAnnual params;
     Baseline.maxMonthsSimulated := VB.maxMonthsSimulated params |}.

Definition extra_loan (params : Extra.params) : Baseline.params :=
  {| Baseline.mortgageBalance := Extra.mortgageBalance params;
     Baseline.mortgageTermMonths := Extra.mortgageTermMonths params;
     Baseline.mortgageRateAnnual := Extra.mortgageRateAnnual params;
     Baseline.maxMonthsSimulated := Extra.maxMonthsSimulated params |}.

(** The recurrence in the words of the specification: value_0 = 0 and
    value_m = value_(m-1) * (1 + monthlyRate) + c. *)
Fixpoint annuityValue (monthlyRate c : Q) (m : nat) : Q :=
  match m with
  | O => 0
  | Datatypes.S m' => annuityValue monthlyRate c m' * (1 + monthlyRate) + c
  end.

(** Two loop states that hold the same numbers. *)
Definition state_eq (s1 s2 : Baseline.state) : Prop :=
  Baseline.balance s1 == Baseline.balance s2
  /\ Baseline.totalInterest s1 == Baseline.totalInterest s2
  /\ Baseline.months s1 = Baseline.months s2.

(** ** Sample inputs *)

(** A loan of 1000 over 3 months at 12% a year, with a credit line at 7%. *)
Definition example_no_chunk : VB.params :=
  {| VB.mortgageBalance := 1000;
     VB.mortgageTermMonths := 3;
     VB.mortgageRateAnnual := 12 # 100;
     VB.helocRateAnnual := 7 # 100;
     VB.helocChunkAmount := 0;
     VB.helocPaymentPerMonth := 0;
     VB.repeatChunks := Some true;
     VB.maxMonthsSimulated := None |}.

(** The same loan with 200 extra a month: the last month is clamped. *)
Definition example_extra : Extra.params :=
  {| Extra.mortgageBalance := 1000;
     Extra.mortgageTermMonths := 3;
     Extra.mortgageRateAnnual := 12 # 100;
     Extra.extraPaymentPerMonth := 200;
     Extra.maxMonthsSimulated := None |}.

(** A loan with nothing left to repay and a credit line of chunks of 15000. *)
Definition example_no_balance : VB.params :=
  {| VB.mortgageBalance := -100;
     VB.mortgageTermMonths := 3;
     VB.mortgageRateAnnual := 12 # 100;
     VB.helocRateAnnual := 7 # 100;
     VB.helocChunkAmount := 15000;
     VB.helocPaymentPerMonth := 0;
     VB.repeatChunks := Some true;
     VB.maxMonthsSimulated := None |}.

(** The default scenario scaled down: 1000 over 3 months at 12% a year, a
    credit line at 12% with chunks of 200 repaid at 300 a month, investments
    returning 10% a year. *)
Definition example_all : All.params :=
  {| All.mortgageBalance := 1000;
     All.mortgageTermMonths := 3;
     All.mortgageRateAnnual := 12 # 100;
     All.helocRateAnnual := 12 # 100;
     All.helocChunkAmount := 200;
     All.helocPaymentPerMonth := 300;
     All.repeatChunks := Some true;
     All.investmentReturnAnnual := Some (10 # 100);
     All.maxMonthsSimulated := Some 5%Z |}.

(** 100 a month for 3 months at 12% a year, against a paydown that saves
    50 - 20 of interest. *)
Definition example_invest : Invest.params :=
  {| Invest.investmentTermMonths := 3;
     Invest.extraPaymentPerMonth := 100;
     Invest.investmentReturnAnnual := 12 # 100;
     Invest.baselineInterest := 50;
     Invest.bestPaydownInterest := 20 |}.

(** ** Notions used by the further properties *)

(** The parameter records [simulateAllStrategies] hands to the extra-payment
    and to the velocity simulator. *)
Definition all_loan (params : All.params) : Baseline.params :=
  {| Baseline.mortgageBalance := All.mortgageBalance params;
     Baseline.mortgageTermMonths := All.mortgageTermMonths params;
     Baseline.mortgageRateAnnual := All.mortgageRateAnnual params;
     Baseline.maxMonthsSimulated :=
       Some (dflt 1200%Z (All.maxMonthsSimulated params)) |}.

Definition all_extra_params (params : All.params) : Extra.params :=
  {| Extra.mortgageBalance := All.mortgageBalance params;
     Extra.mortgageTermMonths := All.mortgageTermMonths params;
     Extra.mortgageRateAnnual := All.mortgageRateAnnual params;
     Extra.extraPaymentPerMonth := or_zero (All.helocPaymentPerMonth params);
     Extra.maxMonthsSimulated :=
       Some (dflt 1200%Z (All.maxMonthsSimulated params)) |}.

Definition all_velocity_params (params : All.params) : VB.params :=
  {| VB.mortgageBalance := All.mortgageBalance params;
     VB.mortgageTermMonths := All.mortgageTermMonths params;
     VB.mortgageRateAnnual := All.mortgageRateAnnual params;
     VB.helocRateAnnual := All.helocRateAnnual params;
     VB.helocChunkAmount := or_zero (All.helocChunkAmount params);
     VB.helocPaymentPerMonth := or_zero (All.helocPaymentPerMonth params);
     VB.repeatChunks := Some (dflt false (All.repeatChunks params));
     VB.maxMonthsSimulated :=
       Some (dflt 1200%Z (All.maxMonthsSimulated params)) |}.

(** The parameter record [simulateAllStrategies] hands to the investment
    projector, read off the report [r] it returns. *)
Definition all_investment_params (params : All.params) (r : All.result)
  : Invest.params :=
  {| Invest.investmentTermMonths :=
       data_totalMonths (Paydown.data (All.bestPaydownStrategy r));
     Invest.extraPaymentPerMonth := or_zero (All.helocPaymentPerMonth params);
     Invest.investmentReturnAnnual :=
       or_zero (dflt 0 (All.investmentReturnAnnual params));
     Invest.baselineInterest := Extra.totalInterest (All.baseline r);
     Invest.bestPaydownInterest :=
       data_totalInterest (Paydown.data (All.bestPaydownStrategy r)) |}.



(** The extra-payment loop state [s_e] is no worse than the baseline loop
    state [s_b] of the same month: it owes no more and has paid no more
    interest. *)
Definition no_worse (s_e s_b : Baseline.state) : Prop :=
  Baseline.months s_e = Baseline.months s_b
  /\ Baseline.balance s_e <= Baseline.balance s_b
  /\ Baseline.totalInterest s_e <= Baseline.totalInterest s_b.

(** The velocity loop state [s_v] is no worse on the mortgage than the
    baseline loop state [s_b] of the same month. *)
Definition mortgage_no_worse (s_v : VB.state) (s_b : Baseline.state) : Prop :=
  VB.months s_v = Baseline.months s_b
  /\ VB.mortBal s_v <= Baseline.balance s_b
  /\ VB.interestMortgage s_v <= Baseline.totalInterest s_b.

(** * Properties *)

(** ** Facts about [while] *)

Section WhileFuel.
Context {St : Type} (cond : St -> bool) (body : St -> res St).

(** A run that ends (in a value or in an error) is not changed by more
    fuel. *)
Lemma while_fuel_mono (k fuel : nat) (s : St) :
  while cond body fuel s <> OutOfFuel ->
  while cond body (fuel + k) s = while cond body fuel s.
Proof.
  revert s; induction fuel as [|fuel IH]; intros s; simpl.
  - destruct (cond s) eqn:E; [congruence|].
    intros _. destruct k; simpl; rewrite E; reflexivity.
  - destruct (cond s); [|reflexivity].
    destruct (body s) as [s'| |]; auto.
Qed.

(** Iterations that are known to run can be peeled off the front. *)
Lemma while_reaches (k : nat) (s s' : St) :
  reaches cond body k s s' ->
  forall fuel, while cond body (k + fuel) s = while cond body fuel s'.
Proof.
  induction 1 as [s|k s s1 s' Hc Hb _ IH]; intros fuel; simpl.
  - reflexivity.
  - rewrite Hc, Hb. apply IH.
Qed.

End WhileFuel.

Section WhileMeasure.
Context {St : Type} (cond : St -> bool) (body : St -> res St).
Variable mu : St -> nat.
Hypothesis mu_pos : forall s, cond s = true -> (0 < mu s)%nat.
Hypothesis mu_dec :
  forall s s', cond s = true -> body s = Ok s' -> (mu s' < mu s)%nat.
Hypothesis body_total : forall s, body s <> OutOfFuel.

(** A loop whose condition forces the measure positive and whose body
    lowers it ends within [mu s] iterations. *)
Lemma while_terminates (fuel : nat) (s : St) :
  (mu s <= fuel)%nat -> while cond body fuel s <> OutOfFuel.
Proof.
  revert s; induction fuel as [|fuel IH]; intros s Hle; simpl.
  - destruct (cond s) eqn:E; [|discriminate].
    apply mu_pos in E. lia.
  - destruct (cond s) eqn:E; [|discriminate].
    destruct (body s) as [s'| |] eqn:B.
    + apply IH. specialize (mu_dec s s' E B). lia.
    + discriminate.
    + exfalso. exact (body_total s B).
Qed.
End WhileMeasure.

Section WhileInvariant.
Context {St : Type} (cond : St -> bool) (body : St -> res St).
Variable Inv : St -> Prop.
Hypothesis Inv_step :
  forall s s', Inv s -> cond s = true -> body s = Ok s' -> Inv s'.

Lemma while_invariant (fuel : nat) (s s' : St) :
  Inv s -> while cond body fuel s = Ok s' -> Inv s' /\ cond s' = false.
Proof.
  revert s; induction fuel as [|fuel IH]; intros s HI; simpl.
  - destruct (cond s) eqn:E; [discriminate|].
    intros [= <-]. auto.
  - destruct (cond s) eqn:E.
    + destruct (body s) as [s1| |] eqn:B; try discriminate.
      apply IH. eauto.
    + intros [= <-]. auto.
Qed.

End WhileInvariant.

(** A loop whose body cannot throw does not throw. *)
Lemma while_pure_no_throw {St : Type} (cond : St -> bool) (f : St -> St)
      (fuel : nat) (s : St) (msg : string) :
  while cond (fun s => Ok (f s)) fuel s <> Throw msg.
Proof.
  revert s; induction fuel as [|fuel IH]; intros s; simpl;
    destruct (cond s); try discriminate. apply IH.
Qed.

(** ** The comparisons, as propositions *)

Lemma gt_true (a b : Q) : gt a b = true <-> b < a.
Proof.
  unfold gt. rewrite negb_true_iff, <- not_true_iff_false, Qle_bool_iff.
  split; [apply Qnot_le_lt | apply Qlt_not_le].
Qed.

Lemma gt_false (a b : Q) : gt a b = false <-> a <= b.
Proof. unfold gt. rewrite negb_false_iff. apply Qle_bool_iff. Qed.

Lemma le_true (a b : Q) : le a b = true <-> a <= b.
Proof. apply Qle_bool_iff. Qed.

Lemma le_false (a b : Q) : le a b = false <-> b < a.
Proof.
  unfold le. rewrite <- not_true_iff_false, Qle_bool_iff.
  split; [apply Qnot_le_lt | apply Qlt_not_le].
Qed.

(** ** The month counters *)

Lemma baseline_cond_months (cap : Z) (s : Baseline.state) :
  baseline_cond cap s = true -> (Baseline.months s < cap)%Z.
Proof.
  unfold baseline_cond. rewrite andb_true_iff, Z.ltb_lt. tauto.
Qed.

Lemma baseline_loop_ends (cap : Z) (f : Baseline.state -> Baseline.state)
      (fuel : nat) (s : Baseline.state) :
  (forall s, Baseline.months (f s) = Baseline.months s + 1)%Z ->
  (Z.to_nat (cap - Baseline.months s) <= fuel)%nat ->
  while (baseline_cond cap) (fun s => Ok (f s)) fuel s <> OutOfFuel.
Proof.
  intros Hf.
  apply (while_terminates _ _ (fun s => Z.to_nat (cap - Baseline.months s))).
  - intros s0 Hc. apply baseline_cond_months in Hc. lia.
  - intros s0 s1 Hc [= <-]. apply baseline_cond_months in Hc.
    rewrite Hf. lia.
  - discriminate.
Qed.

Lemma baseline_loop_months (cap : Z) (f : Baseline.state -> Baseline.state)
      (fuel : nat) (s s' : Baseline.state) :
  (forall s, Baseline.months (f s) = Baseline.months s + 1)%Z ->
  monthsWithin cap (Baseline.months s) ->
  while (baseline_cond cap) (fun s => Ok (f s)) fuel s = Ok s' ->
  monthsWithin cap (Baseline.months s').
Proof.
  intros Hf HI Hw.
  apply (while_invariant _ _ (fun s => monthsWithin cap (Baseline.months s)))
    in Hw; [tauto| |exact HI].
  intros s0 s1 H0 Hc [= <-]. apply baseline_cond_months in Hc.
  unfold monthsWithin in *. rewrite Hf. lia.
Qed.

Lemma monthsWithin_0 (cap : Z) : monthsWithin cap 0.
Proof. unfold monthsWithin. lia. Qed.

(** [computeBaselineMortgage] always returns, with a month count between 0
    and the cap. *)
Lemma baseline_returns (params : Baseline.params) :
  exists r, computeBaselineMortgage params = Ok r
            /\ monthsWithin (dflt 1200%Z (Baseline.maxMonthsSimulated params))
                            (Baseline.baselineMonths r).
Proof.
  unfold computeBaselineMortgage, computeBaselineMortgage_fuel, loopFuel.
  set (cap := dflt 1200%Z (Baseline.maxMonthsSimulated params)).
  destruct (le _ 0 || _).
  - eexists; split; [reflexivity|apply monthsWithin_0].
  - set (f := baseline_body _ _).
    assert (Hf : forall s, (Baseline.months (f s) = Baseline.months s + 1)%Z)
      by reflexivity.
    destruct (while _ _ _ _) as [s'| |] eqn:W.
    + eexists; split; [reflexivity|]. simpl.
      eapply baseline_loop_months; [exact Hf| |exact W]. apply monthsWithin_0.
    + exfalso. revert W. apply while_pure_no_throw.
    + exfalso. revert W. apply baseline_loop_ends; [exact Hf|]. simpl. lia.
Qed.

Lemma extra_returns (params : Extra.params) :
  exists r, simulateExtraPaymentStrategy params = Ok r
            /\ monthsWithin (dflt 1200%Z (Extra.maxMonthsSimulated params))
                            (Extra.totalMonths r).
Proof.
  unfold simulateExtraPaymentStrategy, simulateExtraPaymentStrategy_fuel,
    loopFuel.
  set (cap := dflt 1200%Z (Extra.maxMonthsSimulated params)).
  destruct (le _ 0 || _).
  - eexists; split; [reflexivity|apply monthsWithin_0].
  - set (f := extra_body _ _ _).
    assert (Hf : forall s, (Baseline.months (f s) = Baseline.months s + 1)%Z)
      by reflexivity.
    destruct (while _ _ _ _) as [s'| |] eqn:W.
    + eexists; split; [reflexivity|]. simpl.
      eapply baseline_loop_months; [exact Hf| |exact W]. apply monthsWithin_0.
    + exfalso. revert W. apply while_pure_no_throw.
    + exfalso. revert W. apply baseline_loop_ends; [exact Hf|]. simpl. lia.
Qed.

(** The velocity loop: every step but [vb_tick] leaves the counter alone. *)
Lemma vb_mortgage_step_months (rM pay : Q) (s : VB.state) :
  VB.months (vb_mortgage_step rM pay s) = VB.months s.
Proof. unfold vb_mortgage_step. destruct (gt _ _); reflexivity. Qed.

Lemma vb_heloc_step_months (rH pay : Q) (s s' : VB.state) :
  vb_heloc_step rH pay s = Ok s' -> VB.months s' = VB.months s.
Proof.
  unfold vb_heloc_step. destruct (gt _ _); [|congruence].
  destruct (helocCannotAmortize _ _ _); [discriminate|].
  intros [= <-]. reflexivity.
Qed.

Lemma vb_chunk_step_months (rep : bool) (chunk : Q) (s : VB.state) :
  VB.months (vb_chunk_step rep chunk s) = VB.months s.
Proof.
  unfold vb_chunk_step. destruct (_ && _ && _); [|reflexivity].
  destruct (gt _ _); reflexivity.
Qed.

Lemma vb_body_months (rM rH pay hpay chunk : Q) (rep : bool)
      (s s' : VB.state) :
  vb_body rM rH pay hpay chunk rep s = Ok s' ->
  (VB.months s' = VB.months s + 1)%Z.
Proof.
  unfold vb_body.
  destruct (vb_heloc_step _ _ _) as [s1| |] eqn:H; simpl; try discriminate.
  intros [= <-]. rewrite vb_chunk_step_months.
  apply vb_heloc_step_months in H. rewrite H, vb_mortgage_step_months.
  reflexivity.
Qed.

Lemma vb_body_not_out_of_fuel (rM rH pay hpay chunk : Q) (rep : bool)
      (s : VB.state) :
  vb_body rM rH pay hpay chunk rep s <> OutOfFuel.
Proof.
  unfold vb_body, vb_heloc_step.
  destruct (gt _ _); [destruct (helocCannotAmortize _ _ _)|]; discriminate.
Qed.

Lemma vb_cond_months (cap : Z) (s : VB.state) :
  vb_cond cap s = true -> (VB.months s < cap)%Z.
Proof. unfold vb_cond. rewrite andb_true_iff, Z.ltb_lt. tauto. Qed.

Lemma vb_loop_ends (cap : Z) (rM rH pay hpay chunk : Q) (rep : bool)
      (fuel : nat) (s : VB.state) :
  (Z.to_nat (cap - VB.months s) <= fuel)%nat ->
  while (vb_cond cap) (vb_body rM rH pay hpay chunk rep) fuel s <> OutOfFuel.
Proof.
  apply (while_terminates _ _ (fun s => Z.to_nat (cap - VB.months s))).
  - intros s0 Hc. apply vb_cond_months in Hc. lia.
  - intros s0 s1 Hc Hb. apply vb_cond_months in Hc.
    apply vb_body_months in Hb. lia.
  - intros s0. apply vb_body_not_out_of_fuel.
Qed.

Lemma vb_loop_months (cap : Z) (rM rH pay hpay chunk : Q) (rep : bool)
      (fuel : nat) (s s' : VB.state) :
  monthsWithin cap (VB.months s) ->
  while (vb_cond cap) (vb_body rM rH pay hpay chunk rep) fuel s = Ok s' ->
  monthsWithin cap (VB.months s').
Proof.
  intros HI Hw.
  apply (while_invariant _ _ (fun s => monthsWithin cap (VB.months s)))
    in Hw; [tauto| |exact HI].
  intros s0 s1 H0 Hc Hb. apply vb_cond_months in Hc.
  apply vb_body_months in Hb. unfold monthsWithin in *. lia.
Qed.

(** The only error the velocity loop can end in. *)
Lemma vb_loop_throw (cap : Z) (rM rH pay hpay chunk : Q) (rep : bool)
      (fuel : nat) (s : VB.state) (msg : string) :
  while (vb_cond cap) (vb_body rM rH pay hpay chunk rep) fuel s = Throw msg ->
  msg = negativeAmortization.
Proof.
  revert s; induction fuel as [|fuel IH]; intros s; simpl;
    destruct (vb_cond cap s); try discriminate.
  destruct (vb_body _ _ _ _ _ _ s) as [s1|m|] eqn:B; try discriminate.
  - apply IH.
  - intros [= <-]. revert B. unfold vb_body, vb_heloc_step.
    destruct (gt _ _); [destruct (helocCannotAmortize _ _ _)|]; simpl;
      congruence.
Qed.

(** [simulateVelocityBanking] always ends: in a result whose month count lies
    between 0 and the cap, or in the negative-amortization error. *)
Lemma velocity_returns (params : VB.params) :
  (exists r, simulateVelocityBanking params = Ok r
             /\ monthsWithin (dflt 1200%Z (VB.maxMonthsSimulated params))
                             (VB.monthsVB r))
  \/ simulateVelocityBanking params = Throw negativeAmortization.
Proof.
  unfold simulateVelocityBanking, simulateVelocityBanking_fuel, loopFuel.
  set (cap := dflt 1200%Z (VB.maxMonthsSimulated params)).
  destruct (baseline_returns (vb_baseline_params params)) as (b & Hb & Hm).
  rewrite Hb. simpl bind. simpl in Hm. fold cap in Hm.
  destruct (le _ 0).
  - left. eexists; split; [reflexivity|exact Hm].
  - destruct (while _ _ _ _) as [s'|msg|] eqn:W; simpl.
    + left. eexists; split; [reflexivity|]. simpl.
      eapply vb_loop_months; [|exact W]. apply monthsWithin_0.
    + right. apply vb_loop_throw in W. congruence.
    + exfalso. revert W. apply vb_loop_ends. simpl. lia.
Qed.

(** The baseline reads its cap through the default only. *)
Lemma baseline_cap_default (P0 : Q) (nM : Z) (r : Q) (cap : option Z) :
  computeBaselineMortgage
    {| Baseline.mortgageBalance := P0;
       Baseline.mortgageTermMonths := nM;
       Baseline.mortgageRateAnnual := r;
       Baseline.maxMonthsSimulated := Some (dflt 1200%Z cap) |}
  = computeBaselineMortgage
      {| Baseline.mortgageBalance := P0;
         Baseline.mortgageTermMonths := nM;
         Baseline.mortgageRateAnnual := r;
         Baseline.maxMonthsSimulated := cap |}.
Proof. destruct cap; reflexivity. Qed.

Lemma vb_baseline_params_loan (params : VB.params) :
  computeBaselineMortgage (vb_baseline_params params)
  = computeBaselineMortgage (vb_loan params).
Proof. apply baseline_cap_default. Qed.

(** A loan that is not degenerate takes the second branch of the guard. *)
Lemma degenerate_false (P0 : Q) (nM : Z) :
  0 < P0 -> (0 < nM)%Z -> le P0 0 || (nM <=? 0)%Z = false.
Proof.
  intros HP Hn. apply orb_false_iff; split.
  - apply le_false. exact HP.
  - apply Z.leb_gt. exact Hn.
Qed.

Lemma degenerate_true (P0 : Q) (nM : Z) :
  P0 <= 0 \/ (nM <= 0)%Z -> le P0 0 || (nM <=? 0)%Z = true.
Proof.
  intros [HP|Hn]; apply orb_true_iff; [left|right].
  - apply le_true. exact HP.
  - apply Z.leb_le. exact Hn.
Qed.

(** The payment field of a baseline result on a loan that is not degenerate. *)
Lemma baseline_payment (params : Baseline.params) (b : Baseline.result) :
  0 < Baseline.mortgageBalance params ->
  (0 < Baseline.mortgageTermMonths params)%Z ->
  computeBaselineMortgage params = Ok b ->
  Baseline.baselineMonthlyPayment b
  = levelPayment (Baseline.mortgageBalance params)
                 (Baseline.mortgageTermMonths params)
                 (Baseline.mortgageRateAnnual params / 12).
Proof.
  intros HP Hn.
  unfold computeBaselineMortgage, computeBaselineMortgage_fuel.
  rewrite (degenerate_false _ _ HP Hn).
  destruct (while _ _ _ _); simpl; try discriminate.
  intros [= <-]. reflexivity.
Qed.

(** ** Worked examples *)

(** A zero-rate loan: payment = principal / term, no interest. *)
Example baseline_zero_rate :
  match computeBaselineMortgage
          {| Baseline.mortgageBalance := 1200;
             Baseline.mortgageTermMonths := 12;
             Baseline.mortgageRateAnnual := 0;
             Baseline.maxMonthsSimulated := None |} with
  | Ok b =>
      Qred (Baseline.baselineMonthlyPayment b) = 100
      /\ Baseline.baselineMonths b = 12%Z
      /\ Qred (Baseline.totalInterestBaseline b) = 0
  | _ => False
  end.
Proof. vm_compute. repeat split. Qed.

(** No chunk and no payment: both paydown strategies are the baseline, the
    tie goes to Extra Payment, and at a net benefit of 0 the paydown wins. *)
Example tie_goes_to_extra_payment :
  match simulateAllStrategies
          {| All.mortgageBalance := 1000;
             All.mortgageTermMonths := 3;
             All.mortgageRateAnnual := 12 # 100;
             All.helocRateAnnual := 7 # 100;
             All.helocChunkAmount := 0;
             All.helocPaymentPerMonth := 0;
             All.repeatChunks := None;
             All.investmentReturnAnnual := None;
             All.maxMonthsSimulated := None |} with
  | Ok r =>
      Comparison.interestSaved (All.velocityVsBaseline (All.comparisons r))
      == Comparison.interestSaved (All.extraVsBaseline (All.comparisons r))
      /\ Paydown.name (All.bestPaydownStrategy r) = "Extra Payment"%string
      /\ Invest.netBenefit (All.investment r) = 0
      /\ Overall.type (All.bestOverallStrategy r) = "paydown"%string
  | _ => False
  end.
Proof. vm_compute. repeat split. Qed.

(** A balance of 0.005 at a zero line rate with no payment is under the
    threshold: no error is raised and the loop runs to the cap. *)
Example under_threshold_runs_to_cap :
  match simulateVelocityBanking
          {| VB.mortgageBalance := 1000;
             VB.mortgageTermMonths := 3;
             VB.mortgageRateAnnual := 12 # 100;
             VB.helocRateAnnual := 0;
             VB.helocChunkAmount := 5 # 1000;
             VB.helocPaymentPerMonth := 0;
             VB.repeatChunks := Some false;
             VB.maxMonthsSimulated := Some 6%Z |} with
  | Ok r => VB.monthsVB r = 6%Z
  | _ => False
  end.
Proof. vm_compute. reflexivity. Qed.

(** ** The claims *)

(** C6.  When the principal is at most 0 or the term is at most 0,
    [computeBaselineMortgage] and [simulateExtraPaymentStrategy] both return
    the all-zero record (payment 0, months 0, interest 0), and so raise no
    error. *)
Theorem C6_degenerate_zero
        (P0 : Q) (nM : Z) (rate extra : Q) (cap : option Z) :
  P0 <= 0 \/ (nM <= 0)%Z ->
  computeBaselineMortgage
    {| Baseline.mortgageBalance := P0;
       Baseline.mortgageTermMonths := nM;
       Baseline.mortgageRateAnnual := rate;
       Baseline.maxMonthsSimulated := cap |}
  = Ok {| Baseline.baselineMonthlyPayment := 0;
          Baseline.baselineMonths := 0;
          Baseline.totalInterestBaseline := 0 |}
  /\ simulateExtraPaymentStrategy
       {| Extra.mortgageBalance := P0;
          Extra.mortgageTermMonths := nM;
          Extra.mortgageRateAnnual := rate;
          Extra.extraPaymentPerMonth := extra;
          Extra.maxMonthsSimulated := cap |}
     = Ok {| Extra.monthlyPayment := 0;
             Extra.totalMonths := 0;
             Extra.totalInterest := 0 |}.
Proof.
  intros H. apply degenerate_true in H.
  unfold computeBaselineMortgage, computeBaselineMortgage_fuel,
    simulateExtraPaymentStrategy, simulateExtraPaymentStrategy_fuel.
  simpl. rewrite H. split; reflexivity.
Qed.

Lemma C6_degenerate_zero_witness :
  computeBaselineMortgage
    {| Baseline.mortgageBalance := -5;
       Baseline.mortgageTermMonths := 300;
       Baseline.mortgageRateAnnual := 63 # 1000;
       Baseline.maxMonthsSimulated := None |}
  = Ok {| Baseline.baselineMonthlyPayment := 0;
          Baseline.baselineMonths := 0;
          Baseline.totalInterestBaseline := 0 |}
  /\ simulateExtraPaymentStrategy
       {| Extra.mortgageBalance := -5;
          Extra.mortgageTermMonths := 300;
          Extra.mortgageRateAnnual := 63 # 1000;
          Extra.extraPaymentPerMonth := 3000;
          Extra.maxMonthsSimulated := None |}
     = Ok {| Extra.monthlyPayment := 0;
             Extra.totalMonths := 0;
             Extra.totalInterest := 0 |}.
Proof.
  apply (C6_degenerate_zero (-5) 300 (63 # 1000) 3000 None).
  left. unfold Qle. simpl. lia.
Defined.

(** C2.  When [helocChunkAmount <= 0], [simulateVelocityBanking] returns
    exactly the baseline of the same loan: the baseline's own three fields,
    combined months = baseline months, mortgage interest = combined interest =
    baseline interest, credit-line interest 0 and zero interest and time
    saved.  The two-balance loop is not run: the result is the same with no
    fuel at all for it. *)
Theorem C2_no_chunk_is_baseline (params : VB.params) :
  VB.helocChunkAmount params <= 0 ->
  exists baseline,
    computeBaselineMortgage (vb_loan params) = Ok baseline
    /\ simulateVelocityBanking params
       = Ok {| VB.baselineMonthlyPayment :=
                 Baseline.baselineMonthlyPayment baseline;
               VB.baselineMonths := Baseline.baselineMonths baseline;
               VB.totalInterestBaseline :=
                 Baseline.totalInterestBaseline baseline;
               VB.monthsVB := Baseline.baselineMonths baseline;
               VB.totalInterestMortgageVB :=
                 Baseline.totalInterestBaseline baseline;
               VB.totalInterestHelocVB := 0;
               VB.totalInterestVBCombined :=
                 Baseline.totalInterestBaseline baseline;
               VB.interestSaved := 0;
               VB.timeSavedMonths := 0;
               VB.yearsSaved := 0 |}
    /\ simulateVelocityBanking_fuel 0 params = simulateVelocityBanking params.
Proof.
  intros Hc. apply le_true in Hc.
  destruct (baseline_returns (vb_loan params)) as (b & Hb & _).
  exists b. split; [exact Hb|].
  unfold simulateVelocityBanking, simulateVelocityBanking_fuel.
  rewrite Hc, vb_baseline_params_loan, Hb. split; reflexivity.
Qed.

Lemma C2_no_chunk_is_baseline_witness :
  exists baseline,
    computeBaselineMortgage (vb_loan example_no_chunk) = Ok baseline
    /\ simulateVelocityBanking example_no_chunk
       = Ok {| VB.baselineMonthlyPayment :=
                 Baseline.baselineMonthlyPayment baseline;
               VB.baselineMonths := Baseline.baselineMonths baseline;
               VB.totalInterestBaseline :=
                 Baseline.totalInterestBaseline baseline;
               VB.monthsVB := Baseline.baselineMonths baseline;
               VB.totalInterestMortgageVB :=
                 Baseline.totalInterestBaseline baseline;
               VB.totalInterestHelocVB := 0;
               VB.totalInterestVBCombined :=
                 Baseline.totalInterestBaseline baseline;
               VB.interestSaved := 0;
               VB.timeSavedMonths := 0;
               VB.yearsSaved := 0 |}
    /\ simulateVelocityBanking_fuel 0 example_no_chunk
       = simulateVelocityBanking example_no_chunk.
Proof.
  apply (C2_no_chunk_is_baseline example_no_chunk).
  unfold Qle. simpl. lia.
Defined.

(** C8.  On a loan with principal > 0 and term > 0, the [monthlyPayment]
    returned by [simulateExtraPaymentStrategy] is the baseline's monthly
    payment plus the nominal [extraPaymentPerMonth], whatever was clamped in
    the last month. *)
Theorem C8_extra_monthly_payment (params : Extra.params) :
  0 < Extra.mortgageBalance params ->
  (0 < Extra.mortgageTermMonths params)%Z ->
  exists baseline extra,
    computeBaselineMortgage (extra_loan params) = Ok baseline
    /\ simulateExtraPaymentStrategy params = Ok extra
    /\ Extra.monthlyPayment extra
       = Baseline.baselineMonthlyPayment baseline
         + Extra.extraPaymentPerMonth params.
Proof.
  intros HP Hn.
  destruct (baseline_returns (extra_loan params)) as (b & Hb & _).
  destruct (extra_returns params) as (e & He & _).
  exists b, e. split; [exact Hb|]. split; [exact He|].
  rewrite (baseline_payment (extra_loan params) b HP Hn Hb). simpl.
  revert He.
  unfold simulateExtraPaymentStrategy, simulateExtraPaymentStrategy_fuel.
  rewrite (degenerate_false _ _ HP Hn).
  destruct (while _ _ _ _); simpl; try discriminate.
  intros [= <-]. reflexivity.
Qed.

Lemma C8_extra_monthly_payment_witness :
  exists baseline extra,
    computeBaselineMortgage (extra_loan example_extra) = Ok baseline
    /\ simulateExtraPaymentStrategy example_extra = Ok extra
    /\ Extra.monthlyPayment extra
       = Baseline.baselineMonthlyPayment baseline
         + Extra.extraPaymentPerMonth example_extra.
Proof.
  apply (C8_extra_monthly_payment example_extra).
  - unfold Qlt. simpl. lia.
  - simpl. lia.
Defined.

(** The loop is not entered from a state with no positive balance. *)
Lemma while_skip {St : Type} (cond : St -> bool) (body : St -> res St)
      (fuel : nat) (s : St) :
  cond s = false -> while cond body fuel s = Ok s.
Proof. intros H. destruct fuel; simpl; rewrite H; reflexivity. Qed.

Lemma vb_init_no_balance (P0 chunk : Q) (cap : Z) :
  0 < chunk -> P0 <= 0 -> vb_cond cap (vb_init P0 chunk) = false.
Proof.
  intros Hc HP. unfold vb_cond, vb_init, Math_min. simpl.
  assert (E : Qle_bool chunk P0 = false).
  { apply le_false. lra. }
  rewrite E.
  assert (E1 : gt (P0 - P0) 0 = false) by (apply gt_false; lra).
  assert (E2 : gt (0 + P0) 0 = false) by (apply gt_false; lra).
  rewrite E1, E2. reflexivity.
Qed.

(** C10.  With [helocChunkAmount > 0] and [mortgageBalance <= 0],
    [simulateVelocityBanking] returns (it does not raise) zero months and zero
    mortgage, credit-line and combined interest: the initial chunk is the
    mortgage balance itself and the loop is not entered. *)
Theorem C10_velocity_no_balance (params : VB.params) :
  0 < VB.helocChunkAmount params ->
  VB.mortgageBalance params <= 0 ->
  exists r,
    simulateVelocityBanking params = Ok r
    /\ simulateVelocityBanking_fuel 0 params = Ok r
    /\ VB.monthsVB r = 0%Z
    /\ VB.totalInterestMortgageVB r = 0
    /\ VB.totalInterestHelocVB r = 0
    /\ VB.totalInterestVBCombined r = 0.
Proof.
  intros Hc HP.
  assert (Hb : computeBaselineMortgage (vb_baseline_params params)
               = Ok baseline_zero).
  { unfold computeBaselineMortgage, computeBaselineMortgage_fuel. simpl.
    rewrite degenerate_true; [reflexivity|left; exact HP]. }
  pose proof (vb_init_no_balance _ _
                (dflt 1200%Z (VB.maxMonthsSimulated params)) Hc HP) as Hs.
  unfold simulateVelocityBanking, simulateVelocityBanking_fuel.
  apply le_false in Hc. rewrite Hc, Hb.
  cbv beta iota delta [bind].
  rewrite !(while_skip _ _ _ _ Hs).
  eexists. split; [reflexivity|]. repeat split; reflexivity.
Qed.

Lemma C10_velocity_no_balance_witness :
  exists r,
    simulateVelocityBanking example_no_balance = Ok r
    /\ simulateVelocityBanking_fuel 0 example_no_balance = Ok r
    /\ VB.monthsVB r = 0%Z
    /\ VB.totalInterestMortgageVB r = 0
    /\ VB.totalInterestHelocVB r = 0
    /\ VB.totalInterestVBCombined r = 0.
Proof.
  apply (C10_velocity_no_balance example_no_balance).
  - unfold Qlt. simpl. lia.
  - unfold Qle. simpl. lia.
Defined.

(** ** The orchestrator *)

(** A successful call of [simulateAllStrategies] is made of four successful
    calls; [all_inv] names their results and rewrites the report. *)
Ltac all_inv H b e v i :=
  unfold simulateAllStrategies in H;
  destruct (computeBaselineMortgage _) as [b| |]; try discriminate H;
  cbv beta iota delta [bind] in H;
  destruct (simulateExtraPaymentStrategy _) as [e| |]; try discriminate H;
  destruct (simulateVelocityBanking _) as [v| |]; try discriminate H;
  destruct (simulateInvestmentStrategy _) as [i| |]; try discriminate H;
  injection H as <-.

(** C7.  In a report returned by [simulateAllStrategies], [velocityVsExtra]
    is derived from the two strategy results of the same report:
    interestSaved = extraPayment.totalInterest - velocity.totalInterest,
    timeSavedMonths = extraPayment.totalMonths - velocity.totalMonths and
    yearsSaved = timeSavedMonths / 12. *)
Theorem C7_velocity_vs_extra (params : All.params) (r : All.result) :
  simulateAllStrategies params = Ok r ->
  let c := All.velocityVsExtra (All.comparisons r) in
  Comparison.interestSaved c
  = Extra.totalInterest (All.extraPayment r)
    - Velocity.totalInterest (All.velocity r)
  /\ Comparison.timeSavedMonths c
     = (Extra.totalMonths (All.extraPayment r)
        - Velocity.totalMonths (All.velocity r))%Z
  /\ Comparison.yearsSaved c = inject_Z (Comparison.timeSavedMonths c) / 12.
Proof.
  intros H. all_inv H b e v i. cbv zeta.
  cbn [All.comparisons All.velocityVsExtra Comparison.interestSaved
       Comparison.timeSavedMonths Comparison.yearsSaved All.extraPayment
       All.velocity Extra.totalInterest Extra.totalMonths
       Velocity.totalInterest Velocity.totalMonths].
  repeat split.
Qed.

Lemma C7_velocity_vs_extra_witness :
  exists r,
    simulateAllStrategies example_all = Ok r
    /\ let c := All.velocityVsExtra (All.comparisons r) in
       Comparison.interestSaved c
       = Extra.totalInterest (All.extraPayment r)
         - Velocity.totalInterest (All.velocity r)
       /\ Comparison.timeSavedMonths c
          = (Extra.totalMonths (All.extraPayment r)
             - Velocity.totalMonths (All.velocity r))%Z
       /\ Comparison.yearsSaved c
          = inject_Z (Comparison.timeSavedMonths c) / 12.
Proof.
  eexists. split.
  - vm_compute. reflexivity.
  - apply (C7_velocity_vs_extra example_all). vm_compute. reflexivity.
Defined.

(** C3.  In a report returned by [simulateAllStrategies]: Velocity Banking is
    the best paydown strategy exactly when velocityVsBaseline.interestSaved is
    strictly greater than extraVsBaseline.interestSaved, and Extra Payment
    otherwise (so on a tie); the investment is the best overall strategy
    exactly when its netBenefit is strictly greater than 0, and the best
    paydown strategy otherwise (so at netBenefit = 0). *)
Theorem C3_winner_selection (params : All.params) (r : All.result) :
  simulateAllStrategies params = Ok r ->
  let cs := All.comparisons r in
  let velocitySaved := Comparison.interestSaved (All.velocityVsBaseline cs) in
  let extraSaved := Comparison.interestSaved (All.extraVsBaseline cs) in
  let paydown := All.bestPaydownStrategy r in
  let overall := All.bestOverallStrategy r in
  let netBenefit := Invest.netBenefit (All.investment r) in
  (extraSaved < velocitySaved <->
   paydown = {| Paydown.name := "Velocity Banking";
                Paydown.data := Paydown.VelocityData (All.velocity r);
                Paydown.comparison := All.velocityVsBaseline cs;
                Paydown.color := "velocity" |})
  /\ (velocitySaved <= extraSaved <->
      paydown = {| Paydown.name := "Extra Payment";
                   Paydown.data := Paydown.ExtraData (All.extraPayment r);
                   Paydown.comparison := All.extraVsBaseline cs;
                   Paydown.color := "extra" |})
  /\ (0 < netBenefit <->
      overall = {| Overall.name := "Investment Strategy";
                   Overall.data := Overall.InvestmentData (All.investment r);
                   Overall.comparison :=
                     Overall.InvestmentComparison
                       (All.investmentVsBestPaydown cs);
                   Overall.color := "investment";
                   Overall.type := "investment" |})
  /\ (netBenefit <= 0 <->
      overall = {| Overall.name := Paydown.name paydown;
                   Overall.data := Overall.PaydownData (Paydown.data paydown);
                   Overall.comparison :=
                     Overall.PaydownComparison (Paydown.comparison paydown);
                   Overall.color := Paydown.color paydown;
                   Overall.type := "paydown" |}).
Proof.
  intros H. all_inv H b e v i. cbv zeta.
  cbn [All.comparisons All.velocityVsBaseline All.extraVsBaseline
       All.investmentVsBestPaydown Comparison.interestSaved
       All.bestPaydownStrategy All.bestOverallStrategy
       All.investment All.velocity All.extraPayment Velocity.totalInterest].
  destruct e as [emp etm eti].
  cbn [Extra.monthlyPayment Extra.totalMonths Extra.totalInterest].
  set (vs := Baseline.totalInterestBaseline b - VB.totalInterestVBCombined v).
  set (es := Baseline.totalInterestBaseline b - eti).
  split; [|split; [|split]].
  - destruct (gt vs es) eqn:E.
    + apply gt_true in E. split; [reflexivity|intros _; exact E].
    + apply gt_false in E. split; [intros F; lra|discriminate].
  - destruct (gt vs es) eqn:E.
    + apply gt_true in E. split; [intros F; lra|discriminate].
    + apply gt_false in E. split; [reflexivity|intros _; exact E].
  - destruct (gt (Invest.netBenefit i) 0) eqn:E.
    + apply gt_true in E. split; [reflexivity|intros _; exact E].
    + apply gt_false in E. split; [intros F; lra|discriminate].
  - destruct (gt (Invest.netBenefit i) 0) eqn:E.
    + apply gt_true in E. split; [intros F; lra|discriminate].
    + apply gt_false in E. split; [reflexivity|intros _; exact E].
Qed.

Lemma C3_winner_selection_witness :
  exists r,
    simulateAllStrategies example_all = Ok r
    /\ let cs := All.comparisons r in
       let velocitySaved :=
         Comparison.interestSaved (All.velocityVsBaseline cs) in
       let extraSaved := Comparison.interestSaved (All.extraVsBaseline cs) in
       let paydown := All.bestPaydownStrategy r in
       let overall := All.bestOverallStrategy r in
       let netBenefit := Invest.netBenefit (All.investment r) in
       (extraSaved < velocitySaved <->
        paydown = {| Paydown.name := "Velocity Banking";
                     Paydown.data := Paydown.VelocityData (All.velocity r);
                     Paydown.comparison := All.velocityVsBaseline cs;
                     Paydown.color := "velocity" |})
       /\ (velocitySaved <= extraSaved <->
           paydown = {| Paydown.name := "Extra Payment";
                        Paydown.data := Paydown.ExtraData (All.extraPayment r);
                        Paydown.comparison := All.extraVsBaseline cs;
                        Paydown.color := "extra" |})
       /\ (0 < netBenefit <->
           overall = {| Overall.name := "Investment Strategy";
                        Overall.data :=
                          Overall.InvestmentData (All.investment r);
                        Overall.comparison :=
                          Overall.InvestmentComparison
                            (All.investmentVsBestPaydown cs);
                        Overall.color := "investment";
                        Overall.type := "investment" |})
       /\ (netBenefit <= 0 <->
           overall = {| Overall.name := Paydown.name paydown;
                        Overall.data :=
                          Overall.PaydownData (Paydown.data paydown);
                        Overall.comparison :=
                          Overall.PaydownComparison
                            (Paydown.comparison paydown);
                        Overall.color := Paydown.color paydown;
                        Overall.type := "paydown" |}).
Proof.
  eexists. split.
  - vm_compute. reflexivity.
  - apply (C3_winner_selection example_all). vm_compute. reflexivity.
Defined.

(** ** The investment projector *)

(** The [for] loop runs its body once for each month left. *)
Lemma invest_loop (h : Z) (f : Invest.state -> Invest.state) (n : nat) :
  (forall s, Invest.month (f s) = Invest.month s + 1)%Z ->
  forall s,
    (Invest.month s + Z.of_nat n = h + 1)%Z ->
    while (invest_cond h) (fun s => Ok (f s)) n s = Ok (Nat.iter n f s).
Proof.
  intros Hf. induction n as [|n IH]; intros s Hm.
  - change (Nat.iter 0 f s) with s.
    apply while_skip. unfold invest_cond. apply Z.leb_gt. lia.
  - cbn [while].
    assert (E : invest_cond h s = true)
      by (unfold invest_cond; apply Z.leb_le; lia).
    rewrite E, IH by (rewrite Hf; lia).
    rewrite Nat.iter_succ_r. reflexivity.
Qed.

Lemma invest_iter_value (r c : Q) (n : nat) :
  Invest.value (Nat.iter n (invest_body r c) invest_init)
  = annuityValue r c n.
Proof.
  induction n as [|n IH]; [reflexivity|].
  cbn [Nat.iter nat_rect annuityValue]. unfold invest_body at 1.
  cbn [Invest.value]. unfold Nat.iter in IH. rewrite IH. reflexivity.
Qed.

Lemma invest_iter_invested (r c : Q) (n : nat) :
  Invest.invested (Nat.iter n (invest_body r c) invest_init)
  == c * inject_Z (Z.of_nat n).
Proof.
  induction n as [|n IH].
  - simpl. ring.
  - cbn [Nat.iter nat_rect]. unfold invest_body at 1.
    cbn [Invest.invested]. unfold Nat.iter in IH. rewrite IH.
    rewrite Nat2Z.inj_succ. unfold Z.succ. rewrite inject_Z_plus. ring.
Qed.

(** [simulateInvestmentStrategy] always returns. *)
Lemma investment_returns (params : Invest.params) :
  exists r, simulateInvestmentStrategy params = Ok r.
Proof.
  unfold simulateInvestmentStrategy, simulateInvestmentStrategy_fuel.
  destruct (_ || _ || _ || _) eqn:G; [eexists; reflexivity|].
  apply orb_false_iff in G. destruct G as [_ G]. apply Z.leb_gt in G.
  rewrite invest_loop;
    [eexists; reflexivity|reflexivity
    |unfold invest_init; cbn [Invest.month]; lia].
Qed.

(** [simulateAllStrategies] always ends: in a report, or in the
    negative-amortization error of the velocity simulation. *)
Lemma all_strategies_ends (params : All.params) :
  (exists r, simulateAllStrategies params = Ok r)
  \/ simulateAllStrategies params = Throw negativeAmortization.
Proof.
  unfold simulateAllStrategies.
  match goal with
  | |- context [computeBaselineMortgage ?p] =>
      destruct (baseline_returns p) as (b & -> & _)
  end.
  cbv beta iota delta [bind].
  match goal with
  | |- context [simulateExtraPaymentStrategy ?p] =>
      destruct (extra_returns p) as (e & -> & _)
  end.
  match goal with
  | |- context [simulateVelocityBanking ?p] =>
      destruct (velocity_returns p) as [(v & -> & _)| ->]
  end.
  - match goal with
    | |- context [simulateInvestmentStrategy ?p] =>
        destruct (investment_returns p) as (i & ->)
    end.
    left. eexists. reflexivity.
  - right. reflexivity.
Qed.

(** C4.  For a horizon h > 0 and a monthly contribution c > 0,
    [simulateInvestmentStrategy] returns: totalValue = the value after h
    months of the recurrence value_0 = 0, value_m = value_(m-1) * (1 +
    annualRate/12) + c; totalInvested = c * h; investmentGains = totalValue -
    totalInvested; netBenefit = investmentGains - (baselineInterest -
    bestPaydownInterest), the interest passed in and not the raw baseline;
    and totalMonths = h. *)
Theorem C4_investment_annuity (params : Invest.params) :
  (0 < Invest.investmentTermMonths params)%Z ->
  0 < Invest.extraPaymentPerMonth params ->
  exists r,
    simulateInvestmentStrategy params = Ok r
    /\ Invest.totalValue r
       = annuityValue (Invest.investmentReturnAnnual params / 12)
                      (Invest.extraPaymentPerMonth params)
                      (Z.to_nat (Invest.investmentTermMonths params))
    /\ Invest.totalInvested r
       == Invest.extraPaymentPerMonth params
          * inject_Z (Invest.investmentTermMonths params)
    /\ Invest.investmentGains r
       = Invest.totalValue r - Invest.totalInvested r
    /\ Invest.netBenefit r
       = Invest.investmentGains r
         - (Invest.baselineInterest params - Invest.bestPaydownInterest params)
    /\ Invest.totalMonths r = Invest.investmentTermMonths params.
Proof.
  intros Hh Hc.
  unfold simulateInvestmentStrategy, simulateInvestmentStrategy_fuel.
  assert (G : not_num (Invest.extraPaymentPerMonth params)
              || le (Invest.extraPaymentPerMonth params) 0
              || not_int (Invest.investmentTermMonths params)
              || (Invest.investmentTermMonths params <=? 0)%Z = false).
  { repeat (apply orb_false_iff; split).
    - unfold not_num. apply not_true_iff_false. rewrite Qeq_bool_iff.
      intros E. rewrite E in Hc. revert Hc. apply Qlt_irrefl.
    - apply le_false. exact Hc.
    - unfold not_int. apply Z.eqb_neq. lia.
    - apply Z.leb_gt. exact Hh. }
  rewrite G.
  rewrite invest_loop;
    [|reflexivity|unfold invest_init; cbn [Invest.month]; lia].
  eexists. split; [reflexivity|]. cbn [Invest.totalValue Invest.totalInvested
    Invest.investmentGains Invest.netBenefit Invest.totalMonths].
  split; [apply invest_iter_value|].
  split; [|repeat split].
  rewrite invest_iter_invested, Z2Nat.id by lia. reflexivity.
Qed.

Lemma C4_investment_annuity_witness :
  exists r,
    simulateInvestmentStrategy example_invest = Ok r
    /\ Invest.totalValue r
       = annuityValue (Invest.investmentReturnAnnual example_invest / 12)
                      (Invest.extraPaymentPerMonth example_invest)
                      (Z.to_nat (Invest.investmentTermMonths example_invest))
    /\ Invest.totalInvested r
       == Invest.extraPaymentPerMonth example_invest
          * inject_Z (Invest.investmentTermMonths example_invest)
    /\ Invest.investmentGains r
       = Invest.totalValue r - Invest.totalInvested r
    /\ Invest.netBenefit r
       = Invest.investmentGains r
         - (Invest.baselineInterest example_invest
            - Invest.bestPaydownInterest example_invest)
    /\ Invest.totalMonths r = Invest.investmentTermMonths example_invest.
Proof.
  apply (C4_investment_annuity example_invest).
  - simpl. lia.
  - unfold Qlt. simpl. lia.
Defined.

(** ** A zero extra payment *)

Lemma Math_min_le_r (a b : Q) : Math_min a b <= b.
Proof.
  unfold Math_min. destruct (Qle_bool a b) eqn:E.
  - apply Qle_bool_iff in E. exact E.
  - apply Qle_refl.
Qed.

Lemma Math_min_proper (a a' b b' : Q) :
  a == a' -> b == b' -> Math_min a b == Math_min a' b'.
Proof.
  intros Ha Hb. unfold Math_min. rewrite <- Ha, <- Hb.
  destruct (Qle_bool a b); assumption.
Qed.

Lemma clamp_proper (x y : Q) :
  x == y -> (if lt x 0 then 0 else x) == (if lt y 0 then 0 else y).
Proof.
  intros H. unfold lt. rewrite <- H.
  destruct (Qle_bool 0 x); simpl; [exact H|reflexivity].
Qed.

(** The regular payment never repays more than the balance, so a zero extra
    payment is not clamped below zero. *)
Lemma extra_principal_zero (pay balance interest : Q) :
  Math_min 0 (balance - (Math_min pay (balance + interest) - interest)) = 0.
Proof.
  unfold Math_min at 1.
  assert (H : Qle_bool 0 (balance - (Math_min pay (balance + interest)
                                     - interest)) = true).
  { apply Qle_bool_iff.
    pose proof (Math_min_le_r pay (balance + interest)). lra. }
  rewrite H. reflexivity.
Qed.

Lemma baseline_cond_proper (cap : Z) (s1 s2 : Baseline.state) :
  state_eq s1 s2 -> baseline_cond cap s1 = baseline_cond cap s2.
Proof.
  intros (Hb & _ & Hm). unfold baseline_cond, gt. rewrite Hb, Hm. reflexivity.
Qed.

Lemma extra_zero_step (rM pay : Q) (s1 s2 : Baseline.state) :
  state_eq s1 s2 ->
  state_eq (baseline_body rM pay s1) (extra_body rM pay 0 s2).
Proof.
  intros (Hb & Hi & Hm). unfold baseline_body, extra_body, state_eq.
  cbn [Baseline.balance Baseline.totalInterest Baseline.months].
  rewrite extra_principal_zero. repeat split.
  - apply clamp_proper.
    assert (E : Math_min pay (Baseline.balance s1 + Baseline.balance s1 * rM)
                == Math_min pay (Baseline.balance s2
                                 + Baseline.balance s2 * rM))
      by (apply Math_min_proper; [reflexivity|rewrite Hb; reflexivity]).
    rewrite E, Hb. ring.
  - rewrite Hi, Hb. reflexivity.
  - rewrite Hm. reflexivity.
Qed.

(** Two loops that agree on their condition and step in lockstep end
    together, in related states. *)
Lemma while_lockstep {S1 S2 : Type} (R : S1 -> S2 -> Prop)
      (cond1 : S1 -> bool) (cond2 : S2 -> bool)
      (f1 : S1 -> S1) (f2 : S2 -> S2) :
  (forall s1 s2, R s1 s2 -> cond1 s1 = cond2 s2) ->
  (forall s1 s2, R s1 s2 -> R (f1 s1) (f2 s2)) ->
  forall fuel s1 s2 s1',
    R s1 s2 ->
    while cond1 (fun s => Ok (f1 s)) fuel s1 = Ok s1' ->
    exists s2', while cond2 (fun s => Ok (f2 s)) fuel s2 = Ok s2' /\ R s1' s2'.
Proof.
  intros Hc Hf. induction fuel as [|fuel IH]; intros s1 s2 s1' HR; simpl;
    rewrite <- (Hc _ _ HR); destruct (cond1 s1); try discriminate.
  - intros [= <-]. eauto.
  - apply IH. apply Hf. exact HR.
  - intros [= <-]. eauto.
Qed.

(** C5.  For every loan (any principal, term, rate and cap),
    [simulateExtraPaymentStrategy] with [extraPaymentPerMonth = 0] returns the
    months to payoff and the total interest of [computeBaselineMortgage] on
    the same loan. *)
Theorem C5_zero_extra_is_baseline
        (P0 : Q) (nM : Z) (rate : Q) (cap : option Z) :
  exists baseline extra,
    computeBaselineMortgage
      {| Baseline.mortgageBalance := P0;
         Baseline.mortgageTermMonths := nM;
         Baseline.mortgageRateAnnual := rate;
         Baseline.maxMonthsSimulated := cap |} = Ok baseline
    /\ simulateExtraPaymentStrategy
         {| Extra.mortgageBalance := P0;
            Extra.mortgageTermMonths := nM;
            Extra.mortgageRateAnnual := rate;
            Extra.extraPaymentPerMonth := 0;
            Extra.maxMonthsSimulated := cap |} = Ok extra
    /\ Extra.totalMonths extra = Baseline.baselineMonths baseline
    /\ Extra.totalInterest extra == Baseline.totalInterestBaseline baseline.
Proof.
  set (bp := {| Baseline.mortgageBalance := P0 |}).
  set (ep := {| Extra.mortgageBalance := P0 |}).
  destruct (baseline_returns bp) as (b & Hb & _).
  exists b. revert Hb.
  unfold computeBaselineMortgage, computeBaselineMortgage_fuel,
    simulateExtraPaymentStrategy, simulateExtraPaymentStrategy_fuel.
  cbn [bp ep Baseline.mortgageBalance Baseline.mortgageTermMonths
       Baseline.mortgageRateAnnual Baseline.maxMonthsSimulated
       Extra.mortgageBalance Extra.mortgageTermMonths
       Extra.mortgageRateAnnual Extra.maxMonthsSimulated
       Extra.extraPaymentPerMonth].
  destruct (le P0 0 || (nM <=? 0)%Z).
  - intros [= <-]. eexists. split; [reflexivity|].
    split; [reflexivity|]. split; reflexivity.
  - destruct (while _ _ _ _) as [s1| |] eqn:W in |- *; simpl; try discriminate.
    intros [= <-].
    destruct (while_lockstep state_eq _ (baseline_cond (dflt 1200%Z cap)) _
                (extra_body (rate / 12) (levelPayment P0 nM (rate / 12)) 0)
                (baseline_cond_proper _)
                (extra_zero_step (rate / 12)
                                 (levelPayment P0 nM (rate / 12)))
                _ _ (baseline_init P0) _
                (conj (Qeq_refl _) (conj (Qeq_refl _) eq_refl)) W)
      as (s2 & W2 & _ & Hi & Hm).
    rewrite W2. eexists. split; [reflexivity|]. split; [reflexivity|].
    simpl. split; [symmetry; exact Hm|symmetry; exact Hi].
Qed.

(** ** The simulators over the arithmetic of the program *)

(** *** A loop whose counter is tested against the cap *)

Section Counted.
Variable A : Num.Arith.
Context {St : Type} (cond : St -> bool) (body : St -> res St).
Variables (cnt : St -> Num.t A) (cap : Num.t A) (N : nat).
Hypothesis cap_reached : Num.lt (Num.count A N) cap = false.
Hypothesis cond_below : forall s, cond s = true -> Num.lt (cnt s) cap = true.
Hypothesis body_ticks :
  forall s s', body s = Ok s' -> cnt s' = Num.add (cnt s) Num.one.
Hypothesis body_total : forall s, body s <> OutOfFuel.

(** Once [N] increments bring the counter to a value that is not below the
    cap, a loop that counts its iterations and tests the counter against the
    cap runs at most [N] of them. *)
Lemma while_counted (d j : nat) (s : St) :
  (j + d = N)%nat -> cnt s = Num.count A j ->
  match while cond body d s with
  | Ok s' => exists k, (j <= k <= N)%nat /\ cnt s' = Num.count A k
  | Throw msg => exists s0, body s0 = Throw msg
  | OutOfFuel => False
  end.
Proof.
  revert j s. induction d as [|d IH]; intros j s Hj Hc; simpl.
  - destruct (cond s) eqn:E.
    + apply cond_below in E. rewrite Hc in E.
      replace j with N in E by lia. congruence.
    + exists j. split; [lia|exact Hc].
  - destruct (cond s) eqn:E.
    + destruct (body s) as [s'| |] eqn:B.
      * specialize (IH (S j) s').
        destruct (while cond body d s') as [s2| |].
        -- destruct IH as (k & Hk & Hk'); [lia| |].
           ++ rewrite (body_ticks _ _ B), Hc. reflexivity.
           ++ exists k. split; [lia|exact Hk'].
        -- apply IH; [lia|]. rewrite (body_ticks _ _ B), Hc. reflexivity.
        -- apply IH; [lia|]. rewrite (body_ticks _ _ B), Hc. reflexivity.
      * exists s. exact B.
      * exact (body_total s B).
    + exists j. split; [lia|exact Hc].
Qed.

End Counted.

(** More fuel than a run needs does not change it. *)
Lemma while_more_fuel {St : Type} (cond : St -> bool) (body : St -> res St)
      (fuel fuel' : nat) (s : St) :
  (fuel <= fuel')%nat -> while cond body fuel s <> OutOfFuel ->
  while cond body fuel' s = while cond body fuel s.
Proof.
  intros Hle H. replace fuel' with (fuel + (fuel' - fuel))%nat by lia.
  apply while_fuel_mono. exact H.
Qed.

Section GenericLoops.
Variable A : Num.Arith.

Lemma generic_baseline_more_fuel (fuel fuel' : nat)
      (params : Generic.Baseline.params A) (b : Generic.Baseline.result A) :
  (fuel <= fuel')%nat ->
  Generic.computeBaselineMortgage A fuel params = Ok b ->
  Generic.computeBaselineMortgage A fuel' params = Ok b.
Proof.
  intros Hle. unfold Generic.computeBaselineMortgage.
  destruct (_ || _); [auto|].
  destruct (while _ _ fuel _) as [s| |] eqn:W; simpl; try discriminate.
  rewrite (while_more_fuel _ _ fuel fuel') by (rewrite ?W; congruence || lia).
  rewrite W. auto.
Qed.

Lemma generic_vb_mortgage_step_months (rM pay : Num.t A)
      (s : Generic.VB.state A) :
  Generic.VB.months (Generic.vb_mortgage_step A rM pay s)
  = Generic.VB.months s.
Proof.
  unfold Generic.vb_mortgage_step. destruct (Num.gt _ _); reflexivity.
Qed.

Lemma generic_vb_heloc_step_months (rH pay : Num.t A)
      (s s' : Generic.VB.state A) :
  Generic.vb_heloc_step A rH pay s = Ok s' ->
  Generic.VB.months s' = Generic.VB.months s.
Proof.
  unfold Generic.vb_heloc_step. destruct (Num.gt _ _).
  - destruct (Generic.helocCannotAmortize _ _ _ _); [discriminate|].
    intros [= <-]. reflexivity.
  - intros [= <-]. reflexivity.
Qed.

Lemma generic_vb_chunk_step_months (repeatChunks : bool) (chunk : Num.t A)
      (s : Generic.VB.state A) :
  Generic.VB.months (Generic.vb_chunk_step A repeatChunks chunk s)
  = Generic.VB.months s.
Proof.
  unfold Generic.vb_chunk_step. destruct (_ && _); [|reflexivity].
  destruct (Num.gt _ _); reflexivity.
Qed.

Lemma generic_vb_month_ticks (params : Generic.VB.params A) (pay : Num.t A)
      (s s' : Generic.VB.state A) :
  Generic.vb_month A params pay s = Ok s' ->
  Generic.VB.months s' = Num.add (Generic.VB.months s) Num.one.
Proof.
  unfold Generic.vb_month, Generic.vb_body.
  destruct (Generic.vb_heloc_step _ _ _ _) as [s1| |] eqn:H;
    cbn [bind]; try discriminate.
  intros [= <-]. rewrite generic_vb_chunk_step_months.
  rewrite (generic_vb_heloc_step_months _ _ _ _ H).
  rewrite generic_vb_mortgage_step_months. reflexivity.
Qed.

Lemma generic_vb_month_throws_only (params : Generic.VB.params A)
      (pay : Num.t A) (s : Generic.VB.state A) (msg : string) :
  Generic.vb_month A params pay s = Throw msg -> msg = negativeAmortization.
Proof.
  unfold Generic.vb_month, Generic.vb_body, Generic.vb_heloc_step.
  destruct (Num.gt _ _); cbn [bind]; [|discriminate].
  destruct (Generic.helocCannotAmortize _ _ _ _); cbn [bind];
    [|discriminate].
  intros [= <-]. reflexivity.
Qed.

Lemma generic_vb_month_total (params : Generic.VB.params A) (pay : Num.t A)
      (s : Generic.VB.state A) :
  Generic.vb_month A params pay s <> OutOfFuel.
Proof.
  unfold Generic.vb_month, Generic.vb_body, Generic.vb_heloc_step.
  destruct (Num.gt _ _); cbn [bind]; [|discriminate].
  destruct (Generic.helocCannotAmortize _ _ _ _); cbn [bind]; discriminate.
Qed.

(** The month in which the credit-line step finds a balance > 0, a payment
    <= the interest and a balance > 0.01 raises the error. *)
Lemma generic_vb_month_throws (params : Generic.VB.params A) (pay : Num.t A)
      (s : Generic.VB.state A) :
  let s1 := Generic.vb_heloc_entry A params pay s in
  Num.gt (Generic.VB.helocBal s1) Num.zero = true ->
  Num.le (Generic.VB.helocPaymentPerMonth params)
         (Num.mul (Generic.VB.helocBal s1)
                  (Num.div (Generic.VB.helocRateAnnual params) Num.twelve))
  = true ->
  Num.gt (Generic.VB.helocBal s1) Num.hundredth = true ->
  Generic.vb_month A params pay s = Throw negativeAmortization.
Proof.
  intros s1 H0 Hp Hb.
  unfold Generic.vb_month, Generic.vb_body.
  fold (Generic.vb_heloc_entry A params pay s). fold s1.
  unfold Generic.vb_heloc_step, Generic.helocCannotAmortize.
  rewrite H0, Hp, Hb. reflexivity.
Qed.

Section Bounded.
Variables (N : nat) (cap : Num.t A).
Hypothesis cap_reached : Num.lt (Num.count A N) cap = false.

Lemma generic_baseline_loop_bounded (f : Generic.Baseline.state A
                                         -> Generic.Baseline.state A)
      (P0 : Num.t A) :
  (forall s, Generic.Baseline.months (f s)
             = Num.add (Generic.Baseline.months s) Num.one) ->
  exists s k,
    (k <= N)%nat /\ Generic.Baseline.months s = Num.count A k
    /\ forall fuel, (N <= fuel)%nat ->
         while (Generic.baseline_cond A cap) (fun s => Ok (f s)) fuel
               (Generic.baseline_init A P0) = Ok s.
Proof.
  intros Hf.
  pose proof (while_counted A (Generic.baseline_cond A cap)
                (fun s => Ok (f s)) (@Generic.Baseline.months A) cap N
                cap_reached) as H.
  specialize (H ltac:(intros s Hs; unfold Generic.baseline_cond in Hs;
                      apply andb_true_iff in Hs; apply Hs)
                ltac:(intros s s' [= <-]; apply Hf)
                ltac:(discriminate) N 0%nat (Generic.baseline_init A P0)
                eq_refl eq_refl).
  destruct (while _ _ N _) as [s| |] eqn:W.
  - destruct H as (k & Hk & Hk'). exists s, k.
    split; [lia|]. split; [exact Hk'|].
    intros fuel Hle. rewrite (while_more_fuel _ _ N fuel);
      [exact W|exact Hle|rewrite W; discriminate].
  - destruct H as (s0 & H). discriminate.
  - contradiction.
Qed.

Lemma generic_baseline_bounded (params : Generic.Baseline.params A) :
  JS.dflt Num.defaultCap (Generic.Baseline.maxMonthsSimulated params) = cap ->
  exists r k,
    (k <= N)%nat /\ Generic.Baseline.baselineMonths r = Num.count A k
    /\ forall fuel, (N <= fuel)%nat ->
         Generic.computeBaselineMortgage A fuel params = Ok r.
Proof.
  intros Hcap. unfold Generic.computeBaselineMortgage. rewrite Hcap.
  destruct (_ || _).
  - exists (Generic.baseline_zero A), 0%nat.
    split; [lia|]. split; reflexivity.
  - destruct (generic_baseline_loop_bounded
                (Generic.baseline_body A
                   (Num.div (Generic.Baseline.mortgageRateAnnual params)
                            Num.twelve)
                   (Generic.levelPayment A
                      (Generic.Baseline.mortgageBalance params)
                      (Generic.Baseline.mortgageTermMonths params)
                      (Num.div (Generic.Baseline.mortgageRateAnnual params)
                               Num.twelve)))
                (Generic.Baseline.mortgageBalance params))
      as (s & k & Hk & Hm & Hrun); [reflexivity|].
    eexists _, k. split; [exact Hk|]. split; [|intros fuel Hle;
      rewrite (Hrun fuel Hle); reflexivity]. exact Hm.
Qed.

Lemma generic_extra_bounded (params : Generic.Extra.params A) :
  JS.dflt Num.defaultCap (Generic.Extra.maxMonthsSimulated params) = cap ->
  exists r k,
    (k <= N)%nat /\ Generic.Extra.totalMonths r = Num.count A k
    /\ forall fuel, (N <= fuel)%nat ->
         Generic.simulateExtraPaymentStrategy A fuel params = Ok r.
Proof.
  intros Hcap. unfold Generic.simulateExtraPaymentStrategy. rewrite Hcap.
  destruct (_ || _).
  - exists (Generic.extra_zero A), 0%nat.
    split; [lia|]. split; reflexivity.
  - destruct (generic_baseline_loop_bounded
                (Generic.extra_body A
                   (Num.div (Generic.Extra.mortgageRateAnnual params)
                            Num.twelve)
                   (Generic.levelPayment A
                      (Generic.Extra.mortgageBalance params)
                      (Generic.Extra.mortgageTermMonths params)
                      (Num.div (Generic.Extra.mortgageRateAnnual params)
                               Num.twelve))
                   (Generic.Extra.extraPaymentPerMonth params))
                (Generic.Extra.mortgageBalance params))
      as (s & k & Hk & Hm & Hrun); [reflexivity|].
    eexists _, k. split; [exact Hk|]. split; [|intros fuel Hle;
      rewrite (Hrun fuel Hle); reflexivity]. exact Hm.
Qed.

Lemma generic_velocity_bounded (params : Generic.VB.params A) :
  JS.dflt Num.defaultCap (Generic.VB.maxMonthsSimulated params) = cap ->
  (exists r k,
      (k <= N)%nat /\ Generic.VB.monthsVB r = Num.count A k
      /\ forall fuel, (N <= fuel)%nat ->
           Generic.simulateVelocityBanking A fuel params = Ok r)
  \/ (forall fuel, (N <= fuel)%nat ->
        Generic.simulateVelocityBanking A fuel params
        = Throw negativeAmortization).
Proof.
  intros Hcap.
  destruct (generic_baseline_bounded (Generic.vb_baseline_params A params))
    as (b & kb & Hkb & Hmb & Hb).
  { unfold Generic.vb_baseline_params. cbn. exact Hcap. }
  unfold Generic.simulateVelocityBanking. rewrite Hcap.
  destruct (Num.le _ _).
  - left. eexists _, kb. split; [exact Hkb|].
    split; [|intros fuel Hle; rewrite (Hb fuel Hle); reflexivity].
    exact Hmb.
  - set (body := Generic.vb_month A params
                   (Generic.Baseline.baselineMonthlyPayment b)).
    set (init := Generic.vb_init A (Generic.VB.mortgageBalance params)
                   (Generic.VB.helocChunkAmount params)).
    pose proof (while_counted A (Generic.vb_cond A cap) body
                  (@Generic.VB.months A) cap N cap_reached) as H.
    specialize (H ltac:(intros s Hs; unfold Generic.vb_cond in Hs;
                        apply andb_true_iff in Hs; apply Hs)
                  ltac:(intros s s'; apply generic_vb_month_ticks)
                  ltac:(intros s; apply generic_vb_month_total)
                  N 0%nat init eq_refl eq_refl).
    assert (Hrun : forall fuel, (N <= fuel)%nat ->
               while (Generic.vb_cond A cap) body fuel init
               = while (Generic.vb_cond A cap) body N init).
    { intros fuel Hle. apply while_more_fuel; [exact Hle|].
      destruct (while _ _ N _); [discriminate..|contradiction]. }
    destruct (while _ _ N _) as [s| |] eqn:W.
    + destruct H as (k & Hk & Hk'). left. eexists _, k.
      split; [lia|].
      split; [|intros fuel Hle; rewrite (Hb fuel Hle); cbn [bind];
               fold body init; rewrite (Hrun fuel Hle); reflexivity].
      exact Hk'.
    + destruct H as (s0 & H).
      apply generic_vb_month_throws_only in H. subst msg.
      right. intros fuel Hle. rewrite (Hb fuel Hle). cbn [bind].
      fold body init. rewrite (Hrun fuel Hle). reflexivity.
    + contradiction.
Qed.

End Bounded.
End GenericLoops.

(** *** The counter in exact arithmetic and in binary64 *)

Lemma exact_count (k : nat) : Num.count Num.Exact k == inject_Z (Z.of_nat k).
Proof.
  induction k as [|k IH].
  - reflexivity.
  - change (Num.count Num.Exact (S k)) with (Num.count Num.Exact k + 1).
    rewrite IH, Nat2Z.inj_succ. unfold Z.succ. rewrite inject_Z_plus.
    reflexivity.
Qed.

(** In exact arithmetic the counter is no longer below the cap after
    max(0, ceiling(cap)) increments. *)
Lemma exact_cap_reached (cap : Q) :
  Num.lt (Num.count Num.Exact (Z.to_nat (Qceiling cap))) cap = false.
Proof.
  cbn [Num.lt Num.Exact]. unfold JS.lt. apply negb_false_iff.
  apply Qle_bool_iff. rewrite exact_count.
  apply Qle_trans with (inject_Z (Qceiling cap)); [apply Qle_ceiling|].
  rewrite <- Zle_Qle. lia.
Qed.

Lemma binary64_default_cap_reached (Math_pow : float -> float -> float) :
  Num.lt (Num.count (Num.Binary64 Math_pow) 1200) Num.defaultCap = false.
Proof. vm_compute. reflexivity. Qed.

Lemma binary64_count_le (Math_pow : float -> float -> float) (k : nat) :
  (k <= 1200)%nat ->
  Num.le (Num.count (Num.Binary64 Math_pow) k) Num.defaultCap = true.
Proof.
  intros Hk.
  assert (H : forallb (fun k => Num.le (Num.count (Num.Binary64 Math_pow) k)
                                       Num.defaultCap)
                      (List.seq 0 1201) = true)
    by (vm_compute; reflexivity).
  rewrite forallb_forall in H. apply H. apply List.in_seq. lia.
Qed.

(** *** Worked examples in binary64 *)

(** A third of 1000 is rounded: after three payments of 333.3333333333333 a
    residue is left, and the loan that exact arithmetic repays in 3 months
    takes the program 4. *)
Example binary64_residue_month (Math_pow : float -> float -> float) :
  match Generic.computeBaselineMortgage (Num.Binary64 Math_pow) 1200
          {| Generic.Baseline.mortgageBalance := 1000%float;
             Generic.Baseline.mortgageTermMonths := 3%float;
             Generic.Baseline.mortgageRateAnnual := 0%float;
             Generic.Baseline.maxMonthsSimulated := None |} with
  | Ok b =>
      Generic.Baseline.baselineMonthlyPayment b = (1000 / 3)%float
      /\ Generic.Baseline.baselineMonths b = 4%float
  | _ => False
  end
  /\ match Generic.computeBaselineMortgage Num.Exact 1200
             {| Generic.Baseline.mortgageBalance := 1000;
                Generic.Baseline.mortgageTermMonths := 3;
                Generic.Baseline.mortgageRateAnnual := 0;
                Generic.Baseline.maxMonthsSimulated := None |} with
     | Ok b => Generic.Baseline.baselineMonths b == 3
     | _ => False
     end.
Proof. split; vm_compute; auto. Qed.

(** A payment equal to the interest, 13824 * 0.1015625 / 12 = 117: exact
    arithmetic finds payment <= interest and raises the error; binary64
    rounds the interest to 116.99999999999999, finds 117 above it and raises
    nothing, the balance stays at 13824 and the loop runs to the cap. *)
Example binary64_rounded_interest (Math_pow : float -> float -> float) :
  match Generic.simulateVelocityBanking (Num.Binary64 Math_pow) 1200
          {| Generic.VB.mortgageBalance := 13824%float;
             Generic.VB.mortgageTermMonths := 2%float;
             Generic.VB.mortgageRateAnnual := 0%float;
             Generic.VB.helocRateAnnual := 0.1015625%float;
             Generic.VB.helocChunkAmount := 13824%float;
             Generic.VB.helocPaymentPerMonth := 117%float;
             Generic.VB.repeatChunks := None;
             Generic.VB.maxMonthsSimulated := None |} with
  | Ok r => Generic.VB.monthsVB r = 1200%float
  | _ => False
  end
  /\ Generic.simulateVelocityBanking Num.Exact 1200
       {| Generic.VB.mortgageBalance := 13824;
          Generic.VB.mortgageTermMonths := 2;
          Generic.VB.mortgageRateAnnual := 0;
          Generic.VB.helocRateAnnual := 1015625 # 10000000;
          Generic.VB.helocChunkAmount := 13824;
          Generic.VB.helocPaymentPerMonth := 117;
          Generic.VB.repeatChunks := None;
          Generic.VB.maxMonthsSimulated := None |}
     = Throw negativeAmortization.
Proof. split; vm_compute; auto. Qed.

(** A payment a rounding above the exact interest, 6912 * 0.109375 / 12 = 63:
    binary64 rounds the interest up to the payment 63.00000000000001 and
    raises the error in the first month. *)
Example binary64_rounded_up_interest (Math_pow : float -> float -> float) :
  Generic.simulateVelocityBanking (Num.Binary64 Math_pow) 1200
    {| Generic.VB.mortgageBalance := 6912%float;
       Generic.VB.mortgageTermMonths := 12%float;
       Generic.VB.mortgageRateAnnual := 0%float;
       Generic.VB.helocRateAnnual := 0.109375%float;
       Generic.VB.helocChunkAmount := 6912%float;
       Generic.VB.helocPaymentPerMonth := 0x1.f800000000001p+5%float;
       Generic.VB.repeatChunks := None;
       Generic.VB.maxMonthsSimulated := None |}
  = Throw negativeAmortization.
Proof. vm_compute. reflexivity. Qed.

(** *** The branch taken for a positive chunk *)

(** [helocChunkAmount > 0] makes the test [helocChunkAmount <= 0] of the
    first branch false, in exact arithmetic and in binary64. *)
Lemma exact_positive_not_le (x : Q) :
  @Num.gt Num.Exact x Num.zero = true ->
  @Num.le Num.Exact x Num.zero = false.
Proof.
  cbn [Num.gt Num.le Num.zero Num.Exact]. unfold JS.gt, JS.le.
  apply negb_true_iff.
Qed.

Lemma binary64_positive_not_le (Math_pow : float -> float -> float)
      (x : float) :
  @Num.gt (Num.Binary64 Math_pow) x Num.zero = true ->
  @Num.le (Num.Binary64 Math_pow) x Num.zero = false.
Proof.
  cbn [Num.gt Num.le Num.zero Num.Binary64].
  rewrite ltb_spec, leb_spec.
  change (Prim2SF 0) with (S754_zero false).
  destruct (Prim2SF x) as [[]|[]| |[] m e]; cbn; congruence.
Qed.

(** *** Negative amortization *)

(** C1.  In whatever arithmetic the program computes, take an input that
    passes the test of the first branch ([helocChunkAmount <= 0] is false,
    as it is for every [helocChunkAmount > 0]) and whose simulation, after
    [k] months, starts a further month in which the credit-line step is run
    (line balance > 0) and finds the fixed payment <= that month's line
    interest while the line balance is > 0.01 -- each test being the
    program's own, on the values the program has computed.  Then
    [simulateVelocityBanking] raises the negative-amortization error: with
    fuel for the baseline and for the [k + 1] months the call is that error,
    and with no amount of fuel does it return a result, neither with a capped
    payment nor after a run to the safety cap. *)
Theorem C1_negative_amortization_raised
        (A : Num.Arith) (params : Generic.VB.params A) (fuel0 : nat)
        (baseline : Generic.Baseline.result A)
        (k : nat) (s : Generic.VB.state A) :
  let cap := dflt Num.defaultCap (Generic.VB.maxMonthsSimulated params) in
  let pay := Generic.Baseline.baselineMonthlyPayment baseline in
  let helocBal :=
    Generic.VB.helocBal (Generic.vb_heloc_entry A params pay s) in
  let helocInterest :=
    Num.mul helocBal (Num.div (Generic.VB.helocRateAnnual params) Num.twelve) in
  Num.le (Generic.VB.helocChunkAmount params) Num.zero = false ->
  Generic.computeBaselineMortgage A fuel0 (Generic.vb_baseline_params A params)
  = Ok baseline ->
  reaches (Generic.vb_cond A cap) (Generic.vb_month A params pay) k
          (Generic.vb_init A (Generic.VB.mortgageBalance params)
                           (Generic.VB.helocChunkAmount params))
          s ->
  Generic.vb_cond A cap s = true ->
  Num.gt helocBal Num.zero = true ->
  Num.le (Generic.VB.helocPaymentPerMonth params) helocInterest = true ->
  Num.gt helocBal Num.hundredth = true ->
  (forall fuel, (fuel0 <= fuel)%nat -> (k < fuel)%nat ->
     Generic.simulateVelocityBanking A fuel params
     = Throw negativeAmortization)
  /\ (forall fuel r, Generic.simulateVelocityBanking A fuel params <> Ok r).
Proof.
  intros cap pay helocBal helocInterest Hchunk Hb Hreach Hcond H0 Hpay Hbal.
  pose proof (generic_vb_month_throws A params pay s H0 Hpay Hbal) as Hthrow.
  set (init := Generic.vb_init A (Generic.VB.mortgageBalance params)
                 (Generic.VB.helocChunkAmount params)) in *.
  assert (Hrun : forall fuel,
             while (Generic.vb_cond A cap) (Generic.vb_month A params pay)
                   fuel init
             = if (k <? fuel)%nat then Throw negativeAmortization
               else OutOfFuel).
  { intros fuel. destruct (k <? fuel)%nat eqn:E.
    - apply Nat.ltb_lt in E.
      replace fuel with (k + Datatypes.S (fuel - Datatypes.S k))%nat by lia.
      rewrite (while_reaches _ _ _ _ _ Hreach). simpl.
      rewrite Hcond, Hthrow. reflexivity.
    - apply Nat.ltb_ge in E. clear Hthrow.
      revert fuel E. induction Hreach as [s|k s s1 s' Hc Hs _ IH];
        intros fuel E.
      + replace fuel with 0%nat by lia. simpl. rewrite Hcond. reflexivity.
      + destruct fuel as [|fuel]; simpl; rewrite Hc; [reflexivity|].
        rewrite Hs. apply IH; [assumption..|lia]. }
  split.
  - intros fuel Hle Hk. unfold Generic.simulateVelocityBanking.
    rewrite Hchunk.
    rewrite (generic_baseline_more_fuel A fuel0 fuel _ _ Hle Hb).
    cbv beta iota delta [bind]. fold cap pay init. rewrite Hrun.
    apply Nat.ltb_lt in Hk. rewrite Hk. reflexivity.
  - intros fuel r. unfold Generic.simulateVelocityBanking. rewrite Hchunk.
    destruct (Generic.computeBaselineMortgage A fuel _) as [b| |] eqn:Hb';
      cbv beta iota delta [bind]; try discriminate.
    assert (b = baseline) as ->.
    { apply (generic_baseline_more_fuel A fuel (fuel + fuel0)) in Hb';
        [|lia].
      apply (generic_baseline_more_fuel A fuel0 (fuel + fuel0)) in Hb;
        [|lia].
      congruence. }
    fold cap pay init. rewrite Hrun. destruct (k <? fuel)%nat; discriminate.
Qed.

(** The sample input [example_negam], in exact arithmetic: the error is
    raised in month 2. *)
Lemma C1_negative_amortization_raised_witness :
  (forall fuel, (3 <= fuel)%nat -> (1 < fuel)%nat ->
     Generic.simulateVelocityBanking Num.Exact fuel example_negam
     = Throw negativeAmortization)
  /\ (forall fuel r,
        Generic.simulateVelocityBanking Num.Exact fuel example_negam <> Ok r).
Proof.
  eapply (C1_negative_amortization_raised Num.Exact example_negam 3 _ 1 _).
  - vm_compute. reflexivity.
  - vm_compute. reflexivity.
  - eapply reaches_step.
    + vm_compute. reflexivity.
    + vm_compute. reflexivity.
    + apply reaches_here.
  - vm_compute. reflexivity.
  - vm_compute. reflexivity.
  - vm_compute. reflexivity.
  - vm_compute. reflexivity.
Defined.

(** *** The safety cap *)

(** C9, with the bound that holds.  In whatever arithmetic the program
    computes, let [N] whole months be enough for the loop counter, started at
    0 and incremented [N] times, to be no longer below [maxMonthsSimulated]
    (default 1200).  Then every simulation loop of [computeBaselineMortgage],
    [simulateExtraPaymentStrategy] and [simulateVelocityBanking] runs at most
    [N] iterations: with fuel for [N] iterations or more each call ends, the
    first two in a result and the third in a result or in the
    negative-amortization error, and the returned month count is the counter
    after some [k <= N] increments.
    In exact arithmetic [N] = max(0, ceiling(maxMonthsSimulated)) is enough
    for every cap, and the month count is then a whole number between 0 and
    max(0, ceiling(maxMonthsSimulated)): at most the cap when the cap is a
    whole number >= 0.  In binary64 [N] = 1200 is enough for the default cap,
    and the counter after [k <= 1200] increments is [<= 1200]. *)
Theorem C9_loops_bounded :
  (forall (A : Num.Arith) (N : nat) (cap : Num.t A),
      Num.lt (Num.count A N) cap = false ->
      (forall bp,
          dflt Num.defaultCap (Generic.Baseline.maxMonthsSimulated bp) = cap ->
          exists r k,
            (k <= N)%nat
            /\ Generic.Baseline.baselineMonths r = Num.count A k
            /\ forall fuel, (N <= fuel)%nat ->
                 Generic.computeBaselineMortgage A fuel bp = Ok r)
      /\ (forall ep,
             dflt Num.defaultCap (Generic.Extra.maxMonthsSimulated ep) = cap ->
             exists r k,
               (k <= N)%nat
               /\ Generic.Extra.totalMonths r = Num.count A k
               /\ forall fuel, (N <= fuel)%nat ->
                    Generic.simulateExtraPaymentStrategy A fuel ep = Ok r)
      /\ (forall vp,
             dflt Num.defaultCap (Generic.VB.maxMonthsSimulated vp) = cap ->
             (exists r k,
                 (k <= N)%nat
                 /\ Generic.VB.monthsVB r = Num.count A k
                 /\ forall fuel, (N <= fuel)%nat ->
                      Generic.simulateVelocityBanking A fuel vp = Ok r)
             \/ (forall fuel, (N <= fuel)%nat ->
                   Generic.simulateVelocityBanking A fuel vp
                   = Throw negativeAmortization)))
  /\ (forall cap : Q,
         @Num.lt Num.Exact (Num.count Num.Exact (Z.to_nat (Qceiling cap))) cap
         = false
         /\ forall k, (k <= Z.to_nat (Qceiling cap))%nat ->
              Num.count Num.Exact k == inject_Z (Z.of_nat k)
              /\ 0 <= Num.count Num.Exact k
                   <= inject_Z (Z.max 0 (Qceiling cap)))
  /\ (forall Math_pow : float -> float -> float,
         Num.lt (Num.count (Num.Binary64 Math_pow) 1200) Num.defaultCap
         = false
         /\ forall k, (k <= 1200)%nat ->
              Num.le (Num.count (Num.Binary64 Math_pow) k) Num.defaultCap
              = true).
Proof.
  split; [|split].
  - intros A N cap Hcap. split; [|split].
    + intros bp. apply generic_baseline_bounded. exact Hcap.
    + intros ep. apply generic_extra_bounded. exact Hcap.
    + intros vp. apply generic_velocity_bounded. exact Hcap.
  - intros cap. split; [apply exact_cap_reached|].
    intros k Hk. split; [apply exact_count|].
    rewrite exact_count. rewrite <- (Zle_Qle 0), <- Zle_Qle. lia.
  - intros Math_pow. split; [apply binary64_default_cap_reached|].
    intros k. apply binary64_count_le.
Qed.

(** A cap of 2.5 months on a loan of 12 months, in exact arithmetic: three
    increments bring the counter to 3, which is not below 2.5, so the call
    ends within 3 iterations. *)
Lemma C9_loops_bounded_witness :
  exists r k,
    (k <= 3)%nat
    /\ Generic.Baseline.baselineMonths r = Num.count Num.Exact k
    /\ forall fuel, (3 <= fuel)%nat ->
         Generic.computeBaselineMortgage Num.Exact fuel example_fractional_cap
         = Ok r.
Proof.
  apply (proj1 (proj1 C9_loops_bounded Num.Exact 3%nat (5 # 2) eq_refl)
               example_fractional_cap eq_refl).
Defined.

(** C9 as stated fails for a cap that is not a whole number >= 0.  With a cap
    of 2.5 the loop runs 3 iterations (2 do not end it) and the returned
    month count, 3, exceeds the cap; with a cap of -1 the loop is not entered
    and the returned month count, 0, exceeds the cap. *)
Lemma C9_counterexample :
  (exists r,
      Generic.computeBaselineMortgage Num.Exact 3 example_fractional_cap = Ok r
      /\ Generic.computeBaselineMortgage Num.Exact 2 example_fractional_cap
         = OutOfFuel
      /\ Generic.Baseline.baselineMonths r == 3
      /\ ~ Generic.Baseline.baselineMonths r <= 5 # 2)
  /\ (exists r,
         Generic.computeBaselineMortgage Num.Exact 0 example_negative_cap = Ok r
         /\ Generic.Baseline.baselineMonths r == 0
         /\ ~ Generic.Baseline.baselineMonths r <= - (1)).
Proof.
  split.
  - eexists. split; [vm_compute; reflexivity|].
    split; [vm_compute; reflexivity|].
    split; [reflexivity|]. vm_compute. intros H. apply H. reflexivity.
  - eexists. split; [vm_compute; reflexivity|].
    split; [reflexivity|]. vm_compute. intros H. apply H. reflexivity.
Qed.

(** The same two runs in binary64. *)
Example binary64_cap_exceeded (Math_pow : float -> float -> float) :
  match Generic.computeBaselineMortgage (Num.Binary64 Math_pow) 3
          {| Generic.Baseline.mortgageBalance := 1200%float;
             Generic.Baseline.mortgageTermMonths := 12%float;
             Generic.Baseline.mortgageRateAnnual := 0%float;
             Generic.Baseline.maxMonthsSimulated := Some 2.5%float |} with
  | Ok r => Generic.Baseline.baselineMonths r = 3%float
  | _ => False
  end
  /\ match Generic.computeBaselineMortgage (Num.Binary64 Math_pow) 0
             {| Generic.Baseline.mortgageBalance := 1200%float;
                Generic.Baseline.mortgageTermMonths := 12%float;
                Generic.Baseline.mortgageRateAnnual := 0%float;
                Generic.Baseline.maxMonthsSimulated := Some (-1)%float |} with
     | Ok r => Generic.Baseline.baselineMonths r = 0%float
     | _ => False
     end.
Proof. split; vm_compute; reflexivity. Qed.

(** * Further properties *)

(** ** The investment projector, further *)

(** The guard of [simulateInvestmentStrategy] on a positive horizon and a
    positive contribution. *)
Lemma invest_guard_false (c : Q) (h : Z) :
  (0 < h)%Z -> 0 < c ->
  not_num c || le c 0 || not_int h || (h <=? 0)%Z = false.
Proof.
  intros Hh Hc. repeat (apply orb_false_iff; split).
  - unfold not_num. apply not_true_iff_false. rewrite Qeq_bool_iff.
    intros E. rewrite E in Hc. revert Hc. apply Qlt_irrefl.
  - apply le_false. exact Hc.
  - unfold not_int. apply Z.eqb_neq. lia.
  - apply Z.leb_gt. exact Hh.
Qed.

Lemma invest_guard_true (c : Q) (h : Z) :
  c <= 0 \/ (h <= 0)%Z ->
  not_num c || le c 0 || not_int h || (h <=? 0)%Z = true.
Proof.
  intros [Hc|Hh].
  - apply le_true in Hc. rewrite Hc.
    destruct (not_num c); reflexivity.
  - apply Z.leb_le in Hh. rewrite Hh. apply orb_true_r.
Qed.

(** The result on a positive horizon and contribution, in terms of the loop
    states. *)
Lemma investment_runs (params : Invest.params) :
  (0 < Invest.investmentTermMonths params)%Z ->
  0 < Invest.extraPaymentPerMonth params ->
  simulateInvestmentStrategy params
  = let s := Nat.iter (Z.to_nat (Invest.investmentTermMonths params))
                      (invest_body (Invest.investmentReturnAnnual params / 12)
                                   (Invest.extraPaymentPerMonth params))
                      invest_init in
    Ok {| Invest.totalMonths := Invest.investmentTermMonths params;
          Invest.totalInvested := Invest.invested s;
          Invest.totalValue := Invest.value s;
          Invest.investmentGains := Invest.value s - Invest.invested s;
          Invest.netBenefit :=
            Invest.value s - Invest.invested s
            - (Invest.baselineInterest params
               - Invest.bestPaydownInterest params) |}.
Proof.
  intros Hh Hc.
  unfold simulateInvestmentStrategy, simulateInvestmentStrategy_fuel.
  rewrite (invest_guard_false _ _ Hh Hc).
  rewrite invest_loop;
    [reflexivity|reflexivity|unfold invest_init; cbn [Invest.month]; lia].
Qed.

Lemma annuityValue_zero_rate (r c : Q) (m : nat) :
  r == 0 -> annuityValue r c m == c * inject_Z (Z.of_nat m).
Proof.
  intros Hr. induction m as [|m IH].
  - simpl. ring.
  - cbn [annuityValue]. rewrite IH, Hr, Nat2Z.inj_succ.
    unfold Z.succ. rewrite inject_Z_plus. ring.
Qed.

Lemma annuityValue_ge_invested (r c : Q) (m : nat) :
  0 <= r -> 0 <= c -> c * inject_Z (Z.of_nat m) <= annuityValue r c m.
Proof.
  intros Hr Hc. induction m as [|m IH].
  - cbn [annuityValue Z.of_nat].
    setoid_replace (c * inject_Z 0) with 0 by ring. apply Qle_refl.
  - cbn [annuityValue]. rewrite Nat2Z.inj_succ.
    unfold Z.succ. rewrite inject_Z_plus.
    assert (H0 : 0 <= c * inject_Z (Z.of_nat m)).
    { apply Qmult_le_0_compat; [exact Hc|].
      change 0 with (inject_Z 0). rewrite <- Zle_Qle. lia. }
    assert (H1 : 0 <= annuityValue r c m * r).
    { apply Qmult_le_0_compat; [|exact Hr].
      apply Qle_trans with (c * inject_Z (Z.of_nat m)); assumption. }
    setoid_replace (c * (inject_Z (Z.of_nat m) + inject_Z 1))
      with (c * inject_Z (Z.of_nat m) + c) by ring.
    setoid_replace (annuityValue r c m * (1 + r) + c)
      with (annuityValue r c m + annuityValue r c m * r + c) by ring.
    lra.
Qed.

(** X1.  [simulateInvestmentStrategy] on a contribution <= 0 or a horizon
    <= 0 raises nothing and returns the all-zero record with the horizon
    passed through unchanged. *)
Theorem X1_investment_degenerate (params : Invest.params) :
  Invest.extraPaymentPerMonth params <= 0
  \/ (Invest.investmentTermMonths params <= 0)%Z ->
  simulateInvestmentStrategy params
  = Ok {| Invest.totalMonths := Invest.investmentTermMonths params;
          Invest.totalInvested := 0;
          Invest.totalValue := 0;
          Invest.investmentGains := 0;
          Invest.netBenefit := 0 |}.
Proof.
  intros H.
  unfold simulateInvestmentStrategy, simulateInvestmentStrategy_fuel.
  rewrite (invest_guard_true _ _ H).
  unfold or_zero_int, not_int.
  destruct (Invest.investmentTermMonths params =? 0)%Z eqn:E;
    [|reflexivity].
  apply Z.eqb_eq in E. rewrite E. reflexivity.
Qed.

Lemma X1_investment_degenerate_witness :
  simulateInvestmentStrategy
    {| Invest.investmentTermMonths := 24;
       Invest.extraPaymentPerMonth := 0;
       Invest.investmentReturnAnnual := 10 # 100;
       Invest.baselineInterest := 50;
       Invest.bestPaydownInterest := 20 |}
  = Ok {| Invest.totalMonths := 24;
          Invest.totalInvested := 0;
          Invest.totalValue := 0;
          Invest.investmentGains := 0;
          Invest.netBenefit := 0 |}.
Proof.
  apply (X1_investment_degenerate
           {| Invest.investmentTermMonths := 24;
              Invest.extraPaymentPerMonth := 0;
              Invest.investmentReturnAnnual := 10 # 100;
              Invest.baselineInterest := 50;
              Invest.bestPaydownInterest := 20 |}).
  left. unfold Qle. simpl. lia.
Defined.

(** X2.  At a return rate of 0, a contribution c > 0 over h > 0 months is
    worth what was put in: totalValue = totalInvested = c * h and the gains
    are 0, so the net benefit is minus the interest the paydown saves. *)
Theorem X2_investment_zero_rate (params : Invest.params) :
  (0 < Invest.investmentTermMonths params)%Z ->
  0 < Invest.extraPaymentPerMonth params ->
  Invest.investmentReturnAnnual params == 0 ->
  exists r,
    simulateInvestmentStrategy params = Ok r
    /\ Invest.totalValue r
       == Invest.extraPaymentPerMonth params
          * inject_Z (Invest.investmentTermMonths params)
    /\ Invest.totalValue r == Invest.totalInvested r
    /\ Invest.investmentGains r == 0
    /\ Invest.netBenefit r
       == Invest.bestPaydownInterest params - Invest.baselineInterest params.
Proof.
  intros Hh Hc Hr. rewrite (investment_runs _ Hh Hc). cbv zeta.
  eexists. split; [reflexivity|].
  cbn [Invest.totalValue Invest.totalInvested Invest.investmentGains
       Invest.netBenefit].
  assert (Hv : Invest.value
                 (Nat.iter (Z.to_nat (Invest.investmentTermMonths params))
                    (invest_body (Invest.investmentReturnAnnual params / 12)
                                 (Invest.extraPaymentPerMonth params))
                    invest_init)
               == Invest.extraPaymentPerMonth params
                  * inject_Z (Invest.investmentTermMonths params)).
  { rewrite invest_iter_value, annuityValue_zero_rate, Z2Nat.id by
      (try lia; rewrite Hr; reflexivity). reflexivity. }
  pose proof (invest_iter_invested
                (Invest.investmentReturnAnnual params / 12)
                (Invest.extraPaymentPerMonth params)
                (Z.to_nat (Invest.investmentTermMonths params))) as Hi.
  rewrite Z2Nat.id in Hi by lia.
  rewrite Hv, Hi. repeat split; try reflexivity; ring.
Qed.

Lemma X2_investment_zero_rate_witness :
  exists r,
    simulateInvestmentStrategy
      {| Invest.investmentTermMonths := 3;
         Invest.extraPaymentPerMonth := 100;
         Invest.investmentReturnAnnual := 0;
         Invest.baselineInterest := 50;
         Invest.bestPaydownInterest := 20 |} = Ok r
    /\ Invest.totalValue r == 100 * inject_Z 3
    /\ Invest.totalValue r == Invest.totalInvested r
    /\ Invest.investmentGains r == 0
    /\ Invest.netBenefit r == 20 - 50.
Proof.
  apply (X2_investment_zero_rate
           {| Invest.investmentTermMonths := 3;
              Invest.extraPaymentPerMonth := 100;
              Invest.investmentReturnAnnual := 0;
              Invest.baselineInterest := 50;
              Invest.bestPaydownInterest := 20 |}).
  - simpl. lia.
  - unfold Qlt. simpl. lia.
  - reflexivity.
Defined.

(** X3.  At a return rate >= 0, a contribution c > 0 over h > 0 months never
    loses money: totalInvested <= totalValue and the gains are >= 0. *)
Theorem X3_investment_gains_nonneg (params : Invest.params) :
  (0 < Invest.investmentTermMonths params)%Z ->
  0 < Invest.extraPaymentPerMonth params ->
  0 <= Invest.investmentReturnAnnual params ->
  exists r,
    simulateInvestmentStrategy params = Ok r
    /\ Invest.totalInvested r <= Invest.totalValue r
    /\ 0 <= Invest.investmentGains r.
Proof.
  intros Hh Hc Hr. rewrite (investment_runs _ Hh Hc). cbv zeta.
  eexists. split; [reflexivity|].
  cbn [Invest.totalValue Invest.totalInvested Invest.investmentGains].
  assert (H : Invest.invested
                (Nat.iter (Z.to_nat (Invest.investmentTermMonths params))
                   (invest_body (Invest.investmentReturnAnnual params / 12)
                                (Invest.extraPaymentPerMonth params))
                   invest_init)
              <= Invest.value
                   (Nat.iter (Z.to_nat (Invest.investmentTermMonths params))
                      (invest_body (Invest.investmentReturnAnnual params / 12)
                                   (Invest.extraPaymentPerMonth params))
                      invest_init)).
  { rewrite invest_iter_value, invest_iter_invested.
    apply annuityValue_ge_invested; [|apply Qlt_le_weak; exact Hc].
    apply Qle_shift_div_l; [reflexivity|]. lra. }
  split; [exact H|]. lra.
Qed.

Lemma X3_investment_gains_nonneg_witness :
  exists r,
    simulateInvestmentStrategy example_invest = Ok r
    /\ Invest.totalInvested r <= Invest.totalValue r
    /\ 0 <= Invest.investmentGains r.
Proof.
  apply (X3_investment_gains_nonneg example_invest).
  - simpl. lia.
  - unfold Qlt. simpl. lia.
  - unfold Qle. simpl. lia.
Defined.

(** ** A loan on schedule *)

Section Schedule.
Variables (P0 pay r : Q) (n cap : Z) (rem : Z -> Q).
Hypothesis n_pos : (0 < n)%Z.
Hypothesis rem_init : rem n == P0.
Hypothesis rem_zero : rem 0%Z == 0.
Hypothesis rem_pos : forall m, (0 < m)%Z -> 0 < rem m.
Hypothesis rem_step :
  forall m, (0 < m)%Z -> rem m * (1 + r) - pay == rem (m - 1)%Z.




End Schedule.

(** *** The level payment at a positive rate *)













(** ** A loan at a zero rate *)

Lemma levelPayment_zero_rate (P0 : Q) (n : Z) (r : Q) :
  r <= 0 -> levelPayment P0 n r = P0 / inject_Z n.
Proof.
  intros Hr. unfold levelPayment. apply gt_false in Hr. rewrite Hr.
  reflexivity.
Qed.

(** At a zero monthly rate no month adds interest. *)
Lemma baseline_loop_zero_rate (cap : Z) (r pay P0 : Q) (fuel : nat)
      (s' : Baseline.state) :
  r == 0 ->
  while (baseline_cond cap) (fun s => Ok (baseline_body r pay s)) fuel
        (baseline_init P0) = Ok s' ->
  Baseline.totalInterest s' == 0.
Proof.
  intros Hr W.
  apply (while_invariant _ _ (fun s => Baseline.totalInterest s == 0)) in W.
  - apply W.
  - intros s s1 HI _ [= <-]. unfold baseline_body.
    cbn [Baseline.totalInterest]. rewrite HI, Hr. ring.
  - reflexivity.
Qed.

(** X5.  A zero-rate loan with principal > 0 and term n > 0: the monthly
    payment is P0 / n and, whatever the safety cap, the total interest
    is 0. *)
Theorem X5_baseline_zero_rate
        (P0 : Q) (n : Z) (rate : Q) (cap : option Z) :
  0 < P0 -> (0 < n)%Z -> rate == 0 ->
  exists b,
    computeBaselineMortgage
      {| Baseline.mortgageBalance := P0;
         Baseline.mortgageTermMonths := n;
         Baseline.mortgageRateAnnual := rate;
         Baseline.maxMonthsSimulated := cap |} = Ok b
    /\ Baseline.baselineMonthlyPayment b = P0 / inject_Z n
    /\ Baseline.totalInterestBaseline b == 0.
Proof.
  intros HP Hn Hrate.
  assert (Hr : rate / 12 == 0) by (rewrite Hrate; reflexivity).
  set (bp := {| Baseline.mortgageBalance := P0 |}).
  destruct (baseline_returns bp) as (b & Hb & _).
  exists b. split; [exact Hb|]. revert Hb.
  unfold computeBaselineMortgage, computeBaselineMortgage_fuel.
  cbn [bp Baseline.mortgageBalance Baseline.mortgageTermMonths
       Baseline.mortgageRateAnnual Baseline.maxMonthsSimulated].
  rewrite (degenerate_false _ _ HP Hn).
  rewrite levelPayment_zero_rate by (rewrite Hr; apply Qle_refl).
  destruct (while _ _ _ _) as [s'| |] eqn:W; simpl bind; try discriminate.
  intros [= <-].
  cbn [Baseline.baselineMonthlyPayment Baseline.totalInterestBaseline].
  split; [reflexivity|].
  exact (baseline_loop_zero_rate _ _ _ _ _ _ Hr W).
Qed.

Lemma X5_baseline_zero_rate_witness :
  exists b,
    computeBaselineMortgage
      {| Baseline.mortgageBalance := 500000;
         Baseline.mortgageTermMonths := 300;
         Baseline.mortgageRateAnnual := 0;
         Baseline.maxMonthsSimulated := None |} = Ok b
    /\ Baseline.baselineMonthlyPayment b = 500000 / inject_Z 300
    /\ Baseline.totalInterestBaseline b == 0.
Proof.
  apply (X5_baseline_zero_rate 500000 300 0 None).
  - unfold Qlt. simpl. lia.
  - lia.
  - reflexivity.
Defined.

(** ** Extra payments against the baseline *)

(** Turns the tests of [Math.min] and of the clamp into hypotheses. *)
Ltac q_cases :=
  repeat match goal with
         | |- context [Qle_bool ?a ?b] =>
             let E := fresh "E" in
             destruct (Qle_bool a b) eqn:E;
             [apply Qle_bool_iff in E | apply le_false in E]
         end.

Lemma extra_step_no_worse (r pay e : Q) (s_e s_b : Baseline.state) :
  0 <= r -> 0 <= e -> no_worse s_e s_b ->
  no_worse (extra_body r pay e s_e) (baseline_body r pay s_b).
Proof.
  intros Hr He (Hm & Hb & Hi). unfold no_worse, extra_body, baseline_body.
  cbn [Baseline.months Baseline.balance Baseline.totalInterest].
  pose proof (Qmult_le_compat_r _ _ r Hb Hr) as Hir.
  set (be := Baseline.balance s_e) in *. set (bb := Baseline.balance s_b) in *.
  set (ie := be * r) in *. set (ib := bb * r) in *.
  split; [rewrite Hm; reflexivity|]. split; [|lra].
  unfold Math_min, lt. q_cases; cbn [negb]; lra.
Qed.

Lemma baseline_run_grows (r pay : Q) (cap : Z) (fuel : nat)
      (s s' : Baseline.state) :
  0 <= r ->
  while (baseline_cond cap) (fun s => Ok (baseline_body r pay s)) fuel s
  = Ok s' ->
  (Baseline.months s <= Baseline.months s')%Z
  /\ Baseline.totalInterest s <= Baseline.totalInterest s'.
Proof.
  intros Hr W.
  apply (while_invariant _ _
           (fun s1 => (Baseline.months s <= Baseline.months s1)%Z
                      /\ Baseline.totalInterest s
                         <= Baseline.totalInterest s1)) in W;
    [tauto| |split; [lia|apply Qle_refl]].
  intros s1 s2 [Hm Hi] Hc [= <-]. unfold baseline_cond in Hc.
  apply andb_true_iff in Hc. destruct Hc as [Hc _]. apply gt_true in Hc.
  unfold baseline_body.
  cbn [Baseline.months Baseline.balance Baseline.totalInterest].
  split; [lia|].
  assert (0 <= Baseline.balance s1 * r)
    by (apply Qmult_le_0_compat; [apply Qlt_le_weak|]; assumption).
  lra.
Qed.

Lemma extra_run_interest (r pay e : Q) (cap : Z) (fuel : nat)
      (s s' : Baseline.state) :
  0 <= r -> 0 <= Baseline.totalInterest s ->
  while (baseline_cond cap) (fun s => Ok (extra_body r pay e s)) fuel s
  = Ok s' ->
  0 <= Baseline.totalInterest s'.
Proof.
  intros Hr H0 W.
  apply (while_invariant _ _ (fun s1 => 0 <= Baseline.totalInterest s1)) in W;
    [tauto| |exact H0].
  intros s1 s2 Hi Hc [= <-]. unfold baseline_cond in Hc.
  apply andb_true_iff in Hc. destruct Hc as [Hc _]. apply gt_true in Hc.
  unfold extra_body. cbn [Baseline.totalInterest].
  assert (0 <= Baseline.balance s1 * r)
    by (apply Qmult_le_0_compat; [apply Qlt_le_weak|]; assumption).
  lra.
Qed.

Lemma extra_run_no_worse (r pay e : Q) (cap : Z) (fuel : nat) :
  0 <= r -> 0 <= e ->
  forall s_e s_b s_e' s_b',
    no_worse s_e s_b ->
    while (baseline_cond cap) (fun s => Ok (extra_body r pay e s)) fuel s_e
    = Ok s_e' ->
    while (baseline_cond cap) (fun s => Ok (baseline_body r pay s)) fuel s_b
    = Ok s_b' ->
    (Baseline.months s_e' <= Baseline.months s_b')%Z
    /\ Baseline.totalInterest s_e' <= Baseline.totalInterest s_b'.
Proof.
  intros Hr He. induction fuel as [|fuel IH]; intros s_e s_b s_e' s_b' HR.
  - simpl. destruct (baseline_cond cap s_e); [discriminate|].
    destruct (baseline_cond cap s_b); [discriminate|].
    intros [= <-] [= <-]. destruct HR as (Hm & _ & Hi).
    split; [lia|exact Hi].
  - destruct (baseline_cond cap s_e) eqn:Ce.
    + assert (Cb : baseline_cond cap s_b = true).
      { destruct HR as (Hm & Hb & _). unfold baseline_cond in *.
        apply andb_true_iff in Ce. destruct Ce as [C1 C2].
        apply gt_true in C1. rewrite <- Hm, C2, andb_true_r.
        apply gt_true. lra. }
      simpl. rewrite Ce, Cb. apply IH.
      apply extra_step_no_worse; assumption.
    + rewrite (while_skip _ _ _ _ Ce). intros [= <-] Wb.
      apply baseline_run_grows in Wb; [|exact Hr].
      destruct HR as (Hm & _ & Hi). destruct Wb as [Wm Wi].
      split; [lia|lra].
Qed.

(** X6.  In exact arithmetic, at a rate >= 0 an extra payment >= 0 never
    costs interest: on the same loan [simulateExtraPaymentStrategy] returns
    no more total interest than [computeBaselineMortgage], and its total
    interest is >= 0. *)
Theorem X6_extra_payment_no_worse
        (P0 : Q) (n : Z) (rate extra : Q) (cap : option Z) :
  0 <= rate -> 0 <= extra ->
  exists b e,
    computeBaselineMortgage
      {| Baseline.mortgageBalance := P0;
         Baseline.mortgageTermMonths := n;
         Baseline.mortgageRateAnnual := rate;
         Baseline.maxMonthsSimulated := cap |} = Ok b
    /\ simulateExtraPaymentStrategy
         {| Extra.mortgageBalance := P0;
            Extra.mortgageTermMonths := n;
            Extra.mortgageRateAnnual := rate;
            Extra.extraPaymentPerMonth := extra;
            Extra.maxMonthsSimulated := cap |} = Ok e
    /\ Extra.totalInterest e <= Baseline.totalInterestBaseline b
    /\ 0 <= Extra.totalInterest e.
Proof.
  intros Hrate He.
  assert (Hr : 0 <= rate / 12)
    by (apply Qle_shift_div_l; [reflexivity|lra]).
  set (bp := {| Baseline.mortgageBalance := P0 |}).
  set (ep := {| Extra.mortgageBalance := P0 |}).
  destruct (baseline_returns bp) as (b & Hb & _).
  destruct (extra_returns ep) as (e & Hx & _).
  exists b, e. split; [exact Hb|]. split; [exact Hx|].
  revert Hb Hx.
  unfold computeBaselineMortgage, computeBaselineMortgage_fuel,
    simulateExtraPaymentStrategy, simulateExtraPaymentStrategy_fuel.
  cbn [bp ep Baseline.mortgageBalance Baseline.mortgageTermMonths
       Baseline.mortgageRateAnnual Baseline.maxMonthsSimulated
       Extra.mortgageBalance Extra.mortgageTermMonths
       Extra.mortgageRateAnnual Extra.maxMonthsSimulated
       Extra.extraPaymentPerMonth].
  destruct (le P0 0 || (n <=? 0)%Z).
  - intros [= <-] [= <-]. simpl. split; apply Qle_refl.
  - destruct (while _ (fun s => Ok (baseline_body _ _ s)) _ _)
      as [sb| |] eqn:Wb; simpl bind; try discriminate.
    destruct (while _ (fun s => Ok (extra_body _ _ _ s)) _ _)
      as [se| |] eqn:We; simpl bind; try discriminate.
    intros [= <-] [= <-].
    cbn [Extra.totalInterest Baseline.totalInterestBaseline].
    pose proof (extra_run_interest _ _ _ _ _ (baseline_init P0) _ Hr
                  (Qle_refl 0) We) as H0.
    destruct (extra_run_no_worse _ _ _ _ _ Hr He _ _ _ _
                (conj eq_refl (conj (Qle_refl _) (Qle_refl _))) We Wb)
      as [_ Hi].
    split; assumption.
Qed.

Lemma X6_extra_payment_no_worse_witness :
  exists b e,
    computeBaselineMortgage
      {| Baseline.mortgageBalance := 500000;
         Baseline.mortgageTermMonths := 300;
         Baseline.mortgageRateAnnual := 63 # 1000;
         Baseline.maxMonthsSimulated := None |} = Ok b
    /\ simulateExtraPaymentStrategy
         {| Extra.mortgageBalance := 500000;
            Extra.mortgageTermMonths := 300;
            Extra.mortgageRateAnnual := 63 # 1000;
            Extra.extraPaymentPerMonth := 3000;
            Extra.maxMonthsSimulated := None |} = Ok e
    /\ Extra.totalInterest e <= Baseline.totalInterestBaseline b
    /\ 0 <= Extra.totalInterest e.
Proof.
  apply (X6_extra_payment_no_worse 500000 300 (63 # 1000) 3000 None).
  - unfold Qle. simpl. lia.
  - unfold Qle. simpl. lia.
Defined.

(** ** The velocity simulator, further *)

(** X8.  Every result of [simulateVelocityBanking], on the chunk <= 0 path
    and on the simulated path alike, is consistent: its three baseline fields
    are those of [computeBaselineMortgage] on the same loan, the combined
    interest is mortgage interest + credit-line interest, interestSaved is
    baseline interest - combined interest, timeSavedMonths is baseline months
    - velocity months and yearsSaved is timeSavedMonths / 12. *)
Theorem X8_velocity_result_consistent (params : VB.params) (r : VB.result) :
  simulateVelocityBanking params = Ok r ->
  computeBaselineMortgage (vb_loan params)
  = Ok {| Baseline.baselineMonthlyPayment := VB.baselineMonthlyPayment r;
          Baseline.baselineMonths := VB.baselineMonths r;
          Baseline.totalInterestBaseline := VB.totalInterestBaseline r |}
  /\ VB.totalInterestVBCombined r
     == VB.totalInterestMortgageVB r + VB.totalInterestHelocVB r
  /\ VB.interestSaved r
     == VB.totalInterestBaseline r - VB.totalInterestVBCombined r
  /\ VB.timeSavedMonths r = (VB.baselineMonths r - VB.monthsVB r)%Z
  /\ VB.yearsSaved r == inject_Z (VB.timeSavedMonths r) / 12.
Proof.
  unfold simulateVelocityBanking, simulateVelocityBanking_fuel.
  rewrite vb_baseline_params_loan.
  destruct (computeBaselineMortgage (vb_loan params)) as [b| |];
    [|destruct (le _ 0); discriminate..].
  destruct b as [bp bm bi]. destruct (le _ 0).
  - intros [= <-].
    cbn [VB.baselineMonthlyPayment VB.baselineMonths VB.totalInterestBaseline
         VB.monthsVB VB.totalInterestMortgageVB VB.totalInterestHelocVB
         VB.totalInterestVBCombined VB.interestSaved VB.timeSavedMonths
         VB.yearsSaved Baseline.baselineMonthlyPayment Baseline.baselineMonths
         Baseline.totalInterestBaseline].
    split; [reflexivity|]. split; [ring|]. split; [ring|].
    split; [lia|reflexivity].
  - cbv beta iota delta [bind].
    destruct (while _ _ _ _) as [s| |]; try discriminate.
    intros [= <-].
    cbn [VB.baselineMonthlyPayment VB.baselineMonths VB.totalInterestBaseline
         VB.monthsVB VB.totalInterestMortgageVB VB.totalInterestHelocVB
         VB.totalInterestVBCombined VB.interestSaved VB.timeSavedMonths
         VB.yearsSaved Baseline.baselineMonthlyPayment Baseline.baselineMonths
         Baseline.totalInterestBaseline].
    repeat split; reflexivity.
Qed.

Lemma X8_velocity_result_consistent_witness :
  exists r,
    simulateVelocityBanking example_no_chunk = Ok r
    /\ computeBaselineMortgage (vb_loan example_no_chunk)
       = Ok {| Baseline.baselineMonthlyPayment := VB.baselineMonthlyPayment r;
               Baseline.baselineMonths := VB.baselineMonths r;
               Baseline.totalInterestBaseline := VB.totalInterestBaseline r |}
    /\ VB.totalInterestVBCombined r
       == VB.totalInterestMortgageVB r + VB.totalInterestHelocVB r
    /\ VB.interestSaved r
       == VB.totalInterestBaseline r - VB.totalInterestVBCombined r
    /\ VB.timeSavedMonths r = (VB.baselineMonths r - VB.monthsVB r)%Z
    /\ VB.yearsSaved r == inject_Z (VB.timeSavedMonths r) / 12.
Proof.
  eexists. split.
  - vm_compute. reflexivity.
  - apply (X8_velocity_result_consistent example_no_chunk).
    vm_compute. reflexivity.
Defined.

(** ** The orchestrator, further *)

(** The orchestrator ends the way its velocity simulation does. *)
Lemma all_follows_velocity (params : All.params) :
  match simulateVelocityBanking (all_velocity_params params) with
  | Ok _ => exists r, simulateAllStrategies params = Ok r
  | Throw msg => simulateAllStrategies params = Throw msg
  | OutOfFuel => simulateAllStrategies params = OutOfFuel
  end.
Proof.
  unfold simulateAllStrategies.
  fold (all_loan params) (all_extra_params params)
       (all_velocity_params params).
  destruct (baseline_returns (all_loan params)) as (b & -> & _).
  cbv beta iota delta [bind].
  destruct (extra_returns (all_extra_params params)) as (e & -> & _).
  destruct (simulateVelocityBanking _) as [v| |]; try reflexivity.
  match goal with
  | |- context [simulateInvestmentStrategy ?p] =>
      destruct (investment_returns p) as (i & ->)
  end.
  eexists. reflexivity.
Qed.

(** X11.  [simulateAllStrategies] raises an error exactly when the velocity
    simulation it runs does, and then the same negative-amortization error;
    otherwise it returns a report.  The baseline, the extra-payment and the
    investment simulation never make it fail. *)
Theorem X11_orchestrator_fails_with_velocity (params : All.params) :
  (forall msg,
      simulateAllStrategies params = Throw msg
      <-> simulateVelocityBanking (all_velocity_params params) = Throw msg)
  /\ ((exists r, simulateAllStrategies params = Ok r)
      <-> exists v, simulateVelocityBanking (all_velocity_params params)
                    = Ok v)
  /\ ((exists r, simulateAllStrategies params = Ok r)
      \/ simulateAllStrategies params = Throw negativeAmortization).
Proof.
  pose proof (all_follows_velocity params) as H.
  split; [|split].
  - intros msg.
    destruct (simulateVelocityBanking _) as [v|m|].
    + destruct H as (r & ->). split; discriminate.
    + rewrite H. split; intros [= ->]; reflexivity.
    + rewrite H. split; discriminate.
  - destruct (simulateVelocityBanking _) as [v|m|].
    + split; eauto.
    + rewrite H. split; intros (x & Hx); discriminate.
    + rewrite H. split; intros (x & Hx); discriminate.
  - apply all_strategies_ends.
Qed.

(** A report names its investment: the projector run on the best paydown
    strategy of the same report. *)
Lemma all_strategies_investment (params : All.params) (r : All.result) :
  simulateAllStrategies params = Ok r ->
  simulateInvestmentStrategy (all_investment_params params r)
  = Ok (All.investment r).
Proof.
  unfold simulateAllStrategies.
  destruct (computeBaselineMortgage _) as [b| |]; try discriminate.
  cbv beta iota delta [bind].
  destruct (simulateExtraPaymentStrategy _) as [e| |]; try discriminate.
  destruct (simulateVelocityBanking _) as [v| |]; try discriminate.
  destruct (simulateInvestmentStrategy _) as [i| |] eqn:Ei; try discriminate.
  intros [= <-]. exact Ei.
Qed.

Lemma investment_totalMonths (params : Invest.params) (i : Invest.result) :
  simulateInvestmentStrategy params = Ok i ->
  Invest.totalMonths i = Invest.investmentTermMonths params.
Proof.
  unfold simulateInvestmentStrategy, simulateInvestmentStrategy_fuel.
  destruct (_ || _ || _ || _).
  - intros [= <-]. cbn [Invest.totalMonths]. unfold or_zero_int, not_int.
    destruct (_ =? 0)%Z eqn:E; [|reflexivity].
    apply Z.eqb_eq in E. symmetry. exact E.
  - destruct (while _ _ _ _); simpl bind; try discriminate.
    intros [= <-]. reflexivity.
Qed.

(** X12.  The best paydown strategy of a report is the one that costs the
    least interest: its recorded saving is the baseline interest less the
    interest of its own data, at least the saving of the extra-payment
    strategy and at least that of velocity banking, so its interest is at
    most either's. *)
Theorem X12_best_paydown_costs_least (params : All.params) (r : All.result) :
  simulateAllStrategies params = Ok r ->
  let best := All.bestPaydownStrategy r in
  let saved := Comparison.interestSaved (Paydown.comparison best) in
  saved
  = Extra.totalInterest (All.baseline r) - data_totalInterest (Paydown.data best)
  /\ Comparison.interestSaved (All.extraVsBaseline (All.comparisons r))
     <= saved
  /\ Comparison.interestSaved (All.velocityVsBaseline (All.comparisons r))
     <= saved
  /\ data_totalInterest (Paydown.data best)
     <= Extra.totalInterest (All.extraPayment r)
  /\ data_totalInterest (Paydown.data best)
     <= Velocity.totalInterest (All.velocity r).
Proof.
  intros H. all_inv H b e v i. cbv zeta.
  cbn [All.comparisons All.velocityVsBaseline All.extraVsBaseline
       Comparison.interestSaved All.bestPaydownStrategy All.baseline
       All.velocity All.extraPayment Velocity.totalInterest
       Extra.totalInterest].
  set (bi := Baseline.totalInterestBaseline b).
  set (ei := Extra.totalInterest e).
  set (vi := VB.totalInterestVBCombined v).
  destruct (gt (bi - vi) (bi - ei)) eqn:E;
    [apply gt_true in E|apply gt_false in E];
    cbn [Paydown.comparison Paydown.data Comparison.interestSaved
         data_totalInterest Velocity.totalInterest];
    fold ei; (split; [reflexivity|]); repeat split; lra.
Qed.

Lemma X12_best_paydown_costs_least_witness :
  exists r,
    simulateAllStrategies example_all = Ok r
    /\ let best := All.bestPaydownStrategy r in
       let saved := Comparison.interestSaved (Paydown.comparison best) in
       saved
       = Extra.totalInterest (All.baseline r)
         - data_totalInterest (Paydown.data best)
       /\ Comparison.interestSaved (All.extraVsBaseline (All.comparisons r))
          <= saved
       /\ Comparison.interestSaved (All.velocityVsBaseline (All.comparisons r))
          <= saved
       /\ data_totalInterest (Paydown.data best)
          <= Extra.totalInterest (All.extraPayment r)
       /\ data_totalInterest (Paydown.data best)
          <= Velocity.totalInterest (All.velocity r).
Proof.
  eexists. split.
  - vm_compute. reflexivity.
  - apply (X12_best_paydown_costs_least example_all). vm_compute. reflexivity.
Defined.

(** X13.  The investment of a report is the projector run over the months
    of the best paydown strategy of that report, against the report's
    baseline interest and that strategy's interest; so its horizon is the
    best paydown strategy's months to payoff, and the comparison object
    carries its net benefit. *)
Theorem X13_investment_follows_best_paydown
        (params : All.params) (r : All.result) :
  simulateAllStrategies params = Ok r ->
  simulateInvestmentStrategy (all_investment_params params r)
  = Ok (All.investment r)
  /\ Invest.totalMonths (All.investment r)
     = data_totalMonths (Paydown.data (All.bestPaydownStrategy r))
  /\ InvestmentComparison.netBenefit
       (All.investmentVsBestPaydown (All.comparisons r))
     = Invest.netBenefit (All.investment r).
Proof.
  intros H. pose proof (all_strategies_investment _ _ H) as Hi.
  split; [exact Hi|]. split.
  - apply investment_totalMonths in Hi. exact Hi.
  - all_inv H b e v i. reflexivity.
Qed.

Lemma X13_investment_follows_best_paydown_witness :
  exists r,
    simulateAllStrategies example_all = Ok r
    /\ simulateInvestmentStrategy (all_investment_params example_all r)
       = Ok (All.investment r)
    /\ Invest.totalMonths (All.investment r)
       = data_totalMonths (Paydown.data (All.bestPaydownStrategy r))
    /\ InvestmentComparison.netBenefit
         (All.investmentVsBestPaydown (All.comparisons r))
       = Invest.netBenefit (All.investment r).
Proof.
  eexists. split.
  - vm_compute. reflexivity.
  - apply (X13_investment_follows_best_paydown example_all).
    vm_compute. reflexivity.
Defined.

(** The saving recorded for the best paydown strategy of a report. *)
Lemma best_paydown_saving (params : All.params) (r : All.result) :
  simulateAllStrategies params = Ok r ->
  Comparison.interestSaved (Paydown.comparison (All.bestPaydownStrategy r))
  = Extra.totalInterest (All.baseline r)
    - data_totalInterest (Paydown.data (All.bestPaydownStrategy r)).
Proof.
  intros H. all_inv H b e v i.
  cbn [All.bestPaydownStrategy All.baseline Extra.totalInterest].
  destruct (gt _ _); reflexivity.
Qed.

(** X14.  With a monthly payment > 0 and a best paydown strategy that takes
    at least a month, the net benefit of a report is the investment gains
    less the interest the best paydown strategy saves, and the amount
    invested is the payment times that strategy's months. *)
Theorem X14_net_benefit_against_best_paydown
        (params : All.params) (r : All.result) :
  simulateAllStrategies params = Ok r ->
  0 < All.helocPaymentPerMonth params ->
  (0 < data_totalMonths (Paydown.data (All.bestPaydownStrategy r)))%Z ->
  Invest.netBenefit (All.investment r)
  = Invest.investmentGains (All.investment r)
    - Comparison.interestSaved
        (Paydown.comparison (All.bestPaydownStrategy r))
  /\ Invest.totalInvested (All.investment r)
     == All.helocPaymentPerMonth params
        * inject_Z (data_totalMonths
                      (Paydown.data (All.bestPaydownStrategy r))).
Proof.
  intros H Hp Hm.
  pose proof (all_strategies_investment _ _ H) as Hi.
  rewrite (best_paydown_saving _ _ H).
  assert (Ez : or_zero (All.helocPaymentPerMonth params)
               = All.helocPaymentPerMonth params).
  { unfold or_zero, not_num.
    destruct (Qeq_bool _ 0) eqn:E; [|reflexivity].
    apply Qeq_bool_iff in E. rewrite E in Hp.
    exfalso. revert Hp. apply Qlt_irrefl. }
  rewrite investment_runs in Hi;
    [|exact Hm|cbn [all_investment_params Invest.extraPaymentPerMonth];
               rewrite Ez; exact Hp].
  cbv zeta in Hi. injection Hi as <-.
  cbn [Invest.netBenefit Invest.investmentGains Invest.totalInvested
       all_investment_params Invest.baselineInterest
       Invest.bestPaydownInterest Invest.investmentTermMonths
       Invest.extraPaymentPerMonth Invest.investmentReturnAnnual].
  split; [reflexivity|].
  rewrite invest_iter_invested, Z2Nat.id, Ez by lia. reflexivity.
Qed.

Lemma X14_net_benefit_against_best_paydown_witness :
  exists r,
    simulateAllStrategies example_all = Ok r
    /\ Invest.netBenefit (All.investment r)
       = Invest.investmentGains (All.investment r)
         - Comparison.interestSaved
             (Paydown.comparison (All.bestPaydownStrategy r))
    /\ Invest.totalInvested (All.investment r)
       == All.helocPaymentPerMonth example_all
          * inject_Z (data_totalMonths
                        (Paydown.data (All.bestPaydownStrategy r))).
Proof.
  eexists. split.
  - vm_compute. reflexivity.
  - apply (X14_net_benefit_against_best_paydown example_all).
    + vm_compute. reflexivity.
    + vm_compute. reflexivity.
    + vm_compute. reflexivity.
Defined.

(** A zero extra payment follows the baseline, month for month. *)
Lemma extra_zero_agrees (P0 : Q) (n : Z) (rate : Q) (cap : option Z)
      (b : Baseline.result) :
  computeBaselineMortgage
    {| Baseline.mortgageBalance := P0;
       Baseline.mortgageTermMonths := n;
       Baseline.mortgageRateAnnual := rate;
       Baseline.maxMonthsSimulated := cap |} = Ok b ->
  exists e,
    simulateExtraPaymentStrategy
      {| Extra.mortgageBalance := P0;
         Extra.mortgageTermMonths := n;
         Extra.mortgageRateAnnual := rate;
         Extra.extraPaymentPerMonth := 0;
         Extra.maxMonthsSimulated := cap |} = Ok e
    /\ Extra.totalMonths e = Baseline.baselineMonths b
    /\ Extra.totalInterest e == Baseline.totalInterestBaseline b.
Proof.
  unfold computeBaselineMortgage, computeBaselineMortgage_fuel,
    simulateExtraPaymentStrategy, simulateExtraPaymentStrategy_fuel.
  cbn [Baseline.mortgageBalance Baseline.mortgageTermMonths
       Baseline.mortgageRateAnnual Baseline.maxMonthsSimulated
       Extra.mortgageBalance Extra.mortgageTermMonths
       Extra.mortgageRateAnnual Extra.maxMonthsSimulated
       Extra.extraPaymentPerMonth].
  destruct (le P0 0 || (n <=? 0)%Z).
  - intros [= <-]. eexists. split; [reflexivity|]. split; reflexivity.
  - destruct (while _ _ _ _) as [s1| |] eqn:W; simpl bind; try discriminate.
    intros [= <-].
    destruct (while_lockstep state_eq _ (baseline_cond (dflt 1200%Z cap)) _
                (extra_body (rate / 12) (levelPayment P0 n (rate / 12)) 0)
                (baseline_cond_proper _)
                (extra_zero_step (rate / 12)
                                 (levelPayment P0 n (rate / 12)))
                _ _ (baseline_init P0) _
                (conj (Qeq_refl _) (conj (Qeq_refl _) eq_refl)) W)
      as (s2 & W2 & _ & Hi & Hm).
    rewrite W2. eexists. split; [reflexivity|].
    simpl. split; [symmetry; exact Hm|symmetry; exact Hi].
Qed.

Lemma or_zero_of_zero (x : Q) : x == 0 -> or_zero x = 0.
Proof.
  intros H. unfold or_zero, not_num. apply Qeq_bool_iff in H. rewrite H.
  reflexivity.
Qed.

Lemma or_zero_nonpos (x : Q) : x <= 0 -> or_zero x <= 0.
Proof.
  intros H. unfold or_zero. destruct (not_num x); [apply Qle_refl|exact H].
Qed.

(** X15.  With no chunk (<= 0) and no monthly payment (0), as when the form
    fields are left empty, [simulateAllStrategies] raises nothing and all
    strategies collapse to the baseline: the extra-payment and the velocity
    result have the baseline's months and interest, the credit line costs
    nothing, nothing is invested, the tie goes to Extra Payment and the best
    overall strategy is that paydown. *)
Theorem X15_no_chunk_no_payment (params : All.params) :
  All.helocChunkAmount params <= 0 ->
  All.helocPaymentPerMonth params == 0 ->
  exists r,
    simulateAllStrategies params = Ok r
    /\ Extra.totalMonths (All.extraPayment r)
       = Extra.totalMonths (All.baseline r)
    /\ Extra.totalInterest (All.extraPayment r)
       == Extra.totalInterest (All.baseline r)
    /\ Velocity.totalMonths (All.velocity r)
       = Extra.totalMonths (All.baseline r)
    /\ Velocity.totalInterest (All.velocity r)
       = Extra.totalInterest (All.baseline r)
    /\ Velocity.helocInterest (All.velocity r) = 0
    /\ All.investment r
       = {| Invest.totalMonths := Extra.totalMonths (All.extraPayment r);
            Invest.totalInvested := 0;
            Invest.totalValue := 0;
            Invest.investmentGains := 0;
            Invest.netBenefit := 0 |}
    /\ Paydown.name (All.bestPaydownStrategy r) = "Extra Payment"%string
    /\ Overall.name (All.bestOverallStrategy r) = "Extra Payment"%string
    /\ Overall.type (All.bestOverallStrategy r) = "paydown"%string.
Proof.
  intros Hc Hp.
  destruct (baseline_returns (all_loan params)) as (b & Hb & _).
  destruct (extra_zero_agrees _ _ _ _ b Hb) as (e & He & Hem & Hei).
  assert (Hv : simulateVelocityBanking (all_velocity_params params)
               = Ok {| VB.baselineMonthlyPayment :=
                         Baseline.baselineMonthlyPayment b;
                       VB.baselineMonths := Baseline.baselineMonths b;
                       VB.totalInterestBaseline :=
                         Baseline.totalInterestBaseline b;
                       VB.monthsVB := Baseline.baselineMonths b;
                       VB.totalInterestMortgageVB :=
                         Baseline.totalInterestBaseline b;
                       VB.totalInterestHelocVB := 0;
                       VB.totalInterestVBCombined :=
                         Baseline.totalInterestBaseline b;
                       VB.interestSaved := 0;
                       VB.timeSavedMonths := 0;
                       VB.yearsSaved := 0 |}).
  { unfold simulateVelocityBanking, simulateVelocityBanking_fuel.
    cbn [all_velocity_params VB.helocChunkAmount].
    apply or_zero_nonpos, le_true in Hc. rewrite Hc.
    change (computeBaselineMortgage
              (vb_baseline_params (all_velocity_params params)))
      with (computeBaselineMortgage (all_loan params)).
    rewrite Hb. reflexivity. }
  unfold simulateAllStrategies.
  fold (all_loan params) (all_extra_params params)
       (all_velocity_params params).
  unfold all_extra_params. rewrite (or_zero_of_zero _ Hp).
  rewrite Hb. cbv beta iota delta [bind].
  rewrite He, Hv.
  cbn [Velocity.totalInterest Velocity.totalMonths Comparison.interestSaved
       VB.monthsVB VB.totalInterestVBCombined VB.totalInterestMortgageVB
       VB.totalInterestHelocVB].
  assert (G : gt (Baseline.totalInterestBaseline b
                  - Baseline.totalInterestBaseline b)
                 (Baseline.totalInterestBaseline b - Extra.totalInterest e)
              = false) by (apply gt_false; lra).
  rewrite G. cbn [Paydown.data data_totalMonths data_totalInterest].
  unfold simulateInvestmentStrategy, simulateInvestmentStrategy_fuel.
  cbn [Invest.extraPaymentPerMonth Invest.investmentTermMonths].
  rewrite invest_guard_true by (left; apply Qle_refl).
  assert (Z0 : or_zero_int (Extra.totalMonths e) = Extra.totalMonths e).
  { unfold or_zero_int, not_int.
    destruct (_ =? 0)%Z eqn:E; [|reflexivity].
    apply Z.eqb_eq in E. symmetry. exact E. }
  rewrite Z0. cbn [Invest.netBenefit].
  change (gt 0 0) with false. cbv iota.
  eexists. split; [reflexivity|].
  cbn [All.extraPayment All.baseline All.velocity All.investment
       All.bestPaydownStrategy All.bestOverallStrategy Extra.totalMonths
       Extra.totalInterest Velocity.totalMonths Velocity.totalInterest
       Velocity.helocInterest Paydown.name Overall.name Overall.type].
  repeat split; assumption.
Qed.

Lemma X15_no_chunk_no_payment_witness :
  exists r,
    simulateAllStrategies
      {| All.mortgageBalance := 500000;
         All.mortgageTermMonths := 300;
         All.mortgageRateAnnual := 63 # 1000;
         All.helocRateAnnual := 7 # 100;
         All.helocChunkAmount := 0;
         All.helocPaymentPerMonth := 0;
         All.repeatChunks := Some true;
         All.investmentReturnAnnual := Some (10 # 100);
         All.maxMonthsSimulated := None |} = Ok r
    /\ Extra.totalMonths (All.extraPayment r)
       = Extra.totalMonths (All.baseline r)
    /\ Extra.totalInterest (All.extraPayment r)
       == Extra.totalInterest (All.baseline r)
    /\ Velocity.totalMonths (All.velocity r)
       = Extra.totalMonths (All.baseline r)
    /\ Velocity.totalInterest (All.velocity r)
       = Extra.totalInterest (All.baseline r)
    /\ Velocity.helocInterest (All.velocity r) = 0
    /\ All.investment r
       = {| Invest.totalMonths := Extra.totalMonths (All.extraPayment r);
            Invest.totalInvested := 0;
            Invest.totalValue := 0;
            Invest.investmentGains := 0;
            Invest.netBenefit := 0 |}
    /\ Paydown.name (All.bestPaydownStrategy r) = "Extra Payment"%string
    /\ Overall.name (All.bestOverallStrategy r) = "Extra Payment"%string
    /\ Overall.type (All.bestOverallStrategy r) = "paydown"%string.
Proof.
  apply (X15_no_chunk_no_payment
           {| All.mortgageBalance := 500000;
              All.mortgageTermMonths := 300;
              All.mortgageRateAnnual := 63 # 1000;
              All.helocRateAnnual := 7 # 100;
              All.helocChunkAmount := 0;
              All.helocPaymentPerMonth := 0;
              All.repeatChunks := Some true;
              All.investmentReturnAnnual := Some (10 # 100);
              All.maxMonthsSimulated := None |}).
  - unfold Qle. simpl. lia.
  - reflexivity.
Defined.

(** ** The hooks *)

(** X16.  [useVelocityBankingSimulation] lets no exception escape and ends
    in one of three outcomes: no result and no error when the balance or the
    term is 0 or a rate is missing; the report of [simulateAllStrategies] and
    no error; or no result and the negative-amortization message as the
    error, exactly when the orchestrator raised it. *)
Theorem X16_simulation_hook_outcomes (params : SimulationHook.params) :
  let missing :=
    SimulationHook.mortgageBalance params == 0
    \/ SimulationHook.mortgageTermMonths params = 0%Z
    \/ SimulationHook.mortgageRateAnnual params = None
    \/ SimulationHook.helocRateAnnual params = None in
  (missing
   /\ useVelocityBankingSimulation params
      = Ok {| SimulationHook.result := None; SimulationHook.error := None |})
  \/ (~ missing
      /\ exists r,
          simulateAllStrategies (hook_all_params params) = Ok r
          /\ useVelocityBankingSimulation params
             = Ok {| SimulationHook.result := Some r;
                     SimulationHook.error := None |})
  \/ (~ missing
      /\ simulateAllStrategies (hook_all_params params)
         = Throw negativeAmortization
      /\ useVelocityBankingSimulation params
         = Ok {| SimulationHook.result := None;
                 SimulationHook.error := Some negativeAmortization |}).
Proof.
  cbv zeta. unfold useVelocityBankingSimulation.
  destruct (not_num _ || not_int _ || is_null _ || is_null _) eqn:G.
  - left. split; [|reflexivity].
    repeat (apply orb_true_iff in G; destruct G as [G|G]).
    + left. apply Qeq_bool_iff. exact G.
    + right; left. apply Z.eqb_eq. exact G.
    + right; right; left.
      destruct (SimulationHook.mortgageRateAnnual params);
        [discriminate|reflexivity].
    + right; right; right.
      destruct (SimulationHook.helocRateAnnual params);
        [discriminate|reflexivity].
  - assert (N : ~ (SimulationHook.mortgageBalance params == 0
                   \/ SimulationHook.mortgageTermMonths params = 0%Z
                   \/ SimulationHook.mortgageRateAnnual params = None
                   \/ SimulationHook.helocRateAnnual params = None)).
    { apply orb_false_iff in G. destruct G as [G G4].
      apply orb_false_iff in G. destruct G as [G G3].
      apply orb_false_iff in G. destruct G as [G1 G2].
      intros [E|[E|[E|E]]].
      - apply Qeq_bool_iff in E. unfold not_num in G1. congruence.
      - apply Z.eqb_eq in E. unfold not_int in G2. congruence.
      - rewrite E in G3. discriminate.
      - rewrite E in G4. discriminate. }
    destruct (all_strategies_ends (hook_all_params params)) as [(r & Hr)|Ht].
    + right; left. split; [exact N|]. exists r. rewrite Hr.
      split; reflexivity.
    + right; right. split; [exact N|]. rewrite Ht.
      split; reflexivity.
Qed.

(** X18.  [useMortgageBaseline] returns the all-zero record, and raises
    nothing, when the balance is <= 0, the term is <= 0 or the rate is
    missing: its own guard covers 0 and the missing rate, the guard of
    [computeBaselineMortgage] covers the negative values. *)
Theorem X18_baseline_hook_degenerate (params : BaselineHook.params) :
  BaselineHook.mortgageBalance params <= 0
  \/ (BaselineHook.mortgageTermMonths params <= 0)%Z
  \/ BaselineHook.mortgageRateAnnual params = None ->
  useMortgageBaseline params
  = Ok {| Baseline.baselineMonthlyPayment := 0;
          Baseline.baselineMonths := 0;
          Baseline.totalInterestBaseline := 0 |}.
Proof.
  intros H. unfold useMortgageBaseline.
  destruct (not_num _ || not_int _ || is_null _) eqn:G; [reflexivity|].
  unfold computeBaselineMortgage, computeBaselineMortgage_fuel.
  cbn [Baseline.mortgageBalance Baseline.mortgageTermMonths].
  rewrite degenerate_true; [reflexivity|].
  destruct H as [H|[H|H]]; [left; exact H|right; exact H|].
  rewrite H in G. cbn [is_null] in G. rewrite orb_true_r in G. discriminate.
Qed.

Lemma X18_baseline_hook_degenerate_witness :
  useMortgageBaseline
    {| BaselineHook.mortgageBalance := -500000;
       BaselineHook.mortgageTermMonths := 300;
       BaselineHook.mortgageRateAnnual := Some (63 # 1000) |}
  = Ok {| Baseline.baselineMonthlyPayment := 0;
          Baseline.baselineMonths := 0;
          Baseline.totalInterestBaseline := 0 |}.
Proof.
  apply (X18_baseline_hook_degenerate
           {| BaselineHook.mortgageBalance := -500000;
              BaselineHook.mortgageTermMonths := 300;
              BaselineHook.mortgageRateAnnual := Some (63 # 1000) |}).
  left. unfold Qle. simpl. lia.
Defined.

(** X19.  [useMortgageBaseline] passes no cap, so the default of 1200 months
    applies: whatever the loan, the hook returns a result, raises nothing,
    and reports a month count between 0 and 1200 -- a term longer than 1200
    months is cut at the cap without an error. *)
Theorem X19_baseline_hook_within_cap (params : BaselineHook.params) :
  exists b,
    useMortgageBaseline params = Ok b
    /\ (0 <= Baseline.baselineMonths b <= 1200)%Z.
Proof.
  unfold useMortgageBaseline.
  destruct (not_num _ || not_int _ || is_null _).
  - eexists. split; [reflexivity|]. cbn [Baseline.baselineMonths]. lia.
  - match goal with
    | |- context [computeBaselineMortgage ?p] =>
        destruct (baseline_returns p) as (b & Hb & Hm)
    end.
    exists b. split; [exact Hb|].
    unfold monthsWithin in Hm. cbn [Baseline.maxMonthsSimulated dflt] in Hm.
    lia.
Qed.

(** ** The mortgage under velocity banking *)

Lemma vb_heloc_step_keeps (rH hpay : Q) (s s' : VB.state) :
  vb_heloc_step rH hpay s = Ok s' ->
  VB.mortBal s' = VB.mortBal s
  /\ VB.interestMortgage s' = VB.interestMortgage s.
Proof.
  unfold vb_heloc_step. destruct (gt _ _).
  - destruct (helocCannotAmortize _ _ _); [discriminate|].
    intros [= <-]. split; reflexivity.
  - intros [= <-]. split; reflexivity.
Qed.

Lemma vb_chunk_step_lowers (rep : bool) (chunk : Q) (s : VB.state) :
  VB.mortBal (vb_chunk_step rep chunk s) <= VB.mortBal s
  /\ VB.interestMortgage (vb_chunk_step rep chunk s) = VB.interestMortgage s.
Proof.
  unfold vb_chunk_step. destruct (_ && _ && _).
  - destruct (gt _ 0) eqn:G; cbn [VB.mortBal VB.interestMortgage].
    + apply gt_true in G. split; [lra|reflexivity].
    + split; [apply Qle_refl|reflexivity].
  - split; [apply Qle_refl|reflexivity].
Qed.

Lemma vb_mortgage_step_no_worse (rM pay : Q) (s_v : VB.state)
      (s_b : Baseline.state) :
  0 <= rM -> 0 < Baseline.balance s_b -> mortgage_no_worse s_v s_b ->
  let s1 := vb_mortgage_step rM pay (vb_tick s_v) in
  VB.mortBal s1 <= Baseline.balance (baseline_body rM pay s_b)
  /\ VB.interestMortgage s1
     <= Baseline.totalInterest (baseline_body rM pay s_b).
Proof.
  intros Hr Hpos (Hm & Hb & Hi). cbv zeta.
  unfold vb_mortgage_step, vb_tick, baseline_body.
  cbn [VB.mortBal VB.interestMortgage Baseline.balance
       Baseline.totalInterest].
  pose proof (Qmult_le_compat_r _ _ rM Hb Hr) as Hir.
  assert (Hib : 0 <= Baseline.balance s_b * rM)
    by (apply Qmult_le_0_compat; [apply Qlt_le_weak|]; assumption).
  set (mv := VB.mortBal s_v) in *. set (bb := Baseline.balance s_b) in *.
  set (iv := mv * rM) in *. set (ib := bb * rM) in *.
  destruct (gt mv 0) eqn:G; [apply gt_true in G|apply gt_false in G];
    cbn [VB.mortBal VB.interestMortgage];
    unfold Math_min, lt; q_cases; cbn [negb]; split; lra.
Qed.

Lemma vb_body_no_worse (rM rH pay hpay chunk : Q) (rep : bool)
      (s_v s_v' : VB.state) (s_b : Baseline.state) :
  0 <= rM -> 0 < Baseline.balance s_b -> mortgage_no_worse s_v s_b ->
  vb_body rM rH pay hpay chunk rep s_v = Ok s_v' ->
  mortgage_no_worse s_v' (baseline_body rM pay s_b).
Proof.
  intros Hr Hpos HR Hbody.
  pose proof (vb_body_months _ _ _ _ _ _ _ _ Hbody) as Hm.
  destruct (vb_mortgage_step_no_worse rM pay s_v s_b Hr Hpos HR) as [H1 H2].
  revert Hbody. unfold vb_body.
  destruct (vb_heloc_step _ _ _) as [s2| |] eqn:Hh; simpl bind;
    try discriminate.
  intros [= <-].
  destruct (vb_heloc_step_keeps _ _ _ _ Hh) as [K1 K2].
  destruct (vb_chunk_step_lowers rep chunk s2) as [L1 L2].
  destruct HR as (HRm & _ & _).
  split; [|split].
  - rewrite Hm, HRm. reflexivity.
  - rewrite K1 in L1. lra.
  - rewrite L2, K2. exact H2.
Qed.

(** Once the mortgage is repaid the velocity loop adds no mortgage interest. *)
Lemma vb_run_mortgage_idle (cap : Z) (rM rH pay hpay chunk : Q) (rep : bool)
      (fuel : nat) (s s' : VB.state) :
  VB.mortBal s <= 0 ->
  while (vb_cond cap) (vb_body rM rH pay hpay chunk rep) fuel s = Ok s' ->
  VB.interestMortgage s' = VB.interestMortgage s.
Proof.
  intros H0 W.
  apply (while_invariant _ _
           (fun s1 => VB.mortBal s1 <= 0
                      /\ VB.interestMortgage s1 = VB.interestMortgage s))
    in W; [tauto| |split; [exact H0|reflexivity]].
  intros s1 s2 [Hb Hi] _. unfold vb_body.
  assert (E : vb_mortgage_step rM pay (vb_tick s1) = vb_tick s1).
  { unfold vb_mortgage_step. cbn [vb_tick VB.mortBal].
    rewrite (proj2 (gt_false _ _) Hb). reflexivity. }
  rewrite E.
  destruct (vb_heloc_step _ _ _) as [s3| |] eqn:Hh; simpl bind;
    try discriminate.
  intros [= <-].
  destruct (vb_heloc_step_keeps _ _ _ _ Hh) as [K1 K2].
  destruct (vb_chunk_step_lowers rep chunk s3) as [L1 L2].
  cbn [vb_tick VB.mortBal VB.interestMortgage] in K1, K2.
  rewrite K1 in L1. split; [lra|congruence].
Qed.

Lemma vb_run_no_worse (cap : Z) (rM rH pay hpay chunk : Q) (rep : bool)
      (fuel : nat) :
  0 <= rM ->
  forall s_v s_b s_v' s_b',
    mortgage_no_worse s_v s_b ->
    while (vb_cond cap) (vb_body rM rH pay hpay chunk rep) fuel s_v
    = Ok s_v' ->
    while (baseline_cond cap) (fun s => Ok (baseline_body rM pay s)) fuel s_b
    = Ok s_b' ->
    VB.interestMortgage s_v' <= Baseline.totalInterest s_b'.
Proof.
  intros Hr. induction fuel as [|fuel IH]; intros s_v s_b s_v' s_b' HR.
  - simpl. destruct (vb_cond cap s_v); [discriminate|].
    destruct (baseline_cond cap s_b); [discriminate|].
    intros [= <-] [= <-]. apply HR.
  - destruct (baseline_cond cap s_b) eqn:Cb.
    + destruct (vb_cond cap s_v) eqn:Cv.
      * simpl. rewrite Cb, Cv.
        destruct (vb_body _ _ _ _ _ _ s_v) as [s1| |] eqn:B;
          try discriminate.
        apply IH. eapply vb_body_no_worse; eauto.
        unfold baseline_cond in Cb. apply andb_true_iff in Cb.
        destruct Cb as [Cb _]. apply gt_true in Cb. exact Cb.
      * rewrite (while_skip _ _ _ _ Cv). intros [= <-] Wb.
        apply baseline_run_grows in Wb; [|exact Hr].
        destruct HR as (_ & _ & Hi). destruct Wb as [_ Wi]. lra.
    + rewrite (while_skip _ _ _ _ Cb). intros Wv [= <-].
      destruct (vb_cond cap s_v) eqn:Cv.
      * assert (Hb0 : VB.mortBal s_v <= 0).
        { destruct HR as (Hm & Hb & _).
          apply vb_cond_months in Cv. unfold baseline_cond in Cb.
          apply andb_false_iff in Cb. destruct Cb as [Cb|Cb].
          - apply gt_false in Cb. lra.
          - apply Z.ltb_ge in Cb. lia. }
        rewrite (vb_run_mortgage_idle _ _ _ _ _ _ _ _ _ _ Hb0 Wv).
        apply HR.
      * rewrite (while_skip _ _ _ _ Cv) in Wv. injection Wv as <-.
        apply HR.
Qed.

(** X20.  Velocity banking never raises the interest paid on the mortgage
    itself: for a loan with principal > 0, term > 0 and rate >= 0, every
    result of [simulateVelocityBanking] has a mortgage interest of at most
    the baseline interest.  What it may cost more is the credit line. *)
Theorem X20_velocity_mortgage_interest (params : VB.params) (v : VB.result) :
  0 < VB.mortgageBalance params ->
  (0 < VB.mortgageTermMonths params)%Z ->
  0 <= VB.mortgageRateAnnual params ->
  simulateVelocityBanking params = Ok v ->
  VB.totalInterestMortgageVB v <= VB.totalInterestBaseline v.
Proof.
  intros HP Hn Hrate.
  assert (Hr : 0 <= VB.mortgageRateAnnual params / 12)
    by (apply Qle_shift_div_l; [reflexivity|lra]).
  unfold simulateVelocityBanking, simulateVelocityBanking_fuel.
  destruct (le _ 0) eqn:Hc.
  - destruct (computeBaselineMortgage _) as [b| |]; simpl bind;
      try discriminate.
    intros [= <-]. apply Qle_refl.
  - unfold computeBaselineMortgage, computeBaselineMortgage_fuel.
    cbn [vb_baseline_params Baseline.mortgageBalance
         Baseline.mortgageTermMonths Baseline.mortgageRateAnnual
         Baseline.maxMonthsSimulated dflt].
    rewrite (degenerate_false _ _ HP Hn).
    destruct (while (baseline_cond _) _ _ _) as [sb| |] eqn:Wb;
      cbv beta iota delta [bind]; try discriminate.
    cbn [Baseline.baselineMonthlyPayment Baseline.baselineMonths
         Baseline.totalInterestBaseline].
    destruct (while (vb_cond _) _ _ _) as [sv| |] eqn:Wv; try discriminate.
    intros [= <-].
    cbn [VB.totalInterestMortgageVB VB.totalInterestBaseline].
    apply (vb_run_no_worse _ _ _ _ _ _ _ _ Hr _ _ _ _) with (3 := Wb) (2 := Wv).
    unfold mortgage_no_worse, vb_init, baseline_init.
    cbn [VB.months VB.mortBal VB.interestMortgage Baseline.months
         Baseline.balance Baseline.totalInterest].
    apply le_false in Hc.
    split; [reflexivity|]. split; [|apply Qle_refl].
    unfold Math_min. q_cases; lra.
Qed.

Lemma X20_velocity_mortgage_interest_witness :
  exists v,
    simulateVelocityBanking
      {| VB.mortgageBalance := 1000;
         VB.mortgageTermMonths := 3;
         VB.mortgageRateAnnual := 12 # 100;
         VB.helocRateAnnual := 12 # 100;
         VB.helocChunkAmount := 200;
         VB.helocPaymentPerMonth := 300;
         VB.repeatChunks := Some true;
         VB.maxMonthsSimulated := Some 5%Z |} = Ok v
    /\ VB.totalInterestMortgageVB v <= VB.totalInterestBaseline v.
Proof.
  eexists. split.
  - vm_compute. reflexivity.
  - apply (X20_velocity_mortgage_interest
             {| VB.mortgageBalance := 1000;
                VB.mortgageTermMonths := 3;
                VB.mortgageRateAnnual := 12 # 100;
                VB.helocRateAnnual := 12 # 100;
                VB.helocChunkAmount := 200;
                VB.helocPaymentPerMonth := 300;
                VB.repeatChunks := Some true;
                VB.maxMonthsSimulated := Some 5%Z |}).
    + unfold Qlt. simpl. lia.
    + simpl. lia.
    + unfold Qle. simpl. lia.
    + vm_compute. reflexivity.
Defined.
